(** * Authenticator: the flow controller of cognito-at-edge

    A shallow embedding of [src/dist/index.js] (class [Authenticator]) and the
    properties of its five flows: [handle], [handleSignIn], [handleParseAuth],
    [handleRefreshToken] and [handleSignOut].

    Conventions of the embedding.
    - A JavaScript value that may be [undefined] is an [option]; a string is
      truthy when it is present and not empty.
    - Objects used as dictionaries (response headers, parsed query string,
      CSRF tokens read from cookies, per-cookie overrides) are [gmap string _].
    - An [async] method is a computation in the monad [M]: it yields the list
      of calls made to the outside world (the trace) and either the value the
      promise resolves to or the error it rejects with.
    - Everything the class only calls (cookie codec, query-string codec,
      JWT verifier, HTTP client, clock, random generators) is a field of the
      record [Collaborators]; the flows are functions of it. A collaborator
      that can throw returns an [Error] or its result.
    - [return f()] inside a [try] block of an [async] method, without
      [await], hands the promise of [f()] to the caller: what [f()] rejects
      with is not seen by the [catch] block. Such calls are placed after the
      [try_catch] of the embedding. *)

From Stdlib Require Import ZArith String Ascii Bool List Lia.
From stdpp Require Import base option list strings pretty gmap.

Local Open Scope Z_scope.

(** ** JavaScript helpers *)

(** Truthiness of a possibly-undefined string. *)
Definition truthy (v : option string) : bool :=
  match v with
  | Some s => negb (String.eqb s "")
  | None => false
  end.

(** [a || b] on possibly-undefined strings. *)
Definition js_or (a b : option string) : option string :=
  if truthy a then a else b.

(** [s.startsWith(p)]. *)
Definition startsWith (s p : string) : bool := String.prefix p s.

(** [s.endsWith(p)]: some tail of [s] is [p]. *)
Fixpoint endsWith (s p : string) : bool :=
  if String.eqb s p then true
  else match s with
       | EmptyString => false
       | String _ s' => endsWith s' p
       end.

(** [s'] is [s] with exactly one byte replaced by another one. *)
Fixpoint single_byte_mutation (s s' : string) : bool :=
  match s, s' with
  | String c r, String c' r' =>
      if Ascii.eqb c c' then single_byte_mutation r r' else String.eqb r r'
  | _, _ => false
  end.

(** Template-literal rendering of a possibly-undefined string. *)
Definition render (v : option string) : string := default "undefined" v.

(** ** Data model *)

(** A parsed request cookie, as returned by [Cookies.parse]. *)
Record Cookie := { name : string; value : string }.

(** The attribute set handed to [Cookies.serialize]. Instants are
    milliseconds since the epoch. *)
Record CookieAttributes := {
  domain : option string;
  expires : option Z;
  secure : option bool;
  httpOnly : option bool;
  sameSite : option string;
  path : option string;
}.

(** One entry of [cookieSettingsOverrides]. *)
Record CookieSettings := {
  ov_expirationDays : option Z;
  ov_path : option string;
  ov_httpOnly : option bool;
  ov_sameSite : option string;
}.

Record Tokens := {
  idToken : option string;
  accessToken : option string;
  refreshToken : option string;
}.

Definition no_tokens : Tokens :=
  {| idToken := None; accessToken := None; refreshToken := None |}.

Record LogoutConfiguration := {
  logoutUri : string;
  logoutRedirectUri : option string;
}.

Record CsrfProtection := { nonceSigningSecret : string }.

(** The fields of an [Authenticator] instance after construction. *)
Record Authenticator := {
  _userPoolAppId : string;
  _userPoolAppSecret : option string;
  _userPoolDomain : string;
  _cookieExpirationDays : Z;
  _disableCookieDomain : bool;
  _httpOnly : bool;
  _sameSite : option string;
  _cookiePath : option string;
  _cookieDomain : option string;
  _csrfProtection : option CsrfProtection;
  _logoutConfiguration : option LogoutConfiguration;
  _parseAuthPath : string;
  _cookieSettingsOverrides : gmap string CookieSettings;
}.

(** [this._cookieBase], set by the constructor. *)
Definition _cookieBase (self : Authenticator) : string :=
  "CognitoIdentityServiceProvider." +:+ _userPoolAppId self.

(** The CloudFront request of the event, [event.Records[0].cf.request]:
    [cookie] is [request.headers.cookie] (the values of the Cookie headers,
    absent when there is none) and [host] is
    [request.headers.host[0].value]. *)
Record Request := {
  uri : string;
  querystring : string;
  cookie : option (list string);
  host : string;
}.

Record Header := { key : string; hvalue : option string }.

(** A CloudFront response; an absent [headers] property is the empty map. *)
Record Response := {
  status : string;
  headers : gmap string (list Header);
  body : option string;
}.

(** What a flow hands back to CloudFront: the request, to be forwarded to the
    origin, or a generated response. *)
Inductive Result :=
| Forward (request : Request)
| Respond (response : Response).

(** The decoded [state] parameter, [{nonce, redirect_uri}]: the two members
    the class reads, each absent when the decoded value does not have it as
    a string. *)
Record ParsedState := {
  ps_nonce : option string;
  ps_redirect_uri : option string;
}.

(** The claims of a verified ID token the class reads. *)
Record Claims := { cognito_username : string }.

(** An HTTP request handed to [axios.request]. *)
Record HttpRequest := {
  url : string;
  method : string;
  authorization : option string;
  data : string;
}.

(** [resp.data] of the token endpoint. *)
Record TokenData := {
  id_token : option string;
  access_token : option string;
  refresh_token : option string;
}.

(** ** Errors *)

Inductive Error :=
| CsrfDisabled
| CookiesNotPresent
| TokensNotPresent
| MissingNonceCookie
| NonceMismatch
| MissingPkceCookie
| SignatureMismatch (calculated : string) (got : option string)
| ParseAuthPathNotSet
| CodeNotFound
| Thrown (description : string).

(** The message given to [new Error(...)]; for an error raised by a
    collaborator, its own description. *)
Definition Error_message (e : Error) : string :=
  match e with
  | CsrfDisabled =>
      "_validateCSRFCookies should not be called if CSRF protection is disabled."
  | CookiesNotPresent => "Cookies weren't present in the request"
  | TokensNotPresent =>
      "Neither idToken, nor refreshToken was present in request cookies"
  | MissingNonceCookie =>
      "Your browser didn't send the nonce cookie along, but it is required for security (prevent CSRF)."
  | NonceMismatch =>
      "Nonce mismatch. This can happen if you start multiple authentication attempts in parallel (e.g. in separate tabs)"
  | MissingPkceCookie =>
      "Your browser didn't send the pkce cookie along, but it is required for security (prevent CSRF)."
  | SignatureMismatch calculated got =>
      "Nonce signature mismatch! Expected " +:+ calculated +:+ " but got "
        +:+ render got
  | ParseAuthPathNotSet => "parseAuthPath is not set"
  | CodeNotFound => "OAuth code parameter not found"
  | Thrown description => description
  end.

(** The rendering [`${err}`]. *)
Definition Error_toString (e : Error) : string :=
  match e with
  | Thrown description => description
  | _ => "Error: " +:+ Error_message e
  end.

(** ** Effects *)

(** The calls a flow makes to the outside world, in order. [EvCsrfValidated]
    marks the point where [_validateCSRFCookies] returns normally. *)
Inductive Event :=
| EvVerify (jwt : option string)
| EvFetchTokensFromCode (request : HttpRequest)
| EvFetchTokensFromRefreshToken (request : HttpRequest)
| EvRevokeTokens (request : HttpRequest)
| EvCsrfValidated.

(** The calls to the token endpoint made with a refresh token. *)
Definition is_refresh_exchange (ev : Event) : bool :=
  match ev with
  | EvFetchTokensFromRefreshToken _ => true
  | _ => false
  end.

Definition M (A : Type) : Type := (list Event * (Error + A))%type.

Definition trace {A} (m : M A) : list Event := fst m.
Definition outcome {A} (m : M A) : Error + A := snd m.

Definition throw {A} (e : Error) : M A := ([], inl e).
Definition emit (ev : Event) : M unit := ([ev], inr tt).

#[global] Instance M_ret : MRet M := fun A a => ([], inr a).
#[global] Instance M_bind : MBind M := fun A B f m =>
  match m with
  | (t, inl e) => (t, inl e)
  | (t, inr a) => let '(t', r) := f a in (t ++ t', r)
  end.
#[global] Instance M_fmap : FMap M := fun A B f m =>
  match m with
  | (t, inl e) => (t, inl e)
  | (t, inr a) => (t, inr (f a))
  end.

(** [try { m } catch (err) { h err }]. *)
Definition try_catch {A} (m : M A) (h : Error -> M A) : M A :=
  match m with
  | (t, inl e) => let '(t', r) := h e in (t ++ t', r)
  | (t, inr a) => (t, inr a)
  end.

(** A call to a collaborator that may fail, recorded in the trace. *)
Definition call {A} (ev : Event) (r : Error + A) : M A := ([ev], r).

(** ** Collaborators *)

(** Everything [index.js] calls but does not define. [Date_now] is the clock
    reading of the request being handled; [generateNonce] and
    [generatePkceVerifier] are the random draws of that request. The verifier
    and the HTTP client answer as functions of what they are asked. *)
Record Collaborators := {
  (** [Cookies.parse] and [Cookies.serialize] of [util/cookie]; the parser
      throws on a header it cannot read. *)
  Cookies_parse : string -> Error + list Cookie;
  Cookies_serialize : string -> option string -> CookieAttributes -> string;
  (** [getCookieDomain(domain, disableCookieDomain, cookieDomain)]. *)
  getCookieDomain : string -> bool -> option string -> option string;
  (** [parse] and [stringify] of Node's [querystring]; a parameter that
      occurs once has a string value. *)
  querystring_parse : string -> gmap string string;
  querystring_stringify : list (string * option string) -> string;
  encodeURIComponent : string -> string;
  (** [Buffer.from(s).toString('base64')]. *)
  base64 : string -> string;
  (** [JSON.parse(Buffer.from(urlSafe.parse(state), 'base64').toString())]:
      the error thrown, or the value parsed, [None] being JSON's [null]; and
      its inverse used when the state is generated. *)
  decodeState : option string -> Error + option ParsedState;
  encodeState : ParsedState -> string;
  (** [signNonce(nonce, secret)] of [util/csrf]. *)
  signNonce : string -> string -> string;
  generateNonce : string;
  generatePkceVerifier : string;
  (** [this._jwtVerifier.verify]. *)
  jwtVerifier_verify : option string -> Error + Claims;
  (** [axios.request]. *)
  axios_request : HttpRequest -> Error + TokenData;
  Date_now : Z;
  (** What the constructor calls: [pino({ level, base: null })] and
      [CognitoJwtVerifier.create({ userPoolId, clientId, tokenUse: 'id' })];
      both check their arguments and may throw. *)
  pino : string -> Error + unit;
  CognitoJwtVerifier_create : string -> string -> Error + unit;
}.

(** The collaborators at another reading of the clock. *)
Definition at_instant (env : Collaborators) (now : Z) : Collaborators :=
  {| Cookies_parse := Cookies_parse env;
     Cookies_serialize := Cookies_serialize env;
     getCookieDomain := getCookieDomain env;
     querystring_parse := querystring_parse env;
     querystring_stringify := querystring_stringify env;
     encodeURIComponent := encodeURIComponent env;
     base64 := base64 env;
     decodeState := decodeState env;
     encodeState := encodeState env;
     signNonce := signNonce env;
     generateNonce := generateNonce env;
     generatePkceVerifier := generatePkceVerifier env;
     jwtVerifier_verify := jwtVerifier_verify env;
     axios_request := axios_request env;
     Date_now := now;
     pino := pino env;
     CognitoJwtVerifier_create := CognitoJwtVerifier_create env |}.

(** Modelled from the spec: the cookie-name suffixes exported by [util/csrf]
    ([PKCE_COOKIE_NAME_SUFFIX], [NONCE_COOKIE_NAME_SUFFIX],
    [NONCE_HMAC_COOKIE_NAME_SUFFIX]); the three CSRF cookies are [pkce],
    [nonce] and [nonceHmac], the keys [_validateCSRFCookies] reads back. *)
Definition PKCE_COOKIE_NAME_SUFFIX : string := "pkce".
Definition NONCE_COOKIE_NAME_SUFFIX : string := "nonce".
Definition NONCE_HMAC_COOKIE_NAME_SUFFIX : string := "nonceHmac".

(** The result of [generateCSRFTokens]. *)
Record CSRFTokens := {
  csrf_nonce : string;
  csrf_nonceHmac : string;
  csrf_pkce : string;
  csrf_state : string;
}.

(** Modelled from the spec: [generateCSRFTokens] of [util/csrf]. It draws a
    random nonce and PKCE verifier, signs the nonce with the secret, and
    builds [state] as the URL-safe base64 encoding of
    [{nonce, redirect_uri: redirectUri}]. *)
Definition generateCSRFTokens (env : Collaborators)
    (redirectURI secret : string) : CSRFTokens :=
  let nonce := generateNonce env in
  {| csrf_nonce := nonce;
     csrf_nonceHmac := signNonce env nonce secret;
     csrf_pkce := generatePkceVerifier env;
     csrf_state :=
       encodeState env {| ps_nonce := Some nonce;
                          ps_redirect_uri := Some redirectURI |} |}.

(** A cookie about to be serialised into a Set-Cookie header. *)
Record SetCookie := {
  sc_name : string;
  sc_value : option string;
  sc_attributes : CookieAttributes;
}.

(** What the browser sends back for cookies it was told to set. *)
Definition sent_back (cookies : list SetCookie) : list Cookie :=
  map (fun c => {| name := sc_name c; value := default "" (sc_value c) |})
      cookies.

(** A cookie that clears: empty value, expiring at the instant [now]. *)
Definition is_clearing (now : Z) (c : SetCookie) : Prop :=
  sc_value c = Some "" /\ expires (sc_attributes c) = Some now.

(** A response that carries the two no-cache headers. *)
Definition has_no_cache_headers (r : Response) : Prop :=
  headers r !! "cache-control"
    = Some [ {| key := "Cache-Control";
                hvalue := Some "no-cache, no-store, max-age=0, must-revalidate" |} ]
  /\ headers r !! "pragma"
      = Some [ {| key := "Pragma"; hvalue := Some "no-cache" |} ].

Definition CACHE_CONTROL : list Header :=
  [ {| key := "Cache-Control";
       hvalue := Some "no-cache, no-store, max-age=0, must-revalidate" |} ].
Definition PRAGMA : list Header :=
  [ {| key := "Pragma"; hvalue := Some "no-cache" |} ].

Section Flows.

Variable env : Collaborators.
Variable self : Authenticator.

(** [cookies.map(c => ({ key: 'Set-Cookie', value: c }))] after each cookie
    went through [Cookies.serialize]. *)
Definition set_cookie_headers (cookies : list SetCookie) : list Header :=
  map (fun c =>
         {| key := "Set-Cookie";
            hvalue := Some (Cookies_serialize env (sc_name c) (sc_value c)
                              (sc_attributes c)) |})
      cookies.

(** [this._jwtVerifier.verify(jwt)], awaited. *)
Definition verify (jwt : option string) : M Claims :=
  call (EvVerify jwt) (jwtVerifier_verify env jwt).

Definition _getAuthorization : option string :=
  if truthy (_userPoolAppSecret self)
  then Some (base64 env (_userPoolAppId self +:+ ":"
                           +:+ render (_userPoolAppSecret self)))
  else _userPoolAppSecret self.

(** The [headers] of the three HTTP requests: the Authorization header is
    spread in only when [_getAuthorization] is truthy. *)
Definition authorization_header : option string :=
  if truthy _getAuthorization
  then Some ("Basic " +:+ render _getAuthorization)
  else None.

(** The [request] object of [_fetchTokensFromCode]. *)
Definition code_grant_request (redirectURI code : string) : HttpRequest :=
  {| url := "https://" +:+ _userPoolDomain self +:+ "/oauth2/token";
     method := "POST";
     authorization := authorization_header;
     data := querystring_stringify env
               [ ("client_id", Some (_userPoolAppId self));
                 ("code", Some code);
                 ("grant_type", Some "authorization_code");
                 ("redirect_uri", Some redirectURI) ] |}.

Definition _fetchTokensFromCode (redirectURI code : string) : M Tokens :=
  let request := code_grant_request redirectURI code in
  resp ← call (EvFetchTokensFromCode request) (axios_request env request);
  mret {| idToken := id_token resp;
          accessToken := access_token resp;
          refreshToken := refresh_token resp |}.

(** The [request] object of [_fetchTokensFromRefreshToken]. *)
Definition refresh_grant_request (redirectURI : string)
    (refreshToken : option string) : HttpRequest :=
  {| url := "https://" +:+ _userPoolDomain self +:+ "/oauth2/token";
     method := "POST";
     authorization := authorization_header;
     data := querystring_stringify env
               [ ("client_id", Some (_userPoolAppId self));
                 ("refresh_token", refreshToken);
                 ("grant_type", Some "refresh_token");
                 ("redirect_uri", Some redirectURI) ] |}.

Definition _fetchTokensFromRefreshToken (redirectURI : string)
    (refreshToken : option string) : M Tokens :=
  let request := refresh_grant_request redirectURI refreshToken in
  resp ← call (EvFetchTokensFromRefreshToken request)
              (axios_request env request);
  mret {| idToken := id_token resp;
          accessToken := access_token resp;
          refreshToken := None |}.

(** [cookieHeaders.flatMap(h => Cookies.parse(h.value))]: the headers are
    parsed in order, and the first one the parser throws on ends the call
    with its error. *)
Fixpoint parse_cookies (cookieHeaders : list string) : Error + list Cookie :=
  match cookieHeaders with
  | [] => inr []
  | h :: rest =>
      match Cookies_parse env h with
      | inl e => inl e
      | inr cookies =>
          match parse_cookies rest with
          | inl e => inl e
          | inr others => inr (cookies ++ others)
          end
      end
  end.

(** [request.headers.cookie?.flatMap(h => Cookies.parse(h.value)) || []]. *)
Definition request_cookies (request : Request) : Error + list Cookie :=
  match cookie request with
  | Some hs => parse_cookies hs
  | None => inr []
  end.

(** [parsedState.nonce] and [parsedState.redirect_uri]: reading a member of
    [null] throws a [TypeError]. *)
Definition read_member {A} (member : string) (get : ParsedState -> A)
    (parsedState : option ParsedState) : M A :=
  match parsedState with
  | Some s => mret (get s)
  | None =>
      throw (Thrown ("TypeError: Cannot read properties of null (reading '"
                       +:+ member +:+ "')"))
  end.

(** The callback of the [reduce] in [_getCSRFTokensFromCookie]. *)
Definition csrf_tokens_step (tokens : gmap string string) (c : Cookie)
    : gmap string string :=
  if startsWith (name c) (_cookieBase self)
  then fold_left
         (fun tokens key =>
            if endsWith (name c) ("." +:+ key)
            then <[key := value c]> tokens
            else tokens)
         [ NONCE_COOKIE_NAME_SUFFIX;
           NONCE_HMAC_COOKIE_NAME_SUFFIX;
           PKCE_COOKIE_NAME_SUFFIX ]
         tokens
  else tokens.

Definition _getCSRFTokensFromCookie (cookieHeaders : option (list string))
    : M (gmap string string) :=
  match cookieHeaders with
  | None => throw CookiesNotPresent
  | Some hs =>
      cookies ← ([], parse_cookies hs);
      mret (fold_left csrf_tokens_step cookies ∅)
  end.

Definition _validateCSRFCookies (request : Request) : M unit :=
  match _csrfProtection self with
  | None => throw CsrfDisabled
  | Some csrf =>
      let requestParams := querystring_parse env (querystring request) in
      requestCookies ← ([], request_cookies request);
      parsedState ← ([], decodeState env (requestParams !! "state"));
      csrfTokens ← _getCSRFTokensFromCookie (cookie request);
      let originalNonce := csrfTokens !! "nonce" in
      let nonceHmac := csrfTokens !! "nonceHmac" in
      let pkce := csrfTokens !! "pkce" in
      nonce ← read_member "nonce" ps_nonce parsedState;
      if negb (truthy nonce)
         || negb (truthy originalNonce)
         || negb (bool_decide (nonce = originalNonce))
      then
        if negb (truthy originalNonce)
        then throw MissingNonceCookie
        else throw NonceMismatch
      else if negb (truthy pkce)
      then throw MissingPkceCookie
      else
        let calculatedHmac :=
          signNonce env (default "" nonce) (nonceSigningSecret csrf) in
        if negb (bool_decide (Some calculatedHmac = nonceHmac))
        then throw (SignatureMismatch calculatedHmac nonceHmac)
        else emit EvCsrfValidated
  end.

Definition _getOverridenCookieAttributes (cookieAttributes : CookieAttributes)
    (cookieType : string) : CookieAttributes :=
  let res := cookieAttributes in
  match _cookieSettingsOverrides self !! cookieType with
  | Some overrides =>
      let res :=
        match ov_httpOnly overrides with
        | Some v =>
            {| domain := domain res; expires := expires res;
               secure := secure res; httpOnly := Some v;
               sameSite := sameSite res; path := path res |}
        | None => res
        end in
      let res :=
        match ov_sameSite overrides with
        | Some v =>
            {| domain := domain res; expires := expires res;
               secure := secure res; httpOnly := httpOnly res;
               sameSite := Some v; path := path res |}
        | None => res
        end in
      let res :=
        match ov_path overrides with
        | Some v =>
            {| domain := domain res; expires := expires res;
               secure := secure res; httpOnly := httpOnly res;
               sameSite := sameSite res; path := Some v |}
        | None => res
        end in
      match ov_expirationDays overrides with
      | Some days =>
          {| domain := domain res;
             expires := Some (Date_now env + days * 86400000);
             secure := secure res; httpOnly := httpOnly res;
             sameSite := sameSite res; path := path res |}
      | None => res
      end
  | None => res
  end.

(** [a || b] when [b] is a string: the result is a string. *)
Definition js_or_else (a : option string) (b : string) : string :=
  if truthy a then render a else b.

(** The attribute set built by [_getRedirectResponse] and [_clearCookies]
    for the cookies of [domain], expiring at [expiry]. *)
Definition base_attributes (domain : string) (expiry : Z) : CookieAttributes :=
  {| domain := getCookieDomain env domain (_disableCookieDomain self)
                 (_cookieDomain self);
     expires := Some expiry;
     secure := Some true;
     httpOnly := Some (_httpOnly self);
     sameSite := _sameSite self;
     path := _cookiePath self |}.

(** The [cookies] array of [_getRedirectResponse], before serialisation. *)
Definition redirect_cookies (tokens : Tokens) (domain : string)
    (username : string) : list SetCookie :=
  let usernameBase := _cookieBase self +:+ "." +:+ username in
  let cookieAttributes :=
    base_attributes domain
      (Date_now env + _cookieExpirationDays self * 86400000) in
  [ {| sc_name := usernameBase +:+ ".accessToken";
       sc_value := accessToken tokens;
       sc_attributes :=
         _getOverridenCookieAttributes cookieAttributes "accessToken" |};
    {| sc_name := usernameBase +:+ ".idToken";
       sc_value := idToken tokens;
       sc_attributes :=
         _getOverridenCookieAttributes cookieAttributes "idToken" |} ]
  ++ (if truthy (refreshToken tokens)
      then [ {| sc_name := usernameBase +:+ ".refreshToken";
                sc_value := refreshToken tokens;
                sc_attributes :=
                  _getOverridenCookieAttributes cookieAttributes
                    "refreshToken" |} ]
      else [])
  ++ [ {| sc_name := usernameBase +:+ ".tokenScopesString";
          sc_value :=
            Some "phone email profile openid aws.cognito.signin.user.admin";
          sc_attributes := cookieAttributes |};
       {| sc_name := _cookieBase self +:+ ".LastAuthUser";
          sc_value := Some username;
          sc_attributes := cookieAttributes |} ]
  ++ (match _csrfProtection self with
      | Some _ =>
          let csrfCookieAttributes :=
            {| domain := None;
               expires := Some (Date_now env);
               secure := secure cookieAttributes;
               httpOnly := httpOnly cookieAttributes;
               sameSite := sameSite cookieAttributes;
               path := path cookieAttributes |} in
          [ {| sc_name := _cookieBase self +:+ "." +:+ PKCE_COOKIE_NAME_SUFFIX;
               sc_value := Some "";
               sc_attributes := csrfCookieAttributes |};
            {| sc_name := _cookieBase self +:+ "." +:+ NONCE_COOKIE_NAME_SUFFIX;
               sc_value := Some "";
               sc_attributes := csrfCookieAttributes |};
            {| sc_name :=
                 _cookieBase self +:+ "." +:+ NONCE_HMAC_COOKIE_NAME_SUFFIX;
               sc_value := Some "";
               sc_attributes := csrfCookieAttributes |} ]
      | None => []
      end).

Definition LOCATION (location : option string) : list Header :=
  [ {| key := "Location"; hvalue := location |} ].

(** The 302 response with the no-cache headers and a [set-cookie] entry that
    [_getRedirectResponse] and [_clearCookies] both build. *)
Definition redirect_with_cookies (location : option string)
    (cookies : list SetCookie) : Response :=
  {| status := "302";
     headers :=
       <["location" := LOCATION location]>
       (<["cache-control" := CACHE_CONTROL]>
       (<["pragma" := PRAGMA]>
       (<["set-cookie" := set_cookie_headers cookies]> ∅)));
     body := None |}.

Definition _getRedirectResponse (tokens : Tokens) (domain : string)
    (location : option string) : M Response :=
  decoded ← verify (idToken tokens);
  let username := cognito_username decoded in
  mret (redirect_with_cookies location (redirect_cookies tokens domain username)).

(** The set-cookie redirect for the tokens of a token response, as the
    flows ask [_getRedirectResponse] for it once [decoded] are the claims of
    the new ID token. *)
Definition signed_in_response (fetched : TokenData)
    (refreshToken : option string) (cfDomain : string)
    (location : option string) (decoded : Claims) : Response :=
  redirect_with_cookies location
    (redirect_cookies
       {| idToken := id_token fetched;
          accessToken := access_token fetched;
          refreshToken := refreshToken |}
       cfDomain (cognito_username decoded)).

Definition _getTokensFromCookie (cookieHeaders : option (list string))
    : M Tokens :=
  match cookieHeaders with
  | None => throw CookiesNotPresent
  | Some hs =>
      cookies ← ([], parse_cookies hs);
      let tokenCookieNamePrefix := _cookieBase self +:+ "." in
      let tokens :=
        fold_left
          (fun tokens c =>
             let tokens :=
               if startsWith (name c) tokenCookieNamePrefix
                  && endsWith (name c) ".idToken"
               then {| idToken := Some (value c);
                       accessToken := accessToken tokens;
                       refreshToken := refreshToken tokens |}
               else tokens in
             if startsWith (name c) tokenCookieNamePrefix
                && endsWith (name c) ".refreshToken"
             then {| idToken := idToken tokens;
                     accessToken := accessToken tokens;
                     refreshToken := Some (value c) |}
             else tokens)
          cookies no_tokens in
      if negb (truthy (idToken tokens)) && negb (truthy (refreshToken tokens))
      then throw TokensNotPresent
      else mret tokens
  end.

Definition _getRedirectUriFromState (state : option string)
    : M (option string) :=
  match _csrfProtection self with
  | Some _ =>
      parsedState ← ([], decodeState env state);
      read_member "redirect_uri" ps_redirect_uri parsedState
  | None => mret state
  end.

(** The [revokeRequest] object of [_revokeTokens]. *)
Definition revoke_request (tokens : Tokens) : HttpRequest :=
  {| url := "https://" +:+ _userPoolDomain self +:+ "/oauth2/revoke";
     method := "POST";
     authorization := authorization_header;
     data := querystring_stringify env
               [ ("client_id", Some (_userPoolAppId self));
                 ("token", refreshToken tokens) ] |}.

Definition _revokeTokens (tokens : Tokens) : M unit :=
  let revokeRequest := revoke_request tokens in
  _ ← call (EvRevokeTokens revokeRequest) (axios_request env revokeRequest);
  mret tt.

(** The [responseCookies] of [_clearCookies] when the ID token verified. *)
Definition cleared_user_cookies (tokens : Tokens) (username : string)
    (cookieAttributes : CookieAttributes) : list SetCookie :=
  let usernameBase := _cookieBase self +:+ "." +:+ username in
  [ {| sc_name := usernameBase +:+ ".accessToken"; sc_value := Some "";
       sc_attributes := cookieAttributes |};
    {| sc_name := usernameBase +:+ ".idToken"; sc_value := Some "";
       sc_attributes := cookieAttributes |} ]
  ++ (if truthy (refreshToken tokens)
      then [ {| sc_name := usernameBase +:+ ".refreshToken";
                sc_value := Some "";
                sc_attributes := cookieAttributes |} ]
      else [])
  ++ [ {| sc_name := usernameBase +:+ ".tokenScopesString";
          sc_value := Some ""; sc_attributes := cookieAttributes |};
       {| sc_name := _cookieBase self +:+ ".LastAuthUser";
          sc_value := Some ""; sc_attributes := cookieAttributes |} ].

(** The [responseCookies] of [_clearCookies] when it did not: every request
    cookie whose name starts with the cookie base. *)
Definition cleared_request_cookies (requestCookies : list Cookie)
    (cookieAttributes : CookieAttributes) : list SetCookie :=
  map (fun c => {| sc_name := name c; sc_value := Some "";
                   sc_attributes := cookieAttributes |})
      (List.filter (fun c => startsWith (name c) (_cookieBase self))
                   requestCookies).

(** The Location of the cookie-clearing response. *)
Definition logout_location (request : Request) : option string :=
  let cfDomain := host request in
  let requestParams := querystring_parse env (querystring request) in
  js_or (js_or (_logoutConfiguration self ≫= logoutRedirectUri)
               (requestParams !! "redirect_uri"))
        (Some ("https://" +:+ cfDomain)).

(** [_clearCookies]. Its [catch] block parses the Cookie headers of the
    request again, with nothing around it: what the parser throws there is
    what [_clearCookies] rejects with. *)
Definition _clearCookies (request : Request) (tokens : Tokens) : M Response :=
  let cfDomain := host request in
  let redirectURI := logout_location request in
  let cookieAttributes := base_attributes cfDomain (Date_now env) in
  responseCookies ←
    try_catch
      (decoded ← verify (idToken tokens);
       let username := cognito_username decoded in
       mret (cleared_user_cookies tokens username cookieAttributes))
      (fun err =>
         requestCookies ← ([], request_cookies request);
         mret (cleared_request_cookies requestCookies cookieAttributes));
  mret (redirect_with_cookies redirectURI responseCookies).

(** The cookies [_clearCookies] answers with, or the error it rejects with,
    as a function of what the verifier says of the ID token. *)
Definition cleared_cookies (request : Request) (tokens : Tokens)
    : Error + list SetCookie :=
  let cookieAttributes := base_attributes (host request) (Date_now env) in
  match jwtVerifier_verify env (idToken tokens) with
  | inr decoded =>
      inr (cleared_user_cookies tokens (cognito_username decoded)
             cookieAttributes)
  | inl _ =>
      match request_cookies request with
      | inl e => inl e
      | inr requestCookies =>
          inr (cleared_request_cookies requestCookies cookieAttributes)
      end
  end.

(** The three CSRF cookies set together with the authorize redirect. *)
Definition csrf_cookies (csrfTokens : CSRFTokens) : list SetCookie :=
  let cookieAttributes :=
    {| domain := None;
       expires := Some (Date_now env + 10 * 60 * 1000);
       secure := Some true;
       httpOnly := Some (_httpOnly self);
       sameSite := _sameSite self;
       path := _cookiePath self |} in
  [ {| sc_name := _cookieBase self +:+ "." +:+ PKCE_COOKIE_NAME_SUFFIX;
       sc_value := Some (csrf_pkce csrfTokens);
       sc_attributes := cookieAttributes |};
    {| sc_name := _cookieBase self +:+ "." +:+ NONCE_COOKIE_NAME_SUFFIX;
       sc_value := Some (csrf_nonce csrfTokens);
       sc_attributes := cookieAttributes |};
    {| sc_name := _cookieBase self +:+ "." +:+ NONCE_HMAC_COOKIE_NAME_SUFFIX;
       sc_value := Some (csrf_nonceHmac csrfTokens);
       sc_attributes := cookieAttributes |} ].

Definition _getRedirectToCognitoUserPoolResponse (request : Request)
    (redirectURI : string) : Response :=
  let cfDomain := host request in
  let redirectPath :=
    if negb (String.eqb (querystring request) "")
    then uri request +:+ encodeURIComponent env ("?" +:+ querystring request)
    else uri request in
  let oauthRedirectUri :=
    if negb (String.eqb (_parseAuthPath self) "")
    then "https://" +:+ cfDomain +:+ "/" +:+ _parseAuthPath self
    else redirectURI in
  let csrfTokens :=
    match _csrfProtection self with
    | Some csrf =>
        Some (generateCSRFTokens env redirectURI (nonceSigningSecret csrf))
    | None => None
    end in
  let state :=
    match csrfTokens with
    | Some t => csrf_state t
    | None => redirectPath
    end in
  let userPoolUrl :=
    "https://" +:+ _userPoolDomain self +:+ "/authorize?redirect_uri="
      +:+ oauthRedirectUri +:+ "&response_type=code&client_id="
      +:+ _userPoolAppId self +:+ "&state=" +:+ state in
  let cookies := csrf_cookies <$> csrfTokens in
  {| status := "302";
     headers :=
       <["location" := LOCATION (Some userPoolUrl)]>
       (<["cache-control" := CACHE_CONTROL]>
       (<["pragma" := PRAGMA]>
       (match cookies with
        | Some cs => <["set-cookie" := set_cookie_headers cs]> ∅
        | None => ∅
        end)));
     body := None |}.

(** [this._logoutConfiguration &&
     request.uri.startsWith(this._logoutConfiguration.logoutUri)]. *)
Definition is_logout_request (request : Request) : bool :=
  match _logoutConfiguration self with
  | Some lc => startsWith (uri request) (logoutUri lc)
  | None => false
  end.

(** ** The five flows *)

(** The [catch] block of [handle]: the user is not authenticated. The
    promise chain of the code exchange is returned from inside the handler,
    so its rejection is the rejection of [handle]. *)
Definition handle_catch (request : Request) : M Result :=
  let requestParams := querystring_parse env (querystring request) in
  let cfDomain := host request in
  let redirectURI := "https://" +:+ cfDomain in
  if is_logout_request request
  then Respond <$> _clearCookies request no_tokens
  else if truthy (requestParams !! "code")
  then
    tokens ← _fetchTokensFromCode redirectURI (render (requestParams !! "code"));
    location ← _getRedirectUriFromState (requestParams !! "state");
    Respond <$> _getRedirectResponse tokens cfDomain location
  else mret (Respond (_getRedirectToCognitoUserPoolResponse request redirectURI)).

(** [handle]. On the logout path its [try] block ends in
    [return this._clearCookies(event, tokens)], without [await]; the
    refresh chain of the inner [catch] block is awaited, so that its failure
    reaches the outer [catch] block. *)
Definition handle (request : Request) : M Result :=
  let cfDomain := host request in
  let redirectURI := "https://" +:+ cfDomain in
  attempt ←
    try_catch
      (tokens ← _getTokensFromCookie (cookie request);
       if is_logout_request request
       then
         _ ← _revokeTokens tokens;
         mret (inr tokens)
       else
         inl <$>
           try_catch
             (user ← verify (idToken tokens);
              mret (Forward request))
             (fun err =>
                if truthy (refreshToken tokens)
                then
                  tokens ← _fetchTokensFromRefreshToken redirectURI
                             (refreshToken tokens);
                  Respond <$> _getRedirectResponse tokens cfDomain
                                (Some (uri request))
                else throw err))
      (fun err => inl <$> handle_catch request);
  match attempt with
  | inl result => mret result
  | inr tokens => Respond <$> _clearCookies request tokens
  end.

(** The response [handleSignIn] builds for a user who is signed in. *)
Definition signed_in_redirect (redirectURI : string) : Response :=
  {| status := "302";
     headers := {[ "location" := LOCATION (Some redirectURI) ]};
     body := None |}.

Definition handleSignIn (request : Request) : M Result :=
  let requestParams := querystring_parse env (querystring request) in
  let cfDomain := host request in
  let redirectURI :=
    js_or_else (requestParams !! "redirect_uri") ("https://" +:+ cfDomain) in
  try_catch
    (tokens ← _getTokensFromCookie (cookie request);
     user ← verify (idToken tokens);
     mret (Respond (signed_in_redirect redirectURI)))
    (fun err =>
       mret (Respond (_getRedirectToCognitoUserPoolResponse request redirectURI))).

(** The response of the [catch] block of [handleParseAuth]. *)
Definition bad_request (err : Error) : Response :=
  {| status := "400"; headers := ∅; body := Some (Error_toString err) |}.

(** [handleParseAuth]. The [try] block ends in
    [return this._getRedirectResponse(...)] without [await]: the promise is
    handed to the caller as it is, so the [catch] block sees what is thrown
    up to that call and not a rejection of the call itself. *)
Definition handleParseAuth (request : Request) : M Result :=
  let cfDomain := host request in
  let requestParams := querystring_parse env (querystring request) in
  attempt ←
    try_catch
      (if String.eqb (_parseAuthPath self) ""
       then throw ParseAuthPathNotSet
       else
         let redirectURI :=
           "https://" +:+ cfDomain +:+ "/" +:+ _parseAuthPath self in
         if truthy (requestParams !! "code")
         then
           _ ← (match _csrfProtection self with
                | Some _ => _validateCSRFCookies request
                | None => mret tt
                end);
           tokens ← _fetchTokensFromCode redirectURI
                      (render (requestParams !! "code"));
           location ← _getRedirectUriFromState (requestParams !! "state");
           mret (inr (tokens, location))
         else throw CodeNotFound)
      (fun err => mret (inl (bad_request err)));
  match attempt with
  | inl response => mret (Respond response)
  | inr (tokens, location) =>
      Respond <$> _getRedirectResponse tokens cfDomain location
  end.

(** [handleRefreshToken]; its [try] block ends in an un-awaited
    [return this._getRedirectResponse(...)] as well. *)
Definition handleRefreshToken (request : Request) : M Result :=
  let cfDomain := host request in
  let requestParams := querystring_parse env (querystring request) in
  let redirectURI :=
    js_or_else (requestParams !! "redirect_uri") ("https://" +:+ cfDomain) in
  attempt ←
    try_catch
      (tokens ← _getTokensFromCookie (cookie request);
       user ← verify (idToken tokens);
       tokens ← _fetchTokensFromRefreshToken redirectURI (refreshToken tokens);
       mret (inr tokens))
      (fun err =>
         mret (inl (_getRedirectToCognitoUserPoolResponse request redirectURI)));
  match attempt with
  | inl response => mret (Respond response)
  | inr tokens =>
      Respond <$> _getRedirectResponse tokens cfDomain (Some redirectURI)
  end.

(** [handleSignOut]; both its [try] and its [catch] block end in a call of
    [_clearCookies] that is returned without [await]. *)
Definition handleSignOut (request : Request) : M Result :=
  attempt ←
    try_catch
      (tokens ← _getTokensFromCookie (cookie request);
       _ ← _revokeTokens tokens;
       mret (inr tokens))
      (fun err => inl <$> (Respond <$> _clearCookies request no_tokens));
  match attempt with
  | inl result => mret result
  | inr tokens => Respond <$> _clearCookies request tokens
  end.

(** Sign-out handling, as [handle] on the logout path and [handleSignOut]
    both run it: the token set the clearing goes on with, which is the one
    read from the cookies when it could be read and revoked, and the revoke
    call made before. *)
Definition sign_out_tokens (request : Request) : Tokens :=
  match outcome (_getTokensFromCookie (cookie request)) with
  | inr tokens =>
      match axios_request env (revoke_request tokens) with
      | inr _ => tokens
      | inl _ => no_tokens
      end
  | inl _ => no_tokens
  end.

Definition sign_out_calls (request : Request) : list Event :=
  match outcome (_getTokensFromCookie (cookie request)) with
  | inr tokens => [EvRevokeTokens (revoke_request tokens)]
  | inl _ => []
  end.

(** The kinds of response the flows build. *)
Definition sets_verified_cookies (r : Response) : Prop :=
  exists tokens domain location decoded,
    jwtVerifier_verify env (idToken tokens) = inr decoded
    /\ r = redirect_with_cookies location
             (redirect_cookies tokens domain (cognito_username decoded)).

Definition clears_cookies (request : Request) (r : Response) : Prop :=
  exists tokens cookies,
    cleared_cookies request tokens = inr cookies
    /\ r = redirect_with_cookies (logout_location request) cookies.

Definition redirects_to_authorize (request : Request) (r : Response) : Prop :=
  exists redirectURI,
    r = _getRedirectToCognitoUserPoolResponse request redirectURI.

(** A response that writes no token into a cookie: it has no [set-cookie]
    entry, or only clearing cookies, or only the three CSRF cookies. *)
Definition writes_no_session_token (r : Response) : Prop :=
  headers r !! "set-cookie" = None
  \/ (exists cookies,
        headers r !! "set-cookie" = Some (set_cookie_headers cookies)
        /\ Forall (is_clearing (Date_now env)) cookies)
  \/ (exists csrfTokens,
        headers r !! "set-cookie"
        = Some (set_cookie_headers (csrf_cookies csrfTokens))).

(** *** The clearing response, written out

    What the statements about sign-out say of a response, header by header
    and independently of the functions above. *)






End Flows.

(** ** A concrete deployment

    Executable stand-ins for the collaborators, and one configured
    [Authenticator], on which the flows can be run. The cookie and
    query-string codecs split on their separators; the state codec, the
    nonce signature and base64 are simple injective stand-ins; the verifier
    accepts the tokens that start with [jwt.] and reads the username after
    it. The identity provider [idp] is left to each example. *)
Module Demo.

(** [s] up to the first [sep], and what follows it. *)
Fixpoint split_first (sep : ascii) (s : string) : string * option string :=
  match s with
  | EmptyString => (EmptyString, None)
  | String c s' =>
      if Ascii.eqb c sep then (EmptyString, Some s')
      else let '(a, b) := split_first sep s' in (String c a, b)
  end.

Fixpoint split_on (sep : ascii) (s : string) : list string :=
  match s with
  | EmptyString => [EmptyString]
  | String c s' =>
      if Ascii.eqb c sep then EmptyString :: split_on sep s'
      else match split_on sep s' with
           | w :: ws => String c w :: ws
           | [] => [String c EmptyString]
           end
  end.

Fixpoint ltrim (s : string) : string :=
  match s with
  | String c s' => if Ascii.eqb c " " then ltrim s' else s
  | EmptyString => s
  end.

Definition parse_pair (sep : ascii) (s : string) : string * string :=
  let '(k, v) := split_first sep s in (k, default "" v).

Definition is_hex_digit (c : ascii) : bool :=
  let n := nat_of_ascii c in
  ((48 <=? n) && (n <=? 57) || (65 <=? n) && (n <=? 70)
   || (97 <=? n) && (n <=? 102))%nat.

(** Every [%] of [s] starts a percent-escape: two hexadecimal digits follow
    it. *)
Fixpoint well_escaped (s : string) : bool :=
  match s with
  | EmptyString => true
  | String c rest =>
      (if Ascii.eqb c "%"
       then match rest with
            | String a (String b _) => is_hex_digit a && is_hex_digit b
            | _ => false
            end
       else true)
      && well_escaped rest
  end.

(** The cookie parser: it throws, as [decodeURIComponent] does, on a header
    with a malformed percent-escape; the escapes are checked, not decoded. *)
Definition parse_header (header : string) : Error + list Cookie :=
  if well_escaped header
  then inr (map (fun p => let '(n, v) := parse_pair "=" (ltrim p) in
                          {| name := n; value := v |})
                (split_on ";" header))
  else inl (Thrown "URIError: URI malformed").

Definition serialize (name : string) (value : option string)
    (attributes : CookieAttributes) : string :=
  name +:+ "=" +:+ default "" value
    +:+ from_option (fun d => "; Domain=" +:+ d) "" (domain attributes)
    +:+ from_option (fun p => "; Path=" +:+ p) "" (path attributes)
    +:+ from_option (fun t => "; Expires=" +:+ pretty t) "" (expires attributes)
    +:+ (if default false (secure attributes) then "; Secure" else "")
    +:+ (if default false (httpOnly attributes) then "; HttpOnly" else "")
    +:+ from_option (fun v => "; SameSite=" +:+ v) "" (sameSite attributes).

Definition cookie_domain (cfDomain : string) (disableCookieDomain : bool)
    (cookieDomain : option string) : option string :=
  if disableCookieDomain then None
  else Some (if truthy cookieDomain then render cookieDomain else cfDomain).

Definition parse_query (q : string) : gmap string string :=
  list_to_map (map (parse_pair "=") (split_on "&" q)).

Fixpoint stringify_query (fields : list (string * option string))
    : string :=
  match fields with
  | [] => ""
  | [(k, v)] => k +:+ "=" +:+ default "" v
  | (k, v) :: rest =>
      k +:+ "=" +:+ default "" v +:+ "&" +:+ stringify_query rest
  end.

Definition encode_state (s : ParsedState) : string :=
  default "" (ps_nonce s) +:+ "~" +:+ default "" (ps_redirect_uri s).

(** The state [null] stands for one that decodes to JSON's [null]. *)
Definition decode_state (state : option string)
    : Error + option ParsedState :=
  match state with
  | Some s =>
      if String.eqb s "null" then inr None
      else
        let '(n, r) := split_first "~" s in
        inr (Some {| ps_nonce := if String.eqb n "" then None else Some n;
                     ps_redirect_uri := r |})
  | None => inl (Thrown "TypeError: Cannot read properties of undefined")
  end.

Definition sign (nonce secret : string) : string :=
  "mac(" +:+ secret +:+ "," +:+ nonce +:+ ")".

Definition verify_jwt (jwt : option string) : Error + Claims :=
  match jwt with
  | Some (String "j" (String "w" (String "t" (String "." username)))) =>
      inr {| cognito_username := username |}
  | Some _ => inl (Thrown "JwtInvalidSignatureError: Invalid signature")
  | None => inl (Thrown "JwtParseError: JWT string expected")
  end.

(** The logger accepts the level names of pino. *)
Definition logger (level : string) : Error + unit :=
  if bool_decide
       (level ∈ ["fatal"; "error"; "warn"; "info"; "debug"; "trace"; "silent"])
  then inr tt
  else inl (Thrown ("Error: default level:" +:+ level
                      +:+ " must be included in custom levels")).

(** The verifier factory accepts a user pool id of the form
    [<region>_<id>]. *)
Definition create_verifier (userPoolId clientId : string) : Error + unit :=
  match split_first "_" userPoolId with
  | (String _ _, Some (String _ _)) => inr tt
  | _ =>
      inl (Thrown ("ParameterValidationError: Invalid Cognito User Pool ID: "
                     +:+ userPoolId))
  end.

Definition env (idp : HttpRequest -> Error + TokenData) : Collaborators :=
  {| Cookies_parse := parse_header;
     Cookies_serialize := serialize;
     getCookieDomain := cookie_domain;
     querystring_parse := parse_query;
     querystring_stringify := stringify_query;
     encodeURIComponent := fun s => s;
     base64 := fun s => "b64(" +:+ s +:+ ")";
     decodeState := decode_state;
     encodeState := encode_state;
     signNonce := sign;
     generateNonce := "1700000000T7f3a9c";
     generatePkceVerifier := "pkce-0123456789abcdef";
     jwtVerifier_verify := verify_jwt;
     axios_request := idp;
     Date_now := 1700000000000;
     pino := logger;
     CognitoJwtVerifier_create := create_verifier |}.

(** An identity provider that is down, and one that grants [jwt.alice]. *)
Definition idp_down (request : HttpRequest) : Error + TokenData :=
  inl (Thrown "AxiosError: Request failed with status code 400").

Definition idp_up (request : HttpRequest) : Error + TokenData :=
  inr {| id_token := Some "jwt.alice";
         access_token := Some "at.alice";
         refresh_token := Some "rt.alice" |}.


(** The token endpoint refuses refresh tokens but accepts codes. *)
Definition idp_code_only (request : HttpRequest) : Error + TokenData :=
  if String.prefix "client_id=app1&code=" (data request)
  then idp_up request
  else idp_down request.

Definition authenticator (csrf : bool) (logout : bool)
    (parseAuthPath : string) (overrides : gmap string CookieSettings)
    : Authenticator :=
  {| _userPoolAppId := "app1";
     _userPoolAppSecret := None;
     _userPoolDomain := "auth.example.com";
     _cookieExpirationDays := 365;
     _disableCookieDomain := false;
     _httpOnly := false;
     _sameSite := Some "Lax";
     _cookiePath := Some "/";
     _cookieDomain := None;
     _csrfProtection :=
       if csrf then Some {| nonceSigningSecret := "s3cret" |} else None;
     _logoutConfiguration :=
       if logout then Some {| logoutUri := "/logout";
                              logoutRedirectUri := None |}
       else None;
     _parseAuthPath := parseAuthPath;
     _cookieSettingsOverrides := overrides |}.

(** The browser of a signed-in user. *)
Definition session_cookies : list string :=
  ["CognitoIdentityServiceProvider.app1.alice.idToken=jwt.alice; CognitoIdentityServiceProvider.app1.alice.refreshToken=rt1"].

(** The browser of a user whose ID token no longer verifies. *)
Definition stale_cookies : list string :=
  ["CognitoIdentityServiceProvider.app1.alice.idToken=expired; CognitoIdentityServiceProvider.app1.alice.refreshToken=rt1"].

(** The browser of a user who was sent to the identity provider with CSRF
    protection on: it holds the three CSRF cookies of [env]. *)
Definition csrf_cookie_header : list string :=
  ["CognitoIdentityServiceProvider.app1.pkce=pkce-0123456789abcdef; CognitoIdentityServiceProvider.app1.nonce=1700000000T7f3a9c; CognitoIdentityServiceProvider.app1.nonceHmac=mac(s3cret,1700000000T7f3a9c)"].

Definition get (uri querystring : string) (cookie : option (list string))
    : Request :=
  {| uri := uri; querystring := querystring; cookie := cookie;
     host := "d1.example.com" |}.

End Demo.

(** ** Construction *)

(** The [params] object of the constructor, with the types [_verifyParams]
    asks for: a field that may be left out is an [option]. *)
Record Params := {
  p_region : string;
  p_userPoolId : string;
  p_userPoolAppId : string;
  p_userPoolAppSecret : option string;
  p_userPoolDomain : string;
  p_cookieExpirationDays : option Z;
  p_disableCookieDomain : option bool;
  p_cookieDomain : option string;
  p_httpOnly : option bool;
  p_sameSite : option string;
  p_cookiePath : option string;
  p_cookieSettingsOverrides : option (gmap string CookieSettings);
  p_csrfProtection : option CsrfProtection;
  p_logoutConfiguration : option LogoutConfiguration;
  p_parseAuthPath : option string;
  p_logLevel : option string;
}.

(** What the constructor can fail with once the fields are typed: the two
    objections [_verifyParams] still has, and what the logger and the
    verifier factory throw. *)
Inductive ConfigurationError :=
| InvalidSameSite
| InvalidLogoutUri
| LoggerError (e : Error)
| VerifierError (e : Error).

(** Modelled from the spec: [SAME_SITE_VALUES] of [util/cookie], the values
    Strict, Lax and None. *)
Definition SAME_SITE_VALUES : list string := ["Strict"; "Lax"; "None"].

(** The class [\w] of a regular expression: [A-Za-z0-9_]. *)
Definition is_word_char (c : ascii) : bool :=
  let n := nat_of_ascii c in
  ((48 <=? n) && (n <=? 57) || (65 <=? n) && (n <=? 90)
   || (97 <=? n) && (n <=? 122) || (n =? 95))%nat.

(** [/\/\w+/.test(s)]: somewhere in [s] a slash is followed by a word
    character. *)
Fixpoint matches_slash_word (s : string) : bool :=
  match s with
  | EmptyString => false
  | String c rest =>
      (Ascii.eqb c "/"
       && match rest with
          | String d _ => is_word_char d
          | EmptyString => false
          end)
      || matches_slash_word rest
  end.

Definition _verifyParams (params : Params) : option ConfigurationError :=
  if match p_sameSite params with
     | Some v => negb (bool_decide (v ∈ SAME_SITE_VALUES))
     | None => false
     end
  then Some InvalidSameSite
  else if match p_logoutConfiguration params with
          | Some lc => negb (matches_slash_word (logoutUri lc))
          | None => false
          end
  then Some InvalidLogoutUri
  else None.

(** [s.replace(/^\//, '')]. *)
Definition strip_leading_slash (s : string) : string :=
  match s with
  | String c rest => if Ascii.eqb c "/" then rest else s
  | EmptyString => s
  end.

(** The fields the constructor assigns. *)
Definition instance_fields (params : Params) : Authenticator :=
  {| _userPoolAppId := p_userPoolAppId params;
     _userPoolAppSecret := p_userPoolAppSecret params;
     _userPoolDomain := p_userPoolDomain params;
     _cookieExpirationDays :=
       match p_cookieExpirationDays params with
       | Some days => if days =? 0 then 365 else days
       | None => 365
       end;
     _disableCookieDomain :=
       bool_decide (p_disableCookieDomain params = Some true);
     _httpOnly := bool_decide (p_httpOnly params = Some true);
     _sameSite := p_sameSite params;
     _cookiePath := p_cookiePath params;
     _cookieDomain := p_cookieDomain params;
     _csrfProtection := p_csrfProtection params;
     _logoutConfiguration := p_logoutConfiguration params;
     _parseAuthPath :=
       strip_leading_slash
         (if truthy (p_parseAuthPath params)
          then render (p_parseAuthPath params) else "");
     _cookieSettingsOverrides :=
       default ∅ (p_cookieSettingsOverrides params) |}.

(** The constructor: the instance, or the error of the first step that
    throws. [_verifyParams] comes first; the logger is created for
    [params.logLevel || 'silent'], then the verifier for the user pool and
    the application. *)
Definition constructor (env : Collaborators) (params : Params)
    : ConfigurationError + Authenticator :=
  match _verifyParams params with
  | Some e => inl e
  | None =>
      match pino env (js_or_else (p_logLevel params) "silent") with
      | inl e => inl (LoggerError e)
      | inr _ =>
          match CognitoJwtVerifier_create env (p_userPoolId params)
                  (p_userPoolAppId params) with
          | inl e => inl (VerifierError e)
          | inr _ => inr (instance_fields params)
          end
      end
  end.

(** What every cookie the class writes has: the Secure flag and a name
    under the cookie base. *)
Definition is_secure_app_cookie (self : Authenticator) (c : SetCookie) : Prop :=
  secure (sc_attributes c) = Some true
  /\ startsWith (sc_name c) (_cookieBase self) = true.

(** A cookie that clears a cookie set earlier: same name, domain, path and
    flags, an empty value, and an expiry at the instant [now]. *)
Definition clears_cookie (now : Z) (set cleared : SetCookie) : Prop :=
  sc_name cleared = sc_name set
  /\ domain (sc_attributes cleared) = domain (sc_attributes set)
  /\ path (sc_attributes cleared) = path (sc_attributes set)
  /\ secure (sc_attributes cleared) = secure (sc_attributes set)
  /\ httpOnly (sc_attributes cleared) = httpOnly (sc_attributes set)
  /\ sameSite (sc_attributes cleared) = sameSite (sc_attributes set)
  /\ is_clearing now cleared.

(** The Authorization header a request to the identity provider is to
    carry: none without an application secret, or with an empty one, and
    otherwise [Basic] followed by the base64 encoding of
    [<appId>:<secret>]. *)
Definition basic_authorization (env : Collaborators) (self : Authenticator)
    : option string :=
  match _userPoolAppSecret self with
  | Some secret =>
      if String.eqb secret "" then None
      else
        let encoded := base64 env (_userPoolAppId self +:+ ":" +:+ secret) in
        if String.eqb encoded "" then None else Some ("Basic " +:+ encoded)
  | None => None
  end.

(** A call over the network as the identity provider expects it: a POST to
    the token or to the revoke endpoint of the user pool domain, with the
    Authorization header above and a form that starts with the
    application's [client_id]. *)
Definition is_identity_provider_call (env : Collaborators)
    (self : Authenticator) (ev : Event) : Prop :=
  let well_formed (endpoint : string) (r : HttpRequest) :=
    method r = "POST"
    /\ url r = "https://" +:+ _userPoolDomain self +:+ endpoint
    /\ authorization r = basic_authorization env self
    /\ exists fields,
         data r = querystring_stringify env
                    (("client_id", Some (_userPoolAppId self)) :: fields) in
  match ev with
  | EvFetchTokensFromCode r => well_formed "/oauth2/token" r
  | EvFetchTokensFromRefreshToken r => well_formed "/oauth2/token" r
  | EvRevokeTokens r => well_formed "/oauth2/revoke" r
  | EvVerify _ | EvCsrfValidated => True
  end.

(** The calls that go over the network. *)
Definition is_http_call (ev : Event) : bool :=
  match ev with
  | EvFetchTokensFromCode _ | EvFetchTokensFromRefreshToken _
  | EvRevokeTokens _ => true
  | _ => false
  end.

Definition is_token_exchange (ev : Event) : bool :=
  match ev with
  | EvFetchTokensFromCode _ | EvFetchTokensFromRefreshToken _ => true
  | _ => false
  end.

Definition is_revoke (ev : Event) : bool :=
  match ev with
  | EvRevokeTokens _ => true
  | _ => false
  end.

(** A deployment built by the constructor. *)
Definition demo_params (logoutUri parseAuthPath : string) (days : Z) : Params :=
  {| p_region := "eu-west-1";
     p_userPoolId := "eu-west-1_abcdef123";
     p_userPoolAppId := "app1";
     p_userPoolAppSecret := None;
     p_userPoolDomain := "auth.example.com";
     p_cookieExpirationDays := Some days;
     p_disableCookieDomain := None;
     p_cookieDomain := None;
     p_httpOnly := None;
     p_sameSite := Some "Lax";
     p_cookiePath := None;
     p_cookieSettingsOverrides := None;
     p_csrfProtection := None;
     p_logoutConfiguration :=
       Some {| logoutUri := logoutUri; logoutRedirectUri := None |};
     p_parseAuthPath := Some parseAuthPath;
     p_logLevel := None |}.

Arguments redirect_with_cookies : simpl never.
Arguments _getRedirectToCognitoUserPoolResponse : simpl never.
Arguments bad_request : simpl never.
Arguments signed_in_redirect : simpl never.
Arguments redirect_cookies : simpl never.
Arguments cleared_user_cookies : simpl never.
Arguments cleared_request_cookies : simpl never.
Arguments logout_location : simpl never.
Arguments code_grant_request : simpl never.
Arguments refresh_grant_request : simpl never.
Arguments revoke_request : simpl never.
Arguments base_attributes : simpl never.

(** * Properties *)

(** ** The model at work *)

Example endsWith_examples :
  endsWith "CognitoIdentityServiceProvider.app1.alice.idToken" ".idToken"
  = true
  /\ endsWith "CognitoIdentityServiceProvider.app1.nonce" ".nonceHmac" = false
  /\ endsWith "Hmac" ".nonceHmac" = false
  /\ startsWith "/logout/now" "/logout" = true
  /\ startsWith "/log" "/logout" = false.
Proof. repeat split; reflexivity. Qed.

Example single_byte_mutation_examples :
  single_byte_mutation "abc" "abd" = true
  /\ single_byte_mutation "abc" "abc" = false
  /\ single_byte_mutation "abc" "xbd" = false
  /\ single_byte_mutation "abc" "ab" = false.
Proof. repeat split; reflexivity. Qed.

Example parse_header_example :
  Demo.parse_header "a=1; b=x=y"
  = inr [ {| name := "a"; value := "1" |}; {| name := "b"; value := "x=y" |} ]
  /\ Demo.parse_header "a=1; b=100%"
     = inl (Thrown "URIError: URI malformed")
  /\ Demo.parse_header "a=caf%C3%A9"
     = inr [ {| name := "a"; value := "caf%C3%A9" |} ].
Proof. repeat split; reflexivity. Qed.

Example _getTokensFromCookie_examples :
  let env := Demo.env Demo.idp_up in
  let self := Demo.authenticator false false "" ∅ in
  _getTokensFromCookie env self (Some Demo.session_cookies)
  = ([], inr {| idToken := Some "jwt.alice"; accessToken := None;
                refreshToken := Some "rt1" |})
  /\ _getTokensFromCookie env self (Some ["theme=dark"])
     = ([], inl TokensNotPresent)
  /\ _getTokensFromCookie env self None = ([], inl CookiesNotPresent).
Proof. repeat split; by vm_compute. Qed.

Example _getOverridenCookieAttributes_example :
  let overrides : gmap string CookieSettings :=
    {[ "idToken" := {| ov_expirationDays := Some 1; ov_path := None;
                       ov_httpOnly := Some true; ov_sameSite := None |} ]} in
  let env := Demo.env Demo.idp_up in
  let self := Demo.authenticator false false "" overrides in
  let base := base_attributes env self "d1.example.com" 1731536000000 in
  _getOverridenCookieAttributes env self base "idToken"
  = {| domain := Some "d1.example.com";
       expires := Some 1700086400000;
       secure := Some true;
       httpOnly := Some true;
       sameSite := Some "Lax";
       path := Some "/" |}
  /\ _getOverridenCookieAttributes env self base "accessToken" = base.
Proof. split; by vm_compute. Qed.

Example handle_unauthenticated_example :
  let env := Demo.env Demo.idp_up in
  let self := Demo.authenticator false false "" ∅ in
  let request := Demo.get "/page" "a=1" None in
  exists r,
    handle env self request = ([], inr (Respond r))
    /\ status r = "302"
    /\ headers r !! "location"
       = Some (LOCATION
                 (Some "https://auth.example.com/authorize?redirect_uri=https://d1.example.com&response_type=code&client_id=app1&state=/page?a=1"))
    /\ headers r !! "set-cookie" = None.
Proof. eexists. repeat split; by vm_compute. Qed.

(** ** Strings *)

Lemma startsWith_app (p e : string) : startsWith (p +:+ e) p = true.
Proof.
  unfold startsWith. induction p as [|a p IH]; simpl.
  - by destruct e.
  - destruct (ascii_dec a a); [exact IH | congruence].
Qed.


Lemma endsWith_app (a p : string) : endsWith (a +:+ p) p = true.
Proof.
  induction a as [|c a IH].
  - change ("" +:+ p) with p.
    destruct p; cbn [endsWith]; by rewrite String.eqb_refl.
  - change (String c a +:+ p) with (String c (a +:+ p)).
    cbn [endsWith]. by destruct (String.eqb (String c (a +:+ p)) p).
Qed.

(** ** Laws of the monad *)

Lemma bind_pure {A B} (a : A) (f : A -> M B) : ([], inr a) ≫= f = f a.
Proof. unfold mbind, M_bind. by destruct (f a). Qed.

Lemma bind_thrown {A B} (t : list Event) (e : Error) (f : A -> M B) :
  (t, inl e) ≫= f = (t, inl e).
Proof. reflexivity. Qed.

Lemma try_catch_thrown {A} (e : Error) (h : Error -> M A) :
  try_catch ([], inl e) h = h e.
Proof. unfold try_catch. by destruct (h e). Qed.

Lemma try_catch_pure {A} (t : list Event) (a : A) (h : Error -> M A) :
  try_catch (t, inr a) h = (t, inr a).
Proof. reflexivity. Qed.

(** ** The helpers, one equation each *)

Section Helpers.

Variable env : Collaborators.
Variable self : Authenticator.

Lemma _getRedirectResponse_eq tokens domain location :
  _getRedirectResponse env self tokens domain location =
    ([EvVerify (idToken tokens)],
     match jwtVerifier_verify env (idToken tokens) with
     | inl e => inl e
     | inr decoded =>
         inr (redirect_with_cookies env location
                (redirect_cookies env self tokens domain
                   (cognito_username decoded)))
     end).
Proof.
  unfold _getRedirectResponse, verify, call, mbind, M_bind, mret, M_ret.
  by destruct (jwtVerifier_verify env (idToken tokens)).
Qed.

(** [_clearCookies] makes one call, the verification, and fails only with
    what the cookie parser throws. *)
Lemma _clearCookies_eq request tokens :
  _clearCookies env self request tokens =
    ([EvVerify (idToken tokens)],
     match cleared_cookies env self request tokens with
     | inl e => inl e
     | inr cookies =>
         inr (redirect_with_cookies env (logout_location env self request)
                cookies)
     end).
Proof.
  unfold _clearCookies, cleared_cookies, verify, call, try_catch,
    mbind, M_bind, mret, M_ret.
  destruct (jwtVerifier_verify env (idToken tokens)); [|done].
  by destruct (request_cookies env request).
Qed.

Lemma _fetchTokensFromCode_eq redirectURI code :
  _fetchTokensFromCode env self redirectURI code =
    ([EvFetchTokensFromCode (code_grant_request env self redirectURI code)],
     match axios_request env (code_grant_request env self redirectURI code) with
     | inl e => inl e
     | inr resp =>
         inr {| idToken := id_token resp;
                accessToken := access_token resp;
                refreshToken := refresh_token resp |}
     end).
Proof.
  unfold _fetchTokensFromCode, call, mbind, M_bind, mret, M_ret.
  by destruct (axios_request env _).
Qed.

Lemma _fetchTokensFromRefreshToken_eq redirectURI refreshToken :
  _fetchTokensFromRefreshToken env self redirectURI refreshToken =
    ([EvFetchTokensFromRefreshToken
        (refresh_grant_request env self redirectURI refreshToken)],
     match axios_request env
             (refresh_grant_request env self redirectURI refreshToken) with
     | inl e => inl e
     | inr resp =>
         inr {| idToken := id_token resp;
                accessToken := access_token resp;
                refreshToken := None |}
     end).
Proof.
  unfold _fetchTokensFromRefreshToken, call, mbind, M_bind, mret, M_ret.
  by destruct (axios_request env _).
Qed.

Lemma _revokeTokens_eq tokens :
  _revokeTokens env self tokens =
    ([EvRevokeTokens (revoke_request env self tokens)],
     match axios_request env (revoke_request env self tokens) with
     | inl e => inl e
     | inr _ => inr tt
     end).
Proof.
  unfold _revokeTokens, call, mbind, M_bind, mret, M_ret.
  by destruct (axios_request env _).
Qed.

(** Reading cookies and decoding the state call nobody. *)
Lemma _getTokensFromCookie_trace cookieHeaders :
  trace (_getTokensFromCookie env self cookieHeaders) = [].
Proof.
  unfold _getTokensFromCookie. destruct cookieHeaders as [hs|]; [|done].
  unfold mbind, M_bind. destruct (parse_cookies env hs); [done|].
  by destruct (_ && _).
Qed.

Lemma _getCSRFTokensFromCookie_trace cookieHeaders :
  trace (_getCSRFTokensFromCookie env self cookieHeaders) = [].
Proof.
  destruct cookieHeaders as [hs|]; [|done].
  unfold _getCSRFTokensFromCookie, mbind, M_bind.
  by destruct (parse_cookies env hs).
Qed.

Lemma _getRedirectUriFromState_trace state :
  trace (_getRedirectUriFromState env self state) = [].
Proof.
  unfold _getRedirectUriFromState. destruct (_csrfProtection self); [|done].
  unfold mbind, M_bind. by destruct (decodeState env state) as [|[|]].
Qed.


Lemma _getCSRFTokensFromCookie_parsed request csrfTokens :
  _getCSRFTokensFromCookie env self (cookie request) = ([], inr csrfTokens) ->
  exists cookies, request_cookies env request = inr cookies.
Proof.
  unfold _getCSRFTokensFromCookie, request_cookies.
  destruct (cookie request) as [hs|]; [|done].
  destruct (parse_cookies env hs); [done | by eexists].
Qed.


(** [_validateCSRFCookies] once the Cookie headers are parsed and the state
    is decoded to an object: the comparisons that remain. *)
Lemma _validateCSRFCookies_eq request csrf parsedState csrfTokens :
  _csrfProtection self = Some csrf ->
  decodeState env (querystring_parse env (querystring request) !! "state")
  = inr (Some parsedState) ->
  _getCSRFTokensFromCookie env self (cookie request) = ([], inr csrfTokens) ->
  _validateCSRFCookies env self request
  = if negb (truthy (ps_nonce parsedState))
       || negb (truthy (csrfTokens !! "nonce"))
       || negb (bool_decide (ps_nonce parsedState = csrfTokens !! "nonce"))
    then
      if negb (truthy (csrfTokens !! "nonce"))
      then throw MissingNonceCookie
      else throw NonceMismatch
    else if negb (truthy (csrfTokens !! "pkce"))
    then throw MissingPkceCookie
    else
      let calculatedHmac :=
        signNonce env (default "" (ps_nonce parsedState))
          (nonceSigningSecret csrf) in
      if negb (bool_decide (Some calculatedHmac = csrfTokens !! "nonceHmac"))
      then throw (SignatureMismatch calculatedHmac (csrfTokens !! "nonceHmac"))
      else emit EvCsrfValidated.
Proof.
  intros Hcsrf Hstate Hcookies.
  destruct (_getCSRFTokensFromCookie_parsed request csrfTokens Hcookies)
    as [cookies Hparsed].
  unfold _validateCSRFCookies.
  rewrite Hcsrf, Hparsed, bind_pure, Hstate, bind_pure, Hcookies, bind_pure.
  unfold read_member. change (mret ?x) with (([], inr x) : M (option string)).
  by rewrite bind_pure.
Qed.

(** [_validateCSRFCookies] either throws, having called nobody, or returns
    normally, which the trace records. *)
Lemma _validateCSRFCookies_cases request :
  (exists e, _validateCSRFCookies env self request = ([], inl e))
  \/ _validateCSRFCookies env self request = ([EvCsrfValidated], inr tt).
Proof.
  unfold _validateCSRFCookies.
  destruct (_csrfProtection self) as [csrf|]; [|left; by eexists].
  unfold request_cookies, _getCSRFTokensFromCookie, read_member,
    mbind, M_bind, mret, M_ret, throw.
  destruct (cookie request) as [hs|].
  - destruct (parse_cookies env hs) as [e|cookies]; [left; by eexists|].
    destruct (decodeState env _) as [e|[parsedState|]];
      [left; by eexists | | left; by eexists].
    generalize (fold_left (csrf_tokens_step self) cookies ∅).
    intros csrfTokens.
    destruct (_ || _).
    + destruct (negb _); left; by eexists.
    + destruct (negb (truthy _)); [left; by eexists|].
      destruct (negb (bool_decide _)); [left; by eexists|by right].
  - destruct (decodeState env _) as [e|parsedState]; left; by eexists.
Qed.

End Helpers.

(** ** Responses *)

Section Responses.

Variable env : Collaborators.
Variable self : Authenticator.

Lemma redirect_with_cookies_status location cookies :
  status (redirect_with_cookies env location cookies) = "302".
Proof. reflexivity. Qed.

Lemma redirect_with_cookies_location location cookies :
  headers (redirect_with_cookies env location cookies) !! "location"
  = Some (LOCATION location).
Proof. unfold redirect_with_cookies. by simplify_map_eq. Qed.

Lemma redirect_with_cookies_set_cookie location cookies :
  headers (redirect_with_cookies env location cookies) !! "set-cookie"
  = Some (set_cookie_headers env cookies).
Proof. unfold redirect_with_cookies. by simplify_map_eq. Qed.

Lemma redirect_with_cookies_no_cache location cookies :
  has_no_cache_headers (redirect_with_cookies env location cookies).
Proof. unfold redirect_with_cookies. split; by simplify_map_eq. Qed.

Lemma authorize_redirect_no_cache request redirectURI :
  has_no_cache_headers
    (_getRedirectToCognitoUserPoolResponse env self request redirectURI).
Proof.
  unfold _getRedirectToCognitoUserPoolResponse. split; by simplify_map_eq.
Qed.

(** The authorize redirect sets the three CSRF cookies when CSRF protection is
    on and has no [set-cookie] entry otherwise. *)
Lemma authorize_redirect_set_cookie request redirectURI :
  headers (_getRedirectToCognitoUserPoolResponse env self request redirectURI)
    !! "set-cookie"
  = match _csrfProtection self with
    | Some csrf =>
        Some (set_cookie_headers env
                (csrf_cookies env self
                   (generateCSRFTokens env redirectURI
                      (nonceSigningSecret csrf))))
    | None => None
    end.
Proof.
  unfold _getRedirectToCognitoUserPoolResponse.
  destruct (_csrfProtection self); by simplify_map_eq.
Qed.

Lemma signed_in_redirect_headers redirectURI :
  headers (signed_in_redirect redirectURI) !! "cache-control" = None
  /\ headers (signed_in_redirect redirectURI) !! "pragma" = None
  /\ headers (signed_in_redirect redirectURI) !! "location"
     = Some (LOCATION (Some redirectURI)).
Proof. unfold signed_in_redirect. repeat split; by simplify_map_eq. Qed.

(** Every cookie [_clearCookies] answers with is a clearing one. *)
Lemma cleared_cookies_clearing request tokens cookies :
  cleared_cookies env self request tokens = inr cookies ->
  Forall (is_clearing (Date_now env)) cookies.
Proof.
  unfold cleared_cookies.
  destruct (jwtVerifier_verify env (idToken tokens)) as [e|decoded].
  - destruct (request_cookies env request) as [e'|requestCookies]; [done|].
    intros [= <-]. unfold cleared_request_cookies.
    generalize (List.filter
                  (fun c => startsWith (name c) (_cookieBase self))
                  requestCookies).
    intros l. induction l; by constructor.
  - intros [= <-]. unfold cleared_user_cookies.
    destruct (truthy (refreshToken tokens)); repeat constructor.
Qed.





End Responses.

(** ** The flows *)

Ltac unfold_monad :=
  unfold try_catch, mbind, M_bind, mret, M_ret, fmap, M_fmap, throw, emit,
    call, verify in *.

(** Case analysis on what [_getTokensFromCookie] yields, its trace being
    empty. *)
Ltac destruct_tokens env self request e tokens :=
  let H := fresh "Htrace" in
  let E := fresh "Etokens" in
  pose proof (_getTokensFromCookie_trace env self (cookie request)) as H;
  destruct (_getTokensFromCookie env self (cookie request))
    as [? [e|tokens]] eqn:E;
  cbn [trace fst] in H; subst.

Section FlowProperties.

Variable env : Collaborators.
Variable self : Authenticator.


(** Sign-out handling in one equation: the revoke call when the tokens were
    read, the verification of the ID token the clearing goes on with, and
    the answer of [_clearCookies]. *)
Lemma handleSignOut_run request :
  handleSignOut env self request
  = (sign_out_calls env self request
       ++ [EvVerify (idToken (sign_out_tokens env self request))],
     match cleared_cookies env self request
             (sign_out_tokens env self request) with
     | inl e => inl e
     | inr cookies =>
         inr (Respond
                (redirect_with_cookies env (logout_location env self request)
                   cookies))
     end).
Proof.
  unfold handleSignOut, sign_out_calls, sign_out_tokens.
  destruct_tokens env self request e tokens; cbn [outcome snd].
  - rewrite bind_thrown, try_catch_thrown, _clearCookies_eq. unfold_monad.
    by destruct (cleared_cookies env self request no_tokens).
  - rewrite bind_pure, _revokeTokens_eq. unfold_monad.
    destruct (axios_request env (revoke_request env self tokens)).
    + rewrite _clearCookies_eq.
      by destruct (cleared_cookies env self request no_tokens).
    + rewrite _clearCookies_eq.
      by destruct (cleared_cookies env self request tokens).
Qed.

(** On the logout path [handle] is [handleSignOut]. *)
Lemma handle_logout_run request :
  is_logout_request self request = true ->
  handle env self request = handleSignOut env self request.
Proof.
  intros Hlogout. unfold handle, handleSignOut, handle_catch.
  rewrite Hlogout. destruct_tokens env self request e tokens.
  - by rewrite !bind_thrown, !try_catch_thrown.
  - rewrite !bind_pure, _revokeTokens_eq. unfold_monad.
    by destruct (axios_request env (revoke_request env self tokens)).
Qed.

End FlowProperties.

(** ** What each flow can answer *)

Lemma try_catch_split {A} (t : list Event) (e : Error) (h : Error -> M A) :
  try_catch (t, inl e) h = (t ++ trace (h e), outcome (h e)).
Proof. unfold try_catch. by destruct (h e). Qed.

Lemma bind_split {A B} (t : list Event) (a : A) (f : A -> M B) :
  (t, inr a) ≫= f = (t ++ trace (f a), outcome (f a)).
Proof. unfold mbind, M_bind. by destruct (f a). Qed.

Lemma fmap_split {A B} (f : A -> B) (m : M A) :
  f <$> m = (trace m, match outcome m with
                      | inl e => inl e
                      | inr a => inr (f a)
                      end).
Proof. by destruct m as [t [e|a]]. Qed.

Ltac case_step :=
  match goal with
  | |- context [match ?x with _ => _ end] =>
      lazymatch x with
      | context [match _ with _ => _ end] => fail
      | _ => destruct x eqn:?
      end
  | |- context [if ?x then _ else _] =>
      lazymatch x with
      | context [if _ then _ else _] => fail
      | context [match _ with _ => _ end] => fail
      | _ => destruct x eqn:?
      end
  end.

(** Run a flow symbolically: replace the helpers by their equations, reduce
    the monad, and split on what the collaborators answer. *)
Ltac run_flow :=
  repeat first
    [ progress rewrite ?_getRedirectResponse_eq, ?_clearCookies_eq,
        ?_fetchTokensFromCode_eq, ?_fetchTokensFromRefreshToken_eq,
        ?_revokeTokens_eq
    | progress unfold_monad
    | progress cbn [trace outcome fst snd app idToken accessToken
                    refreshToken]
    | case_step ].

(** Pick the kind of a response that is one of the builders applied. *)
Ltac pick_shape :=
  unfold sets_verified_cookies, clears_cookies, redirects_to_authorize;
  first
    [ left; do 4 eexists; split; [|reflexivity]; eassumption
    | right; left; do 2 eexists; split; [|reflexivity]; eassumption
    | right; right; eexists; reflexivity
    | left; eexists; reflexivity
    | right; eexists; reflexivity ].

(** ** The flows, one equation each

    Each flow as a case analysis on what the collaborators answer: the calls
    made and the result, branch by branch. *)

Section Runs.

Variable env : Collaborators.
Variable self : Authenticator.

Lemma handle_catch_run request :
  let requestParams := querystring_parse env (querystring request) in
  let exchange :=
    code_grant_request env self ("https://" +:+ host request)
      (render (requestParams !! "code")) in
  handle_catch env self request
  = if is_logout_request self request
    then ([EvVerify None],
          match cleared_cookies env self request no_tokens with
          | inl e => inl e
          | inr cookies =>
              inr (Respond
                     (redirect_with_cookies env
                        (logout_location env self request) cookies))
          end)
    else if truthy (requestParams !! "code")
    then
      match axios_request env exchange with
      | inl e => ([EvFetchTokensFromCode exchange], inl e)
      | inr fetched =>
          match outcome (_getRedirectUriFromState env self
                           (requestParams !! "state")) with
          | inl e => ([EvFetchTokensFromCode exchange], inl e)
          | inr location =>
              ([EvFetchTokensFromCode exchange; EvVerify (id_token fetched)],
               match jwtVerifier_verify env (id_token fetched) with
               | inl e => inl e
               | inr decoded =>
                   inr (Respond
                          (signed_in_response env self fetched (refresh_token fetched)
                             (host request) location decoded))
               end)
          end
      end
    else ([], inr (Respond
                     (_getRedirectToCognitoUserPoolResponse env self request
                        ("https://" +:+ host request)))).
Proof.
  cbn zeta. unfold handle_catch, signed_in_response.
  destruct (is_logout_request self request).
  - rewrite _clearCookies_eq. unfold_monad.
    by destruct (cleared_cookies env self request no_tokens).
  - destruct (truthy _); [|done].
    rewrite _fetchTokensFromCode_eq.
    destruct (axios_request env _) as [e|fetched]; [done|].
    rewrite bind_split.
    pose proof (_getRedirectUriFromState_trace env self
                  (querystring_parse env (querystring request) !! "state"))
      as Ht.
    destruct (_getRedirectUriFromState env self _) as [t [e|location]];
      cbn [trace fst] in Ht; subst t; [done|].
    rewrite bind_pure, _getRedirectResponse_eq, fmap_split.
    cbn [trace outcome fst snd app idToken].
    by destruct (jwtVerifier_verify env (id_token fetched)).
Qed.

(** The binding of the outcome of a [try] block whose [catch] block returns
    on its own. *)
Lemma bind_inl_fmap {A B} (m : M A) (k : B -> M A) :
  (inl <$> m) ≫= (fun attempt : A + B =>
                     match attempt with
                     | inl a => mret a
                     | inr b => k b
                     end)
  = m.
Proof.
  destruct m as [t [e|a]]; [done|]. unfold_monad. by rewrite app_nil_r.
Qed.

Lemma handle_run request :
  let refresh tokens :=
    refresh_grant_request env self ("https://" +:+ host request)
      (refreshToken tokens) in
  let unauthenticated calls :=
    (calls ++ trace (handle_catch env self request),
     outcome (handle_catch env self request)) in
  handle env self request
  = match outcome (_getTokensFromCookie env self (cookie request)) with
    | inl _ => handle_catch env self request
    | inr tokens =>
        if is_logout_request self request
        then handleSignOut env self request
        else
          match jwtVerifier_verify env (idToken tokens) with
          | inr _ => ([EvVerify (idToken tokens)], inr (Forward request))
          | inl _ =>
              if truthy (refreshToken tokens)
              then
                match axios_request env (refresh tokens) with
                | inl _ =>
                    unauthenticated
                      [EvVerify (idToken tokens);
                       EvFetchTokensFromRefreshToken (refresh tokens)]
                | inr fetched =>
                    match jwtVerifier_verify env (id_token fetched) with
                    | inl _ =>
                        unauthenticated
                          [EvVerify (idToken tokens);
                           EvFetchTokensFromRefreshToken (refresh tokens);
                           EvVerify (id_token fetched)]
                    | inr decoded =>
                        ([EvVerify (idToken tokens);
                          EvFetchTokensFromRefreshToken (refresh tokens);
                          EvVerify (id_token fetched)],
                         inr (Respond
                                (signed_in_response env self fetched None
                                   (host request) (Some (uri request))
                                   decoded)))
                    end
                end
              else unauthenticated [EvVerify (idToken tokens)]
          end
    end.
Proof.
  cbn zeta.
  destruct (is_logout_request self request) eqn:Hlogout.
  { rewrite (handle_logout_run env self request Hlogout).
    unfold handleSignOut, handle_catch. rewrite Hlogout.
    destruct_tokens env self request e tokens; cbn [outcome snd]; [|done].
    by rewrite bind_thrown, try_catch_thrown, bind_inl_fmap. }
  unfold handle, signed_in_response.
  destruct_tokens env self request e tokens; cbn [outcome snd].
  { by rewrite bind_thrown, try_catch_thrown, bind_inl_fmap. }
  rewrite bind_pure, Hlogout. unfold verify, call.
  destruct (jwtVerifier_verify env (idToken tokens)) as [err|user].
  2: { by unfold_monad. }
  rewrite bind_thrown, try_catch_split. cbn [trace outcome fst snd].
  destruct (truthy (refreshToken tokens)).
  2: { unfold throw. cbn [trace outcome fst snd]. rewrite app_nil_r.
       rewrite fmap_split. cbn [trace outcome fst snd].
       rewrite try_catch_split, fmap_split. cbn [trace outcome fst snd].
       destruct (handle_catch env self request) as [t [e|res]];
         cbn [trace outcome fst snd]; [done|].
       rewrite bind_split. unfold_monad. by rewrite app_nil_r. }
  rewrite _fetchTokensFromRefreshToken_eq.
  destruct (axios_request env _) as [e|fetched].
  { rewrite bind_thrown. cbn [trace outcome fst snd].
    rewrite fmap_split. cbn [trace outcome fst snd].
    rewrite try_catch_split, fmap_split. cbn [trace outcome fst snd].
    destruct (handle_catch env self request) as [t [e'|res]];
      cbn [trace outcome fst snd]; [done|].
    rewrite bind_split. unfold_monad. by rewrite app_nil_r. }
  rewrite bind_split, _getRedirectResponse_eq, fmap_split.
  cbn [trace outcome fst snd idToken].
  destruct (jwtVerifier_verify env (id_token fetched)) as [e|decoded].
  { rewrite fmap_split. cbn [trace outcome fst snd].
    rewrite try_catch_split, fmap_split. cbn [trace outcome fst snd].
    destruct (handle_catch env self request) as [t [e'|res]];
      cbn [trace outcome fst snd app]; [done|].
    rewrite bind_split. unfold_monad. by rewrite app_nil_r. }
  by unfold_monad.
Qed.

Lemma handleSignIn_run request :
  let redirectURI :=
    js_or_else (querystring_parse env (querystring request) !! "redirect_uri")
      ("https://" +:+ host request) in
  let authorize :=
    Respond (_getRedirectToCognitoUserPoolResponse env self request
               redirectURI) in
  handleSignIn env self request
  = match outcome (_getTokensFromCookie env self (cookie request)) with
    | inl _ => ([], inr authorize)
    | inr tokens =>
        ([EvVerify (idToken tokens)],
         match jwtVerifier_verify env (idToken tokens) with
         | inl _ => inr authorize
         | inr _ => inr (Respond (signed_in_redirect redirectURI))
         end)
    end.
Proof.
  cbn zeta. unfold handleSignIn.
  destruct_tokens env self request e tokens; cbn [outcome snd].
  - by rewrite bind_thrown, try_catch_thrown.
  - rewrite bind_pure. unfold_monad.
    by destruct (jwtVerifier_verify env (idToken tokens)).
Qed.

Lemma handleParseAuth_run request :
  let requestParams := querystring_parse env (querystring request) in
  let exchange :=
    code_grant_request env self
      ("https://" +:+ host request +:+ "/" +:+ _parseAuthPath self)
      (render (requestParams !! "code")) in
  handleParseAuth env self request
  = if String.eqb (_parseAuthPath self) ""
    then ([], inr (Respond (bad_request ParseAuthPathNotSet)))
    else if truthy (requestParams !! "code")
    then
      match (match _csrfProtection self with
             | Some _ => _validateCSRFCookies env self request
             | None => ([], inr tt)
             end) with
      | (validated, inl e) => (validated, inr (Respond (bad_request e)))
      | (validated, inr _) =>
          match axios_request env exchange with
          | inl e =>
              (validated ++ [EvFetchTokensFromCode exchange],
               inr (Respond (bad_request e)))
          | inr fetched =>
              match outcome (_getRedirectUriFromState env self
                               (requestParams !! "state")) with
              | inl e =>
                  (validated ++ [EvFetchTokensFromCode exchange],
                   inr (Respond (bad_request e)))
              | inr location =>
                  (validated ++ [EvFetchTokensFromCode exchange;
                                 EvVerify (id_token fetched)],
                   match jwtVerifier_verify env (id_token fetched) with
                   | inl e => inl e
                   | inr decoded =>
                       inr (Respond
                              (signed_in_response env self fetched
                                 (refresh_token fetched) (host request)
                                 location decoded))
                   end)
              end
          end
      end
    else ([], inr (Respond (bad_request CodeNotFound))).
Proof.
  cbn zeta. unfold handleParseAuth, signed_in_response.
  destruct (String.eqb (_parseAuthPath self) ""); [done|].
  destruct (truthy _); [|done].
  change (mret tt) with (([], inr tt) : M unit).
  destruct (match _csrfProtection self with
            | Some _ => _validateCSRFCookies env self request
            | None => ([], inr tt)
            end) as [validated [e|[]]].
  { rewrite bind_thrown, try_catch_split.
    cbn [trace outcome fst snd mret M_ret].
    rewrite bind_split. cbn [trace outcome fst snd mret M_ret].
    by rewrite !app_nil_r. }
  rewrite bind_split, _fetchTokensFromCode_eq.
  destruct (axios_request env _) as [e|fetched].
  { rewrite bind_thrown. cbn [trace outcome fst snd].
    rewrite try_catch_split. cbn [trace outcome fst snd mret M_ret].
    rewrite bind_split. cbn [trace outcome fst snd mret M_ret].
    by rewrite !app_nil_r. }
  rewrite bind_split. cbn [trace outcome fst snd].
  pose proof (_getRedirectUriFromState_trace env self
                (querystring_parse env (querystring request) !! "state"))
    as Ht.
  destruct (_getRedirectUriFromState env self _) as [t [e|location]];
    cbn [trace fst] in Ht; subst t.
  { rewrite bind_thrown. cbn [trace outcome fst snd].
    rewrite try_catch_split. cbn [trace outcome fst snd mret M_ret].
    rewrite bind_split. cbn [trace outcome fst snd mret M_ret].
    by rewrite !app_nil_r. }
  rewrite bind_pure. cbn [trace outcome fst snd mret M_ret].
  rewrite try_catch_pure, bind_split, fmap_split, _getRedirectResponse_eq.
  cbn [trace outcome fst snd idToken].
  rewrite <- app_assoc. cbn [app].
  by destruct (jwtVerifier_verify env (id_token fetched)).
Qed.

Lemma handleRefreshToken_run request :
  let redirectURI :=
    js_or_else (querystring_parse env (querystring request) !! "redirect_uri")
      ("https://" +:+ host request) in
  let authorize :=
    Respond (_getRedirectToCognitoUserPoolResponse env self request
               redirectURI) in
  handleRefreshToken env self request
  = match outcome (_getTokensFromCookie env self (cookie request)) with
    | inl _ => ([], inr authorize)
    | inr tokens =>
        let refresh :=
          refresh_grant_request env self redirectURI (refreshToken tokens) in
        match jwtVerifier_verify env (idToken tokens) with
        | inl _ => ([EvVerify (idToken tokens)], inr authorize)
        | inr _ =>
            match axios_request env refresh with
            | inl _ =>
                ([EvVerify (idToken tokens);
                  EvFetchTokensFromRefreshToken refresh], inr authorize)
            | inr fetched =>
                ([EvVerify (idToken tokens);
                  EvFetchTokensFromRefreshToken refresh;
                  EvVerify (id_token fetched)],
                 match jwtVerifier_verify env (id_token fetched) with
                 | inl e => inl e
                 | inr decoded =>
                     inr (Respond
                            (signed_in_response env self fetched None (host request)
                               (Some redirectURI) decoded))
                 end)
            end
        end
    end.
Proof.
  cbn zeta. unfold handleRefreshToken, signed_in_response.
  destruct_tokens env self request e tokens; cbn [outcome snd].
  { by rewrite bind_thrown, try_catch_thrown. }
  rewrite bind_pure. unfold verify, call.
  destruct (jwtVerifier_verify env (idToken tokens)) as [err|user].
  { by unfold_monad. }
  rewrite bind_split, _fetchTokensFromRefreshToken_eq.
  cbn [trace outcome fst snd].
  destruct (axios_request env _) as [e|fetched].
  { by unfold_monad. }
  rewrite bind_split. cbn [trace outcome fst snd mret M_ret].
  rewrite try_catch_pure, bind_split, fmap_split, _getRedirectResponse_eq.
  cbn [trace outcome fst snd idToken app].
  by destruct (jwtVerifier_verify env (id_token fetched)).
Qed.

End Runs.

#[global] Opaque redirect_with_cookies _getRedirectToCognitoUserPoolResponse
  bad_request signed_in_redirect redirect_cookies cleared_cookies
  logout_location.

Section Shapes.

Variable env : Collaborators.
Variable self : Authenticator.

Lemma handle_catch_responses request res :
  outcome (handle_catch env self request) = inr res ->
  exists r, res = Respond r
    /\ (sets_verified_cookies env self r
        \/ clears_cookies env self request r
        \/ redirects_to_authorize env self request r).
Proof.
  rewrite handle_catch_run. cbn zeta. unfold signed_in_response.
  repeat case_match; cbn [outcome snd]; try discriminate.
  all: intros [= <-]; eexists; (split; [reflexivity|]); pick_shape.
Qed.

Lemma handleSignOut_responses request res :
  outcome (handleSignOut env self request) = inr res ->
  exists r, res = Respond r /\ clears_cookies env self request r.
Proof.
  rewrite handleSignOut_run. cbn [outcome snd].
  destruct (cleared_cookies env self request _) as [e|cookies] eqn:Hcleared;
    cbv iota; [done|].
  intros [= <-]. eexists. split; [done|]. by do 2 eexists.
Qed.

Lemma handle_responses request res :
  outcome (handle env self request) = inr res ->
  res = Forward request
  \/ exists r, res = Respond r
       /\ (sets_verified_cookies env self r
           \/ clears_cookies env self request r
           \/ redirects_to_authorize env self request r).
Proof.
  pose proof (handle_catch_responses request res) as Hcatch.
  pose proof (handleSignOut_responses request res) as Hout.
  rewrite handle_run. cbn zeta. unfold signed_in_response.
  repeat case_match; cbn [outcome snd]; try discriminate.
  all: try (intros Hres; right; by apply Hcatch).
  all: try (intros Hres; right; destruct (Hout Hres) as (r & -> & ?); eauto).
  all: intros [= <-]; first [ by left | right ].
  all: eexists; (split; [reflexivity|]); pick_shape.
Qed.

Lemma handleSignIn_responses request :
  exists r,
    outcome (handleSignIn env self request) = inr (Respond r)
    /\ ((exists redirectURI, r = signed_in_redirect redirectURI)
        \/ redirects_to_authorize env self request r).
Proof.
  rewrite handleSignIn_run. cbn zeta.
  repeat case_match; cbn [outcome snd].
  all: eexists; (split; [reflexivity|]); pick_shape.
Qed.

Lemma handleParseAuth_responses request res :
  outcome (handleParseAuth env self request) = inr res ->
  exists r, res = Respond r
    /\ (sets_verified_cookies env self r \/ exists e, r = bad_request e).
Proof.
  rewrite handleParseAuth_run. cbn zeta. unfold signed_in_response.
  destruct (match _csrfProtection self with
            | Some _ => _validateCSRFCookies env self request
            | None => ([], inr tt)
            end) as [validated [e|[]]].
  all: repeat case_match; cbn [outcome snd]; try discriminate.
  all: intros [= <-]; eexists; (split; [reflexivity|]); pick_shape.
Qed.

Lemma handleRefreshToken_responses request res :
  outcome (handleRefreshToken env self request) = inr res ->
  exists r, res = Respond r
    /\ (sets_verified_cookies env self r
        \/ redirects_to_authorize env self request r).
Proof.
  rewrite handleRefreshToken_run. cbn zeta. unfold signed_in_response.
  repeat case_match; cbn [outcome snd]; try discriminate.
  all: intros [= <-]; eexists; (split; [reflexivity|]); pick_shape.
Qed.

End Shapes.

#[global] Transparent redirect_with_cookies
  _getRedirectToCognitoUserPoolResponse bad_request signed_in_redirect
  redirect_cookies cleared_cookies logout_location.

(** * The claims *)

(** ** C4: a valid session is forwarded untouched *)

(** C4. A request whose cookies hold an ID token that verifies, and whose URI
    is not a logout URI, comes back from [handle] as it went in: the result
    is the request itself, to be forwarded, no response (hence no Set-Cookie
    header) is produced, and the only call made is the verification. *)
Theorem handle_forwards_valid_session env self request tokens user :
  _getTokensFromCookie env self (cookie request) = ([], inr tokens) ->
  jwtVerifier_verify env (idToken tokens) = inr user ->
  is_logout_request self request = false ->
  handle env self request
  = ([EvVerify (idToken tokens)], inr (Forward request)).
Proof.
  intros Htokens Hverify Hlogout. unfold handle.
  rewrite Htokens, bind_pure, Hlogout. unfold_monad.
  by rewrite Hverify.
Qed.

Lemma handle_forwards_valid_session_witness :
  let env := Demo.env Demo.idp_up in
  let self := Demo.authenticator true true "" ∅ in
  let request :=
    {| uri := "/page"; querystring := "";
       cookie :=
         Some ["CognitoIdentityServiceProvider.app1.alice.idToken=jwt.alice; CognitoIdentityServiceProvider.app1.alice.refreshToken=rt1"];
       host := "d1.example.com" |} in
  handle env self request
  = ([EvVerify (Some "jwt.alice")], inr (Forward request)).
Proof.
  intros env self request.
  apply (handle_forwards_valid_session env self request
           {| idToken := Some "jwt.alice"; accessToken := None;
              refreshToken := Some "rt1" |}
           {| cognito_username := "alice" |});
    vm_compute; reflexivity.
Defined.

(** ** Sign-out handling *)




(** ** C10: the logout path is matched as a prefix *)




(** ** C6: what sign-out clears *)




(** ** C3: which redirects carry the no-cache headers *)

(** C3, as stated, fails: [handleSignIn] answers a user who is already signed
    in with a 302 that has a Location header and nothing else. *)
Lemma handleSignIn_redirect_without_no_cache_headers :
  exists r,
    outcome (handleSignIn (Demo.env Demo.idp_up)
               (Demo.authenticator false false "" ∅)
               (Demo.get "/signin" "" (Some Demo.session_cookies)))
    = inr (Respond r)
    /\ status r = "302"
    /\ headers r !! "cache-control" = None
    /\ headers r !! "pragma" = None
    /\ ~ has_no_cache_headers r.
Proof.
  exists (signed_in_redirect "https://d1.example.com").
  split; [by vm_compute|]. split; [done|].
  destruct (signed_in_redirect_headers "https://d1.example.com")
    as (Hcache & Hpragma & _).
  split; [done|]. split; [done|].
  intros [H _]. by rewrite Hcache in H.
Qed.

(** C3, amended. Every 302 response of [handle], [handleParseAuth],
    [handleRefreshToken] and [handleSignOut] carries
    [Cache-Control: no-cache, no-store, max-age=0, must-revalidate] and
    [Pragma: no-cache]; so does every response of [handleSignIn] except the
    redirect it gives a user whose ID token verifies, which has a Location
    header only. *)
Theorem redirects_carry_no_cache_headers env self request r :
  (outcome (handle env self request) = inr (Respond r)
   \/ outcome (handleParseAuth env self request) = inr (Respond r)
   \/ outcome (handleRefreshToken env self request) = inr (Respond r)
   \/ outcome (handleSignOut env self request) = inr (Respond r) ->
   status r = "302" ->
   has_no_cache_headers r)
  /\ (outcome (handleSignIn env self request) = inr (Respond r) ->
      has_no_cache_headers r
      \/ exists tokens user,
           _getTokensFromCookie env self (cookie request) = ([], inr tokens)
           /\ jwtVerifier_verify env (idToken tokens) = inr user
           /\ r = signed_in_redirect
                    (js_or_else
                       (querystring_parse env (querystring request)
                          !! "redirect_uri")
                       ("https://" +:+ host request))).
Proof.
  assert (Hset : sets_verified_cookies env self r -> has_no_cache_headers r).
  { intros (tokens & d & l & decoded & _ & ->).
    apply redirect_with_cookies_no_cache. }
  assert (Hclear : clears_cookies env self request r ->
                   has_no_cache_headers r).
  { intros (tokens & cookies & _ & ->). apply redirect_with_cookies_no_cache. }
  assert (Hauth : redirects_to_authorize env self request r ->
                  has_no_cache_headers r).
  { intros (u & ->). apply authorize_redirect_no_cache. }
  split.
  - intros [H | [H | [H | H]]] Hstatus.
    + apply handle_responses in H as [? | (r' & [= <-] & [?|[?|?]])]; auto.
      done.
    + apply handleParseAuth_responses in H
        as (r' & [= <-] & [? | [e ->]]); auto.
      by vm_compute in Hstatus.
    + apply handleRefreshToken_responses in H
        as (r' & [= <-] & [?|?]); auto.
    + apply handleSignOut_responses in H as (r' & [= <-] & ?). auto.
  - rewrite handleSignIn_run. cbn zeta.
    destruct_tokens env self request e tokens; cbn [outcome snd].
    + intros [= <-]. left. apply authorize_redirect_no_cache.
    + destruct (jwtVerifier_verify env (idToken tokens)) as [e|user] eqn:Hv;
        intros [= <-].
      * left. apply authorize_redirect_no_cache.
      * right. by exists tokens, user.
Qed.

Lemma redirects_carry_no_cache_headers_witness :
  has_no_cache_headers
    (_getRedirectToCognitoUserPoolResponse (Demo.env Demo.idp_up)
       (Demo.authenticator true false "" ∅) (Demo.get "/page" "" None)
       "https://d1.example.com").
Proof.
  apply (proj1 (redirects_carry_no_cache_headers (Demo.env Demo.idp_up)
                  (Demo.authenticator true false "" ∅)
                  (Demo.get "/page" "" None) _)).
  - left. by vm_compute.
  - reflexivity.
Defined.

(** ** C8: per-cookie overrides *)

(** [_getOverridenCookieAttributes], field by field. *)
Lemma _getOverridenCookieAttributes_fields env self base cookieType :
  _getOverridenCookieAttributes env self base cookieType
  = match _cookieSettingsOverrides self !! cookieType with
    | None => base
    | Some o =>
        {| domain := domain base;
           expires :=
             match ov_expirationDays o with
             | Some days => Some (Date_now env + days * 86400000)
             | None => expires base
             end;
           secure := secure base;
           httpOnly := match ov_httpOnly o with
                       | Some v => Some v
                       | None => httpOnly base
                       end;
           sameSite := match ov_sameSite o with
                       | Some v => Some v
                       | None => sameSite base
                       end;
           path := match ov_path o with
                   | Some v => Some v
                   | None => path base
                   end |}
    end.
Proof.
  unfold _getOverridenCookieAttributes.
  destruct (_cookieSettingsOverrides self !! cookieType) as [o|]; [|done].
  by destruct base, (ov_httpOnly o), (ov_sameSite o), (ov_path o),
    (ov_expirationDays o).
Qed.

(** C8, as stated, fails: with an override configured for the cookie type
    [tokenScopesString], the resolution of that type has [HttpOnly], the
    path [/scopes] and a lifetime of one day, and the [tokenScopesString]
    cookie of the set-cookie redirect is written with the base attributes
    all the same. *)
Lemma tokenScopesString_override_is_not_applied :
  let overrides : gmap string CookieSettings :=
    {[ "tokenScopesString" :=
         {| ov_expirationDays := Some 1; ov_path := Some "/scopes";
            ov_httpOnly := Some true; ov_sameSite := None |} ]} in
  let env := Demo.env Demo.idp_up in
  let self := Demo.authenticator false false "" overrides in
  let tokens :=
    {| idToken := Some "jwt.alice"; accessToken := Some "at.alice";
       refreshToken := None |} in
  let base := base_attributes env self "d1.example.com" 1731536000000 in
  _getOverridenCookieAttributes env self base "tokenScopesString"
  = {| domain := Some "d1.example.com"; expires := Some 1700086400000;
       secure := Some true; httpOnly := Some true; sameSite := Some "Lax";
       path := Some "/scopes" |}
  /\ exists r,
       _getRedirectResponse env self tokens "d1.example.com" (Some "/")
       = ([EvVerify (Some "jwt.alice")], inr r)
       /\ (headers r !! "set-cookie") ≫= (.!! 2%nat)
          = Some {| key := "Set-Cookie";
                    hvalue :=
                      Some "CognitoIdentityServiceProvider.app1.alice.tokenScopesString=phone email profile openid aws.cognito.signin.user.admin; Domain=d1.example.com; Path=/; Expires=1731536000000; Secure; SameSite=Lax" |}.
Proof. cbn zeta. split; [by vm_compute|]. eexists. split; by vm_compute. Qed.

(** C8, amended. Resolving the override configured for a cookie type against
    a base attribute set replaces [httpOnly], [sameSite] and [path] by the
    override's value where it gives one, replaces [expires] by now plus
    [expirationDays] days where it gives one, and otherwise returns the base
    value; [domain] and [secure] are never touched, and with no override for
    the type the base set comes back whole. In the response of
    [_getRedirectResponse] the access token, ID token and refresh token
    cookies are serialised with the resolution for their type; the
    [tokenScopesString] and [LastAuthUser] cookies are serialised with the
    base set, whatever is configured under their names. *)
Theorem override_resolution env self base cookieType :
  let res := _getOverridenCookieAttributes env self base cookieType in
  let overrides := _cookieSettingsOverrides self !! cookieType in
  let replaced {A} (field : CookieSettings -> option A) (old : option A) :=
    match overrides ≫= field with
    | Some v => Some v
    | None => old
    end in
  (httpOnly res = replaced ov_httpOnly (httpOnly base)
   /\ sameSite res = replaced ov_sameSite (sameSite base)
   /\ path res = replaced ov_path (path base)
   /\ expires res
      = match overrides ≫= ov_expirationDays with
        | Some days => Some (Date_now env + days * 86400000)
        | None => expires base
        end
   /\ domain res = domain base
   /\ secure res = secure base
   /\ (overrides = None -> res = base))
  /\ forall tokens cfDomain location decoded,
       jwtVerifier_verify env (idToken tokens) = inr decoded ->
       let attributes :=
         {| domain := getCookieDomain env cfDomain (_disableCookieDomain self)
                        (_cookieDomain self);
            expires :=
              Some (Date_now env + _cookieExpirationDays self * 86400000);
            secure := Some true;
            httpOnly := Some (_httpOnly self);
            sameSite := _sameSite self;
            path := _cookiePath self |} in
       let resolved kind :=
         _getOverridenCookieAttributes env self attributes kind in
       let cookieBase :=
         "CognitoIdentityServiceProvider." +:+ _userPoolAppId self in
       let usernameBase := cookieBase +:+ "." +:+ cognito_username decoded in
       let serialized name value attributes :=
         {| key := "Set-Cookie";
            hvalue := Some (Cookies_serialize env name value attributes) |} in
       let csrfCleared :=
         {| domain := None; expires := Some (Date_now env);
            secure := Some true; httpOnly := Some (_httpOnly self);
            sameSite := _sameSite self; path := _cookiePath self |} in
       exists r,
         _getRedirectResponse env self tokens cfDomain location
         = ([EvVerify (idToken tokens)], inr r)
         /\ headers r !! "set-cookie"
            = Some
                ([ serialized (usernameBase +:+ ".accessToken")
                     (accessToken tokens) (resolved "accessToken");
                   serialized (usernameBase +:+ ".idToken")
                     (idToken tokens) (resolved "idToken") ]
                 ++ (if truthy (refreshToken tokens)
                     then [ serialized (usernameBase +:+ ".refreshToken")
                              (refreshToken tokens)
                              (resolved "refreshToken") ]
                     else [])
                 ++ [ serialized (usernameBase +:+ ".tokenScopesString")
                        (Some "phone email profile openid aws.cognito.signin.user.admin")
                        attributes;
                      serialized (cookieBase +:+ ".LastAuthUser")
                        (Some (cognito_username decoded)) attributes ]
                 ++ match _csrfProtection self with
                    | Some _ =>
                        [ serialized (cookieBase +:+ ".pkce") (Some "")
                            csrfCleared;
                          serialized (cookieBase +:+ ".nonce") (Some "")
                            csrfCleared;
                          serialized (cookieBase +:+ ".nonceHmac") (Some "")
                            csrfCleared ]
                    | None => []
                    end).
Proof.
  cbn zeta. split.
  - rewrite _getOverridenCookieAttributes_fields.
    destruct (_cookieSettingsOverrides self !! cookieType) as [o|]; cbn.
    + destruct (ov_httpOnly o), (ov_sameSite o), (ov_path o),
        (ov_expirationDays o); cbn; by repeat split.
    + by repeat split.
  - intros tokens cfDomain location decoded Hv.
    rewrite _getRedirectResponse_eq, Hv. eexists. split; [reflexivity|].
    rewrite redirect_with_cookies_set_cookie. f_equal.
    unfold set_cookie_headers, redirect_cookies.
    rewrite !map_app.
    by destruct (truthy (refreshToken tokens)), (_csrfProtection self).
Qed.

(** ** C9: session cookies only for a verified token set *)

Lemma unverified_responses_write_no_token env self request r :
  clears_cookies env self request r
  \/ redirects_to_authorize env self request r
  \/ (exists e, r = bad_request e)
  \/ (exists redirectURI, r = signed_in_redirect redirectURI) ->
  writes_no_session_token env self r.
Proof.
  intros [(tokens & cookies & Hcleared & ->)
         | [(u & ->) | [(e & ->) | (u & ->)]]].
  - right; left. eexists. split.
    + apply redirect_with_cookies_set_cookie.
    + by apply (cleared_cookies_clearing env self request tokens).
  - pose proof (authorize_redirect_set_cookie env self request u) as H.
    destruct (_csrfProtection self) as [csrf|].
    + right; right. by eexists.
    + by left.
  - by left.
  - left. by destruct (signed_in_redirect_headers u).
Qed.




(** ** C7: which failures reach the caller *)







(** ** C5: refreshing an expired session *)

Lemma handle_catch_no_refresh env self request :
  List.filter is_refresh_exchange (trace (handle_catch env self request)) = [].
Proof.
  rewrite handle_catch_run. cbn zeta. by repeat case_match.
Qed.

(** C5, as stated, fails: the refresh exchange fails, and the call still sets
    session cookies, because the request carries a code that [handle] then
    exchanges in its [catch] block. *)
Lemma handle_failed_refresh_still_sets_cookies :
  let env := Demo.env Demo.idp_code_only in
  let self := Demo.authenticator false false "" ∅ in
  let request :=
    Demo.get "/" "code=abc&state=/page" (Some Demo.stale_cookies) in
  let stale :=
    {| idToken := Some "expired"; accessToken := None;
       refreshToken := Some "rt1" |} in
  let fresh :=
    {| idToken := Some "jwt.alice"; accessToken := Some "at.alice";
       refreshToken := Some "rt.alice" |} in
  _getTokensFromCookie env self (cookie request) = ([], inr stale)
  /\ jwtVerifier_verify env (idToken stale)
     = inl (Thrown "JwtInvalidSignatureError: Invalid signature")
  /\ axios_request env
       (refresh_grant_request env self "https://d1.example.com"
          (refreshToken stale))
     = inl (Thrown "AxiosError: Request failed with status code 400")
  /\ outcome (handle env self request)
     = inr (Respond
              (redirect_with_cookies env (Some "/page")
                 (redirect_cookies env self fresh "d1.example.com" "alice")))
  /\ redirect_cookies env self fresh "d1.example.com" "alice" !! 1%nat
     = Some {| sc_name := "CognitoIdentityServiceProvider.app1.alice.idToken";
               sc_value := Some "jwt.alice";
               sc_attributes :=
                 {| domain := Some "d1.example.com";
                    expires := Some 1731536000000;
                    secure := Some true;
                    httpOnly := Some false;
                    sameSite := Some "Lax";
                    path := Some "/" |} |}.
Proof. cbn zeta. repeat split; by vm_compute. Qed.

(** C5, amended. For a request that is not a logout request and whose
    cookies hold an ID token that does not verify together with a refresh
    token, [handle] makes exactly one refresh exchange. When it succeeds and
    the new ID token verifies, the result is the 302 to the request URI that
    sets the cookies of the new tokens. When it fails, [handle] goes on in
    its [catch] block as for a user who is not authenticated: without a code
    in the request it answers with the authorize redirect, which writes no
    token into a cookie. *)
Theorem handle_refreshes_expired_session env self request tokens err :
  let redirectURI := "https://" +:+ host request in
  let refresh :=
    refresh_grant_request env self redirectURI (refreshToken tokens) in
  _getTokensFromCookie env self (cookie request) = ([], inr tokens) ->
  is_logout_request self request = false ->
  jwtVerifier_verify env (idToken tokens) = inl err ->
  truthy (refreshToken tokens) = true ->
  List.filter is_refresh_exchange (trace (handle env self request))
  = [EvFetchTokensFromRefreshToken refresh]
  /\ (forall fetched decoded,
        axios_request env refresh = inr fetched ->
        jwtVerifier_verify env (id_token fetched) = inr decoded ->
        handle env self request
        = ([EvVerify (idToken tokens);
            EvFetchTokensFromRefreshToken refresh;
            EvVerify (id_token fetched)],
           inr (Respond
                  (redirect_with_cookies env (Some (uri request))
                     (redirect_cookies env self
                        {| idToken := id_token fetched;
                           accessToken := access_token fetched;
                           refreshToken := None |}
                        (host request) (cognito_username decoded))))))
  /\ (forall e,
        axios_request env refresh = inl e ->
        handle env self request
        = ([EvVerify (idToken tokens); EvFetchTokensFromRefreshToken refresh]
           ++ trace (handle_catch env self request),
           outcome (handle_catch env self request))
        /\ (truthy (querystring_parse env (querystring request) !! "code")
            = false ->
            let response :=
              _getRedirectToCognitoUserPoolResponse env self request
                redirectURI in
            handle env self request
            = ([EvVerify (idToken tokens);
                EvFetchTokensFromRefreshToken refresh],
               inr (Respond response))
            /\ writes_no_session_token env self response)).
Proof.
  intros redirectURI refresh Htokens Hlogout Hv Hrefresh.
  assert (Hrun : handle env self request
    = match axios_request env refresh with
      | inl e =>
          ([EvVerify (idToken tokens); EvFetchTokensFromRefreshToken refresh]
           ++ trace (handle_catch env self request),
           outcome (handle_catch env self request))
      | inr fetched =>
          match jwtVerifier_verify env (id_token fetched) with
          | inl e =>
              ([EvVerify (idToken tokens);
                EvFetchTokensFromRefreshToken refresh;
                EvVerify (id_token fetched)]
               ++ trace (handle_catch env self request),
               outcome (handle_catch env self request))
          | inr decoded =>
              ([EvVerify (idToken tokens);
                EvFetchTokensFromRefreshToken refresh;
                EvVerify (id_token fetched)],
               inr (Respond
                      (redirect_with_cookies env (Some (uri request))
                         (redirect_cookies env self
                            {| idToken := id_token fetched;
                               accessToken := access_token fetched;
                               refreshToken := None |}
                            (host request) (cognito_username decoded)))))
          end
      end).
  { rewrite handle_run, Htokens. cbn zeta. cbn [outcome snd].
    rewrite Hlogout, Hv, Hrefresh. fold redirectURI. fold refresh.
    destruct (axios_request env refresh) as [e|fetched]; [done|].
    by destruct (jwtVerifier_verify env (id_token fetched)). }
  pose proof (handle_catch_no_refresh env self request) as Hnone.
  split; [|split].
  - rewrite Hrun.
    destruct (axios_request env refresh) as [e|fetched];
      [|destruct (jwtVerifier_verify env (id_token fetched))];
      cbn [trace fst]; rewrite ?List.filter_app, ?Hnone; reflexivity.
  - intros fetched decoded Hfetch Hv'. by rewrite Hrun, Hfetch, Hv'.
  - intros e Hfetch. rewrite Hrun, Hfetch. split; [done|].
    intros Hcode response. split.
    + rewrite handle_catch_run. cbn zeta. by rewrite Hlogout, Hcode.
    + apply (unverified_responses_write_no_token env self request).
      right; left. by eexists.
Qed.

Lemma handle_refreshes_expired_session_witness :
  let env := Demo.env Demo.idp_up in
  let self := Demo.authenticator false false "" ∅ in
  let request := Demo.get "/page" "" (Some Demo.stale_cookies) in
  handle env self request
  = ([EvVerify (Some "expired");
      EvFetchTokensFromRefreshToken
        (refresh_grant_request env self "https://d1.example.com"
           (Some "rt1"));
      EvVerify (Some "jwt.alice")],
     inr (Respond
            (redirect_with_cookies env (Some "/page")
               (redirect_cookies env self
                  {| idToken := Some "jwt.alice";
                     accessToken := Some "at.alice";
                     refreshToken := None |}
                  "d1.example.com" "alice")))).
Proof.
  intros env self request.
  assert (Hclaim :=
    handle_refreshes_expired_session env self request
      {| idToken := Some "expired"; accessToken := None;
         refreshToken := Some "rt1" |}
      (Thrown "JwtInvalidSignatureError: Invalid signature")
      ltac:(by vm_compute) ltac:(by vm_compute) ltac:(by vm_compute)
      ltac:(by vm_compute)).
  destruct Hclaim as (_ & Hfresh & _).
  apply (Hfresh
           {| id_token := Some "jwt.alice"; access_token := Some "at.alice";
              refresh_token := Some "rt.alice" |}
           {| cognito_username := "alice" |}); by vm_compute.
Defined.

(** ** C1: CSRF validation and the code exchange *)

(** C1, as stated, fails for [handle]: with CSRF protection on, a callback
    whose [state] carries a nonce other than the one in the nonce cookie does
    not pass [_validateCSRFCookies], and [handle] exchanges its code all the
    same, without validating, and follows the [redirect_uri] of the forged
    state. *)
Lemma handle_exchanges_code_without_csrf_validation :
  let env := Demo.env Demo.idp_up in
  let self := Demo.authenticator true false "" ∅ in
  let request :=
    Demo.get "/" "code=abc&state=forged~https://evil.example"
      (Some Demo.csrf_cookie_header) in
  _validateCSRFCookies env self request = ([], inl NonceMismatch)
  /\ trace (handle env self request)
     = [EvFetchTokensFromCode
          (code_grant_request env self "https://d1.example.com" "abc");
        EvVerify (Some "jwt.alice")]
  /\ outcome (handle env self request)
     = inr (Respond
              (redirect_with_cookies env (Some "https://evil.example")
                 (redirect_cookies env self
                    {| idToken := Some "jwt.alice";
                       accessToken := Some "at.alice";
                       refreshToken := Some "rt.alice" |}
                    "d1.example.com" "alice"))).
Proof. cbn zeta. repeat split; by vm_compute. Qed.

Lemma handleParseAuth_trace env self request csrf :
  _csrfProtection self = Some csrf ->
  trace (handleParseAuth env self request) = []
  \/ (_validateCSRFCookies env self request = ([EvCsrfValidated], inr tt)
      /\ exists rest,
           trace (handleParseAuth env self request) = EvCsrfValidated :: rest).
Proof.
  intros Hcsrf. unfold handleParseAuth.
  destruct (String.eqb (_parseAuthPath self) ""); [by left|].
  destruct (truthy _); [|by left].
  rewrite Hcsrf.
  destruct (_validateCSRFCookies_cases env self request) as [[e ->] | ->];
    [by left|].
  right. split; [done|].
  destruct (_getRedirectUriFromState env self _) as [t [e|location]];
    run_flow; by eexists.
Qed.

(** C1, amended to the flow that validates. With CSRF protection on, every
    code exchange in a run of [handleParseAuth] comes after the point where
    [_validateCSRFCookies] returned normally; when the validation fails the
    flow calls nobody and answers 400; and a request whose [state] carries a
    nonce other than the one of the nonce cookie fails the validation. *)
Theorem handleParseAuth_validates_before_exchange env self request csrf :
  _csrfProtection self = Some csrf ->
  (forall pre sent post,
     trace (handleParseAuth env self request)
     = pre ++ EvFetchTokensFromCode sent :: post ->
     In EvCsrfValidated pre
     /\ _validateCSRFCookies env self request = ([EvCsrfValidated], inr tt))
  /\ (forall e,
        _validateCSRFCookies env self request = ([], inl e) ->
        trace (handleParseAuth env self request) = []
        /\ exists e',
             outcome (handleParseAuth env self request)
             = inr (Respond (bad_request e')))
  /\ (forall parsedState csrfTokens,
        decodeState env
          (querystring_parse env (querystring request) !! "state")
        = inr (Some parsedState) ->
        _getCSRFTokensFromCookie env self (cookie request)
        = ([], inr csrfTokens) ->
        ps_nonce parsedState <> csrfTokens !! "nonce" ->
        exists e,
          (e = MissingNonceCookie \/ e = NonceMismatch)
          /\ _validateCSRFCookies env self request = ([], inl e)).
Proof.
  intros Hcsrf. split; [|split].
  - intros pre sent post Htrace.
    destruct (handleParseAuth_trace env self request csrf Hcsrf)
      as [Hnil | (Hok & rest & Hrest)].
    + rewrite Hnil in Htrace. by destruct pre.
    + split; [|done]. rewrite Hrest in Htrace.
      destruct pre as [|ev pre]; [done|].
      injection Htrace as <- _. by left.
  - intros e Hfail.
    destruct (handleParseAuth_trace env self request csrf Hcsrf)
      as [Hnil | (Hok & _)]; [|congruence].
    split; [done|].
    unfold handleParseAuth.
    destruct (String.eqb (_parseAuthPath self) ""); [by eexists|].
    destruct (truthy _); [|by eexists].
    rewrite Hcsrf, Hfail. by eexists.
  - intros parsedState csrfTokens Hstate Hcookies Hnonce.
    rewrite (_validateCSRFCookies_eq env self request csrf parsedState
               csrfTokens Hcsrf Hstate Hcookies).
    rewrite (bool_decide_eq_false_2 _ Hnonce), orb_true_r.
    destruct (negb (truthy (csrfTokens !! "nonce"))); eauto.
Qed.

Lemma handleParseAuth_validates_before_exchange_witness :
  let env := Demo.env Demo.idp_up in
  let self := Demo.authenticator true false "callback" ∅ in
  let request :=
    Demo.get "/callback" "code=abc&state=forged~https://evil.example"
      (Some Demo.csrf_cookie_header) in
  trace (handleParseAuth env self request) = []
  /\ exists e',
       outcome (handleParseAuth env self request)
       = inr (Respond (bad_request e')).
Proof.
  intros env self request.
  destruct (handleParseAuth_validates_before_exchange env self request
              {| nonceSigningSecret := "s3cret" |} eq_refl)
    as (_ & Hfail & _).
  apply (Hfail NonceMismatch). by vm_compute.
Defined.

(** ** C2: generating and validating the CSRF tokens *)

Lemma single_byte_mutation_neq (s s' : string) :
  single_byte_mutation s s' = true -> s <> s'.
Proof.
  revert s'. induction s as [|c r IH]; intros [|c' r']; cbn; try done.
  destruct (Ascii.eqb c c') eqn:Hc.
  - intros H%IH [= _ ?]. done.
  - intros _ [= ? _]. apply Ascii.eqb_neq in Hc. done.
Qed.

Lemma single_byte_mutation_nonempty (s s' : string) :
  single_byte_mutation s s' = true -> s' <> "".
Proof. destruct s, s'; cbn; by try done. Qed.

Lemma endsWith_app_cases (a b p : string) :
  endsWith (a +:+ b) p = true ->
  endsWith b p = true \/ endsWith p b = true.
Proof.
  induction a as [|c a IH]; [by left|].
  change (String c a +:+ b) with (String c (a +:+ b)). cbn [endsWith].
  destruct (String.eqb (String c (a +:+ b)) p) eqn:Heq; [|exact IH].
  intros _. right. apply String.eqb_eq in Heq. subst p.
  apply (endsWith_app (String c a) b).
Qed.

Lemma endsWith_app_other (a b p : string) :
  endsWith b p = false -> endsWith p b = false ->
  endsWith (a +:+ b) p = false.
Proof.
  intros Hb Hp. destruct (endsWith (a +:+ b) p) eqn:H; [|done].
  destruct (endsWith_app_cases a b p H); congruence.
Qed.

(** Reading back the three CSRF cookies of the authorize redirect. *)
Lemma csrf_tokens_sent_back env self (received : CSRFTokens) :
  fold_left (csrf_tokens_step self)
    (sent_back (csrf_cookies env self received)) ∅
  = <["nonceHmac" := csrf_nonceHmac received]>
      (<["nonce" := csrf_nonce received]>
         (<["pkce" := csrf_pkce received]> ∅)).
Proof.
  unfold sent_back, csrf_cookies, csrf_tokens_step.
  cbn [map fold_left sc_name sc_value name value default].
  rewrite !startsWith_app.
  unfold PKCE_COOKIE_NAME_SUFFIX, NONCE_COOKIE_NAME_SUFFIX,
    NONCE_HMAC_COOKIE_NAME_SUFFIX.
  rewrite !endsWith_app.
  rewrite !(endsWith_app_other (_cookieBase self)) by done.
  reflexivity.
Qed.

(** [_validateCSRFCookies] on a request whose [state] decodes to a nonce [n]
    and whose cookies are the three CSRF cookies, with whatever values. *)
Lemma _validateCSRFCookies_sent_back env self csrf request hs received n uri :
  _csrfProtection self = Some csrf ->
  decodeState env (querystring_parse env (querystring request) !! "state")
  = inr (Some {| ps_nonce := Some n; ps_redirect_uri := uri |}) ->
  n <> "" ->
  cookie request = Some hs ->
  parse_cookies env hs = inr (sent_back (csrf_cookies env self received)) ->
  _validateCSRFCookies env self request
  = if String.eqb (csrf_nonce received) "" then throw MissingNonceCookie
    else if negb (String.eqb n (csrf_nonce received)) then throw NonceMismatch
    else if String.eqb (csrf_pkce received) "" then throw MissingPkceCookie
    else if negb (String.eqb (signNonce env n (nonceSigningSecret csrf))
                    (csrf_nonceHmac received))
    then throw (SignatureMismatch (signNonce env n (nonceSigningSecret csrf))
                  (Some (csrf_nonceHmac received)))
    else ([EvCsrfValidated], inr tt).
Proof.
  intros Hcsrf Hstate Hn Hcookie Hparse.
  rewrite (_validateCSRFCookies_eq env self request csrf _
             (fold_left (csrf_tokens_step self)
                (sent_back (csrf_cookies env self received)) ∅)
             Hcsrf Hstate);
    [|by rewrite Hcookie; unfold _getCSRFTokensFromCookie; rewrite Hparse].
  rewrite csrf_tokens_sent_back. cbn zeta.
  rewrite lookup_insert_ne, lookup_insert_eq by done.
  rewrite lookup_insert_eq.
  rewrite !lookup_insert_ne, lookup_insert_eq by done.
  cbn [ps_nonce truthy default from_option]. unfold id.
  apply String.eqb_neq in Hn. rewrite Hn. cbn [negb orb].
  destruct (String.eqb (csrf_nonce received) ""); [done|]. cbn [negb].
  destruct (String.eqb n (csrf_nonce received)) eqn:Hnonce.
  - apply String.eqb_eq in Hnonce. rewrite bool_decide_eq_true_2 by congruence.
    cbn [negb]. destruct (String.eqb (csrf_pkce received) ""); [done|].
    cbn [negb].
    destruct (String.eqb _ (csrf_nonceHmac received)) eqn:Hmac.
    + apply String.eqb_eq in Hmac.
      by rewrite bool_decide_eq_true_2 by congruence.
    + apply String.eqb_neq in Hmac.
      by rewrite bool_decide_eq_false_2 by congruence.
  - apply String.eqb_neq in Hnonce.
    by rewrite bool_decide_eq_false_2 by congruence.
Qed.

(** C2, as stated, fails: replacing one byte of the PKCE cookie leaves the
    validation successful, as it only asks for the cookie to be there. *)
Lemma mutated_pkce_cookie_passes_validation :
  let env := Demo.env Demo.idp_up in
  let self := Demo.authenticator true false "callback" ∅ in
  let generated := generateCSRFTokens env "https://d1.example.com" "s3cret" in
  let request :=
    Demo.get "/callback"
      "code=abc&state=1700000000T7f3a9c~https://d1.example.com"
      (Some ["CognitoIdentityServiceProvider.app1.pkce=pkce-0123456789abcdeX; CognitoIdentityServiceProvider.app1.nonce=1700000000T7f3a9c; CognitoIdentityServiceProvider.app1.nonceHmac=mac(s3cret,1700000000T7f3a9c)"]) in
  querystring_parse env (querystring request) !! "state"
  = Some (csrf_state generated)
  /\ request_cookies env request
     = inr (sent_back
              (csrf_cookies env self
                 {| csrf_nonce := csrf_nonce generated;
                    csrf_nonceHmac := csrf_nonceHmac generated;
                    csrf_pkce := "pkce-0123456789abcdeX";
                    csrf_state := csrf_state generated |}))
  /\ single_byte_mutation (csrf_pkce generated) "pkce-0123456789abcdeX" = true
  /\ _validateCSRFCookies env self request = ([EvCsrfValidated], inr tt).
Proof. cbn zeta. repeat split; by vm_compute. Qed.

(** C2, amended. Take the tokens [generateCSRFTokens] draws for
    [redirectUri] and [secret], a nonce and a PKCE verifier that are not
    empty, and a request whose [state] is the generated one and whose
    cookies are the three CSRF cookies the authorize redirect sets. With the
    generated values the validation succeeds. With one byte of the nonce
    cookie replaced it fails with the nonce mismatch; with one byte of the
    HMAC cookie replaced it fails with the signature mismatch; with one byte
    of the PKCE cookie replaced it still succeeds. The missing-cookie errors
    are those of an empty nonce or PKCE cookie. *)
Theorem csrf_generate_then_validate env self csrf redirectURI :
  let generated :=
    generateCSRFTokens env redirectURI (nonceSigningSecret csrf) in
  _csrfProtection self = Some csrf ->
  decodeState env (Some (csrf_state generated))
  = inr (Some {| ps_nonce := Some (csrf_nonce generated);
                 ps_redirect_uri := Some redirectURI |}) ->
  generateNonce env <> "" ->
  generatePkceVerifier env <> "" ->
  forall request hs received,
    querystring_parse env (querystring request) !! "state"
    = Some (csrf_state generated) ->
    cookie request = Some hs ->
    parse_cookies env hs = inr (sent_back (csrf_cookies env self received)) ->
    (received = generated ->
     _validateCSRFCookies env self request = ([EvCsrfValidated], inr tt))
    /\ (single_byte_mutation (csrf_nonce generated) (csrf_nonce received)
        = true ->
        _validateCSRFCookies env self request = ([], inl NonceMismatch))
    /\ (csrf_nonce received = csrf_nonce generated ->
        csrf_pkce received = csrf_pkce generated ->
        single_byte_mutation (csrf_nonceHmac generated)
          (csrf_nonceHmac received) = true ->
        _validateCSRFCookies env self request
        = ([], inl (SignatureMismatch (csrf_nonceHmac generated)
                      (Some (csrf_nonceHmac received)))))
    /\ (csrf_nonce received = csrf_nonce generated ->
        csrf_nonceHmac received = csrf_nonceHmac generated ->
        single_byte_mutation (csrf_pkce generated) (csrf_pkce received)
        = true ->
        _validateCSRFCookies env self request = ([EvCsrfValidated], inr tt))
    /\ (csrf_nonce received = "" ->
        _validateCSRFCookies env self request = ([], inl MissingNonceCookie))
    /\ (csrf_nonce received = csrf_nonce generated ->
        csrf_pkce received = "" ->
        _validateCSRFCookies env self request = ([], inl MissingPkceCookie)).
Proof.
  intros generated Hcsrf Hcodec Hnonce Hpkce request hs received
    Hstate Hcookie Hparse.
  rewrite <- Hstate in Hcodec.
  rewrite (_validateCSRFCookies_sent_back env self csrf request hs received
             (csrf_nonce generated) (Some redirectURI)
             Hcsrf Hcodec Hnonce Hcookie Hparse).
  apply String.eqb_neq in Hnonce, Hpkce.
  change (signNonce env (csrf_nonce generated) (nonceSigningSecret csrf))
    with (csrf_nonceHmac generated).
  repeat apply conj.
  - intros ->. cbn [csrf_nonce csrf_pkce generated generateCSRFTokens].
    by rewrite Hnonce, Hpkce, !String.eqb_refl.
  - intros Hmut.
    pose proof (single_byte_mutation_nonempty _ _ Hmut) as Hne.
    pose proof (single_byte_mutation_neq _ _ Hmut) as Hneq.
    apply String.eqb_neq in Hne, Hneq. by rewrite Hne, Hneq.
  - intros -> -> Hmut.
    pose proof (single_byte_mutation_neq _ _ Hmut) as Hneq.
    apply String.eqb_neq in Hneq.
    cbn [csrf_nonce csrf_pkce generated generateCSRFTokens].
    rewrite Hnonce, Hpkce, String.eqb_refl. cbn [negb].
    fold generated. by rewrite Hneq.
  - intros -> -> Hmut.
    pose proof (single_byte_mutation_nonempty _ _ Hmut) as Hne.
    apply String.eqb_neq in Hne.
    cbn [csrf_nonce generated generateCSRFTokens].
    by rewrite Hnonce, Hne, !String.eqb_refl.
  - intros ->. by rewrite String.eqb_refl.
  - intros -> ->. cbn [csrf_nonce generated generateCSRFTokens].
    by rewrite Hnonce, !String.eqb_refl.
Qed.

Lemma csrf_generate_then_validate_witness :
  let env := Demo.env Demo.idp_up in
  let self := Demo.authenticator true false "callback" ∅ in
  let request :=
    Demo.get "/callback"
      "code=abc&state=1700000000T7f3a9c~https://d1.example.com"
      (Some Demo.csrf_cookie_header) in
  _validateCSRFCookies env self request = ([EvCsrfValidated], inr tt).
Proof.
  intros env self request.
  pose (generated := generateCSRFTokens env "https://d1.example.com" "s3cret").
  assert (Hclaim :=
    csrf_generate_then_validate env self {| nonceSigningSecret := "s3cret" |}
      "https://d1.example.com" eq_refl ltac:(by vm_compute) ltac:(done)
      ltac:(done) request Demo.csrf_cookie_header generated
      ltac:(by vm_compute) eq_refl ltac:(by vm_compute)).
  destruct Hclaim as (Hround & _). apply Hround. reflexivity.
Defined.

(** * Further properties of the flows *)

(** ** What reaches the origin *)

(** X1. [handle] lets a request through to the origin only after the ID token
    of its cookies has verified: when the result is a forward, it is the
    request as received, the request is not a logout request, the cookies
    held a token set whose ID token the verifier accepted, and that
    verification is the only call made. *)
Theorem handle_forwards_only_verified env self request forwarded :
  outcome (handle env self request) = inr (Forward forwarded) ->
  forwarded = request
  /\ is_logout_request self request = false
  /\ exists tokens user,
       _getTokensFromCookie env self (cookie request) = ([], inr tokens)
       /\ jwtVerifier_verify env (idToken tokens) = inr user
       /\ trace (handle env self request) = [EvVerify (idToken tokens)].
Proof.
  assert (Hcatch : outcome (handle_catch env self request)
                   <> inr (Forward forwarded)).
  { intros H. by apply handle_catch_responses in H as (r & ? & _). }
  assert (Hout : outcome (handleSignOut env self request)
                 <> inr (Forward forwarded)).
  { intros H. by apply handleSignOut_responses in H as (r & ? & _). }
  rewrite handle_run. cbn zeta.
  destruct_tokens env self request e tokens; cbn [outcome snd]; [done|].
  destruct (is_logout_request self request) eqn:Hlogout; [done|].
  destruct (jwtVerifier_verify env (idToken tokens)) as [err|user] eqn:Hv.
  - repeat case_match; cbn [outcome snd]; done.
  - intros [= <-]. eauto 10.
Qed.

Lemma handle_forwards_only_verified_witness :
  let env := Demo.env Demo.idp_down in
  let self := Demo.authenticator false true "" ∅ in
  let request := Demo.get "/page" "" (Some Demo.session_cookies) in
  request = request
  /\ is_logout_request self request = false
  /\ exists tokens user,
       _getTokensFromCookie env self (cookie request) = ([], inr tokens)
       /\ jwtVerifier_verify env (idToken tokens) = inr user
       /\ trace (handle env self request) = [EvVerify (idToken tokens)].
Proof.
  intros env self request.
  apply (handle_forwards_only_verified env self request request).
  by vm_compute.
Defined.

(** X2. No other flow forwards: whatever [handleSignIn], [handleParseAuth],
    [handleRefreshToken] and [handleSignOut] resolve to is a response of
    their own, never the request. *)
Theorem only_handle_forwards env self request forwarded :
  outcome (handleSignIn env self request) <> inr (Forward forwarded)
  /\ outcome (handleParseAuth env self request) <> inr (Forward forwarded)
  /\ outcome (handleRefreshToken env self request) <> inr (Forward forwarded)
  /\ outcome (handleSignOut env self request) <> inr (Forward forwarded).
Proof.
  repeat apply conj.
  - destruct (handleSignIn_responses env self request) as (r & -> & _). done.
  - intros H. by apply handleParseAuth_responses in H as (r & ? & _).
  - intros H. by apply handleRefreshToken_responses in H as (r & ? & _).
  - intros H. by apply handleSignOut_responses in H as (r & ? & _).
Qed.

(** ** The user who is not signed in *)

(** X3. A request without usable token cookies, without a code, and outside
    the logout path is answered by [handle] with the authorize redirect,
    without any call to the verifier or to the identity provider. With CSRF
    protection on the redirect sets exactly the three CSRF cookies of the
    tokens generated for the site root; with CSRF protection off it sets no
    cookie at all. *)
Theorem handle_redirects_unauthenticated env self request e :
  _getTokensFromCookie env self (cookie request) = ([], inl e) ->
  is_logout_request self request = false ->
  truthy (querystring_parse env (querystring request) !! "code") = false ->
  let response :=
    _getRedirectToCognitoUserPoolResponse env self request
      ("https://" +:+ host request) in
  handle env self request = ([], inr (Respond response))
  /\ status response = "302"
  /\ match _csrfProtection self with
     | Some csrf =>
         let generated :=
           generateCSRFTokens env ("https://" +:+ host request)
             (nonceSigningSecret csrf) in
         headers response !! "set-cookie"
         = Some (set_cookie_headers env (csrf_cookies env self generated))
         /\ map sc_name (csrf_cookies env self generated)
            = [ _cookieBase self +:+ ".pkce"; _cookieBase self +:+ ".nonce";
                _cookieBase self +:+ ".nonceHmac" ]
         /\ map sc_value (csrf_cookies env self generated)
            = [ Some (generatePkceVerifier env); Some (generateNonce env);
                Some (signNonce env (generateNonce env)
                        (nonceSigningSecret csrf)) ]
     | None => headers response !! "set-cookie" = None
     end.
Proof.
  intros Htokens Hlogout Hcode response. split; [|split].
  - rewrite handle_run, Htokens. cbn zeta. cbn [outcome snd].
    rewrite handle_catch_run. cbn zeta. by rewrite Hlogout, Hcode.
  - reflexivity.
  - pose proof (authorize_redirect_set_cookie env self request
                  ("https://" +:+ host request)) as H.
    fold response in H. by destruct (_csrfProtection self).
Qed.

Lemma handle_redirects_unauthenticated_witness :
  let env := Demo.env Demo.idp_down in
  let self := Demo.authenticator true false "" ∅ in
  let request := Demo.get "/page" "a=1" None in
  handle env self request
  = ([], inr (Respond
                (_getRedirectToCognitoUserPoolResponse env self request
                   "https://d1.example.com"))).
Proof.
  intros env self request.
  apply (handle_redirects_unauthenticated env self request CookiesNotPresent);
    by vm_compute.
Defined.

(** ** Calls over the network *)

(** X4. One run of [handle] makes at most two calls over the network. On the
    logout path it never exchanges a token and revokes at most once; off the
    logout path it never revokes, and makes at most one refresh exchange. *)
Theorem handle_network_calls env self request :
  let t := trace (handle env self request) in
  (length (List.filter is_http_call t) <= 2)%nat
  /\ (is_logout_request self request = true ->
      List.filter is_token_exchange t = []
      /\ (length (List.filter is_revoke t) <= 1)%nat)
  /\ (is_logout_request self request = false ->
      List.filter is_revoke t = []
      /\ (length (List.filter is_refresh_exchange t) <= 1)%nat).
Proof.
  cbn zeta. rewrite handle_run, handleSignOut_run, handle_catch_run.
  cbn zeta. unfold sign_out_calls.
  repeat case_match; cbn; repeat split; intros; try done; lia.
Qed.

(** X5. [handleSignIn] never goes over the network; [handleParseAuth] makes
    at most one call, a code exchange; [handleRefreshToken] makes at most one
    call, a refresh exchange; [handleSignOut] makes at most one call, a
    revoke. *)
Theorem flows_network_calls env self request :
  List.filter is_http_call (trace (handleSignIn env self request)) = []
  /\ (let t := trace (handleParseAuth env self request) in
      (length (List.filter is_http_call t) <= 1)%nat
      /\ List.filter is_refresh_exchange t = []
      /\ List.filter is_revoke t = [])
  /\ (let t := trace (handleRefreshToken env self request) in
      (length (List.filter is_http_call t) <= 1)%nat
      /\ List.filter is_http_call t = List.filter is_refresh_exchange t)
  /\ (let t := trace (handleSignOut env self request) in
      (length (List.filter is_http_call t) <= 1)%nat
      /\ List.filter is_token_exchange t = []).
Proof.
  cbn zeta.
  rewrite handleSignIn_run, handleParseAuth_run, handleRefreshToken_run,
    handleSignOut_run.
  cbn zeta. unfold sign_out_calls.
  destruct (_validateCSRFCookies_cases env self request) as [[e ->] | ->].
  all: repeat case_match; simplify_eq; cbn; repeat split; try done; lia.
Qed.

(** ** The cookies that are written *)

Lemma _getOverridenCookieAttributes_keeps env self base cookieType :
  secure (_getOverridenCookieAttributes env self base cookieType) = secure base
  /\ domain (_getOverridenCookieAttributes env self base cookieType)
     = domain base.
Proof.
  unfold _getOverridenCookieAttributes.
  destruct (_cookieSettingsOverrides self !! cookieType) as [o|]; [|done].
  by destruct (ov_httpOnly o), (ov_sameSite o), (ov_path o),
    (ov_expirationDays o).
Qed.

Lemma startsWith_app_app (p a b : string) :
  startsWith ((p +:+ a) +:+ b) p = true.
Proof.
  unfold startsWith. induction p as [|c p IH].
  - by destruct (("" +:+ a) +:+ b).
  - change ((String c p +:+ a) +:+ b) with (String c ((p +:+ a) +:+ b)).
    cbn [String.prefix]. by destruct (ascii_dec c c).
Qed.

Ltac secure_app_cookies :=
  repeat (apply List.Forall_cons;
          [ split; cbn [sc_attributes sc_name];
            [ rewrite ?(proj1 (_getOverridenCookieAttributes_keeps _ _ _ _));
              reflexivity
            | first [apply startsWith_app_app | apply startsWith_app] ]
          | ]);
  apply List.Forall_nil.

Lemma redirect_cookies_secure env self tokens domain username :
  Forall (is_secure_app_cookie self)
    (redirect_cookies env self tokens domain username).
Proof.
  unfold redirect_cookies, is_secure_app_cookie.
  apply Forall_app; split;
    [|apply Forall_app; split; [|apply Forall_app; split]].
  - secure_app_cookies.
  - destruct (truthy (refreshToken tokens)); secure_app_cookies.
  - secure_app_cookies.
  - destruct (_csrfProtection self); secure_app_cookies.
Qed.

Lemma cleared_cookies_secure env self request tokens cookies :
  cleared_cookies env self request tokens = inr cookies ->
  Forall (is_secure_app_cookie self) cookies.
Proof.
  unfold cleared_cookies, is_secure_app_cookie.
  destruct (jwtVerifier_verify env (idToken tokens)) as [e|decoded].
  - destruct (request_cookies env request) as [e'|cs]; [done|].
    intros [= <-]. unfold cleared_request_cookies.
    induction cs as [|c cs IH]; cbn; [done|].
    destruct (startsWith (name c) (_cookieBase self)) eqn:Hc; [|done].
    by constructor.
  - intros [= <-]. unfold cleared_user_cookies.
    apply Forall_app; split; [|apply Forall_app; split].
    + secure_app_cookies.
    + destruct (truthy (refreshToken tokens)); secure_app_cookies.
    + secure_app_cookies.
Qed.

Lemma csrf_cookies_secure env self csrfTokens :
  Forall (is_secure_app_cookie self) (csrf_cookies env self csrfTokens).
Proof. unfold csrf_cookies, is_secure_app_cookie. secure_app_cookies. Qed.

(** X6. Whatever one of the five flows answers, every Set-Cookie header it
    writes is for a cookie with the Secure flag and with a name that starts
    with the cookie base [CognitoIdentityServiceProvider.<appId>]; no
    override can take the flag away. *)
Theorem flows_write_secure_app_cookies env self request r :
  outcome (handle env self request) = inr (Respond r)
  \/ outcome (handleSignIn env self request) = inr (Respond r)
  \/ outcome (handleParseAuth env self request) = inr (Respond r)
  \/ outcome (handleRefreshToken env self request) = inr (Respond r)
  \/ outcome (handleSignOut env self request) = inr (Respond r) ->
  headers r !! "set-cookie" = None
  \/ exists cookies,
       headers r !! "set-cookie" = Some (set_cookie_headers env cookies)
       /\ Forall (is_secure_app_cookie self) cookies.
Proof.
  assert (Hset : sets_verified_cookies env self r ->
    headers r !! "set-cookie" = None
    \/ exists cookies,
         headers r !! "set-cookie" = Some (set_cookie_headers env cookies)
         /\ Forall (is_secure_app_cookie self) cookies).
  { intros (tokens & d & l & decoded & _ & ->). right. eexists. split.
    - apply redirect_with_cookies_set_cookie.
    - apply redirect_cookies_secure. }
  assert (Hclear : clears_cookies env self request r ->
    headers r !! "set-cookie" = None
    \/ exists cookies,
         headers r !! "set-cookie" = Some (set_cookie_headers env cookies)
         /\ Forall (is_secure_app_cookie self) cookies).
  { intros (tokens & cookies & Hcleared & ->). right. eexists. split.
    - apply redirect_with_cookies_set_cookie.
    - by apply (cleared_cookies_secure env self request tokens). }
  assert (Hauth : redirects_to_authorize env self request r ->
    headers r !! "set-cookie" = None
    \/ exists cookies,
         headers r !! "set-cookie" = Some (set_cookie_headers env cookies)
         /\ Forall (is_secure_app_cookie self) cookies).
  { intros (u & ->).
    pose proof (authorize_redirect_set_cookie env self request u) as H.
    destruct (_csrfProtection self) as [csrf|]; [|by left].
    right. eexists. split; [exact H|]. apply csrf_cookies_secure. }
  intros [H | [H | [H | [H | H]]]].
  - apply handle_responses in H as [? | (r' & [= <-] & [?|[?|?]])]; auto.
    done.
  - destruct (handleSignIn_responses env self request)
      as (r' & Hr & [[u ->] | ?]).
    + rewrite H in Hr. injection Hr as ->. left.
      by destruct (signed_in_redirect_headers u).
    + rewrite H in Hr. injection Hr as ->. auto.
  - apply handleParseAuth_responses in H as (r' & [= <-] & [?|[e ->]]); auto.
  - apply handleRefreshToken_responses in H as (r' & [= <-] & [?|?]); auto.
  - apply handleSignOut_responses in H as (r' & [= <-] & ?). auto.
Qed.

Lemma flows_write_secure_app_cookies_witness :
  let env := Demo.env Demo.idp_up in
  let self := Demo.authenticator true false "" ∅ in
  let request := Demo.get "/page" "" (Some Demo.stale_cookies) in
  let r :=
    redirect_with_cookies env (Some "/page")
      (redirect_cookies env self
         {| idToken := Some "jwt.alice"; accessToken := Some "at.alice";
            refreshToken := None |} "d1.example.com" "alice") in
  headers r !! "set-cookie" = None
  \/ exists cookies,
       headers r !! "set-cookie" = Some (set_cookie_headers env cookies)
       /\ Forall (is_secure_app_cookie self) cookies.
Proof.
  intros env self request r.
  apply (flows_write_secure_app_cookies env self request r).
  left. by vm_compute.
Defined.

(** X7. With CSRF protection on, the set-cookie redirect that ends a sign-in
    finishes with three cookies that clear the three CSRF cookies the
    authorize redirect had set: same names, no Domain, same Path and flags,
    an empty value and an expiry at the instant of the call. *)
Theorem sign_in_clears_csrf_cookies env self csrf generated tokens cfDomain
    username :
  _csrfProtection self = Some csrf ->
  exists session cleared,
    redirect_cookies env self tokens cfDomain username = session ++ cleared
    /\ Forall2 (clears_cookie (Date_now env))
         (csrf_cookies env self generated) cleared
    /\ Forall (fun c => domain (sc_attributes c) = None) cleared.
Proof.
  intros Hcsrf. unfold redirect_cookies. rewrite Hcsrf.
  unfold csrf_cookies, clears_cookie, is_clearing.
  destruct (truthy (refreshToken tokens)); cbn [app];
    [eexists [_; _; _; _; _], [_; _; _] | eexists [_; _; _; _], [_; _; _]];
    (split; [reflexivity|]);
    (split; [repeat (apply List.Forall2_cons; [by repeat split|])
            | repeat (apply List.Forall_cons; [reflexivity|])]);
    constructor.
Qed.

Lemma sign_in_clears_csrf_cookies_witness :
  let env := Demo.env Demo.idp_up in
  let self := Demo.authenticator true false "" ∅ in
  exists session cleared,
    redirect_cookies env self no_tokens "d1.example.com" "alice"
    = session ++ cleared
    /\ Forall2 (clears_cookie (Date_now env))
         (csrf_cookies env self
            (generateCSRFTokens env "https://d1.example.com" "s3cret"))
         cleared
    /\ Forall (fun c => domain (sc_attributes c) = None) cleared.
Proof.
  intros env self.
  apply (sign_in_clears_csrf_cookies env self
           {| nonceSigningSecret := "s3cret" |}).
  reflexivity.
Defined.

(** X8. The cookies [_clearCookies] writes for a verified user are, name for
    name and in the same order, the session cookies [_getRedirectResponse]
    sets for that user and token set, whatever the overrides; what follows
    them in the set-cookie redirect is there only with CSRF protection on.
    Without overrides each of them clears its counterpart: same Domain, Path
    and flags, an empty value, an expiry at the instant of the call. *)
Theorem sign_out_clears_what_sign_in_sets env self tokens cfDomain username :
  let cleared :=
    cleared_user_cookies self tokens username
      (base_attributes env self cfDomain (Date_now env)) in
  exists session rest,
    redirect_cookies env self tokens cfDomain username = session ++ rest
    /\ map sc_name cleared = map sc_name session
    /\ (_csrfProtection self = None -> rest = [])
    /\ (_cookieSettingsOverrides self = ∅ ->
        Forall2 (clears_cookie (Date_now env)) session cleared).
Proof.
  cbn zeta. unfold redirect_cookies, cleared_user_cookies.
  destruct (truthy (refreshToken tokens)); cbn [app];
    [eexists [_; _; _; _; _], _ | eexists [_; _; _; _], _];
    (split; [reflexivity|]); (split; [reflexivity|]);
    (split; [by intros ->|]).
  all: intros Hnone; unfold _getOverridenCookieAttributes, clears_cookie,
    is_clearing; rewrite Hnone, !lookup_empty.
  all: repeat (apply List.Forall2_cons; [by repeat split|]); constructor.
Qed.

(** ** Reading the token cookies *)

(** The body of the loop of [_getTokensFromCookie]. *)
Ltac name_token_step step :=
  match goal with
  | |- context [fold_left ?f _ _] => set (step := f) in *
  end.

(** The headers are parsed in order: the first one the parser throws on
    gives the error. *)
Lemma parse_cookies_first_error env before h after e :
  Forall (fun h' => exists cookies, Cookies_parse env h' = inr cookies)
    before ->
  Cookies_parse env h = inl e ->
  parse_cookies env (before ++ h :: after) = inl e.
Proof.
  intros Hbefore Hh. induction Hbefore as [|h' before [cookies Hh'] _ IH].
  - cbn. by rewrite Hh.
  - cbn. by rewrite Hh', IH.
Qed.

(** X9. [_getTokensFromCookie] fails in three ways only: without any Cookie
    header the cookies are reported missing; with a header the cookie parser
    throws on, the error is the parser's, for the first such header; and
    with headers that parse and give neither an ID token nor a refresh token
    that is not empty the tokens are reported missing. A token set it
    returns holds an ID token or a refresh token that is not empty, and
    never an access token. *)
Theorem _getTokensFromCookie_results env self cookieHeaders :
  match cookieHeaders with
  | None =>
      _getTokensFromCookie env self cookieHeaders
      = ([], inl CookiesNotPresent)
  | Some hs =>
      match parse_cookies env hs with
      | inl e => _getTokensFromCookie env self cookieHeaders = ([], inl e)
      | inr _ =>
          _getTokensFromCookie env self cookieHeaders
          = ([], inl TokensNotPresent)
          \/ exists tokens,
               _getTokensFromCookie env self cookieHeaders = ([], inr tokens)
               /\ accessToken tokens = None
               /\ (truthy (idToken tokens) = true
                   \/ truthy (refreshToken tokens) = true)
      end
      /\ forall before h after e,
           hs = before ++ h :: after ->
           Forall (fun h' => exists cookies,
                               Cookies_parse env h' = inr cookies) before ->
           Cookies_parse env h = inl e ->
           _getTokensFromCookie env self cookieHeaders = ([], inl e)
  end.
Proof.
  destruct cookieHeaders as [hs|]; [|done].
  unfold _getTokensFromCookie. split.
  2: { intros before h after e -> Hbefore Hh.
       by rewrite (parse_cookies_first_error env before h after e). }
  destruct (parse_cookies env hs) as [e|cookies]; [done|].
  rewrite bind_pure. name_token_step step.
  assert (Haccess : forall cs init,
            accessToken (fold_left step cs init) = accessToken init).
  { induction cs as [|c cs IH]; intros init; [done|].
    cbn [fold_left]. rewrite IH. unfold step.
    by destruct (_ && _), (_ && _). }
  specialize (Haccess cookies no_tokens).
  destruct (truthy (idToken _)) eqn:Hid; cbn [negb andb].
  - right. eexists. split; [done|]. split; [exact Haccess | by left].
  - destruct (truthy (refreshToken _)) eqn:Hrefresh; cbn [negb].
    + right. eexists. split; [done|]. split; [exact Haccess | by right].
    + by left.
Qed.

(** X10. [_getTokensFromCookie] looks only at the cookies whose name starts
    with [CognitoIdentityServiceProvider.<appId>.]: two lists of Cookie
    headers that hold the same such cookies in the same order give the same
    result, whatever else they hold. *)
Theorem _getTokensFromCookie_ignores_other_cookies env self hs1 hs2 cs1 cs2 :
  let mine c := startsWith (name c) (_cookieBase self +:+ ".") in
  parse_cookies env hs1 = inr cs1 ->
  parse_cookies env hs2 = inr cs2 ->
  List.filter mine cs1 = List.filter mine cs2 ->
  _getTokensFromCookie env self (Some hs1)
  = _getTokensFromCookie env self (Some hs2).
Proof.
  intros mine Hparse1 Hparse2 Hsame. unfold _getTokensFromCookie.
  rewrite Hparse1, Hparse2, !bind_pure. name_token_step step.
  assert (Hfilter : forall cs init,
            fold_left step cs init = fold_left step (List.filter mine cs) init).
  { induction cs as [|c cs IH]; intros init; [done|].
    cbn [fold_left List.filter]. destruct (mine c) eqn:Hc.
    - cbn [fold_left]. apply IH.
    - rewrite <- IH. f_equal. unfold step. fold (mine c). by rewrite Hc. }
  by rewrite (Hfilter cs1), (Hfilter cs2), Hsame.
Qed.

Lemma _getTokensFromCookie_ignores_other_cookies_witness :
  let env := Demo.env Demo.idp_up in
  let self := Demo.authenticator false false "" ∅ in
  _getTokensFromCookie env self
    (Some ["theme=dark; CognitoIdentityServiceProvider.app1.alice.idToken=jwt.alice";
           "CognitoIdentityServiceProvider.app2.bob.idToken=jwt.bob"])
  = _getTokensFromCookie env self
      (Some ["CognitoIdentityServiceProvider.app1.alice.idToken=jwt.alice"]).
Proof.
  intros env self.
  eapply (_getTokensFromCookie_ignores_other_cookies env self);
    by vm_compute.
Defined.

(** X11. Among the cookies of one kind the last one wins: when the last
    cookie of the request is an ID token cookie of the application with a
    value that is not empty, the token set returned holds that value as ID
    token, whatever came before; the same holds for a refresh token
    cookie. *)
Theorem _getTokensFromCookie_last_wins env self hs cs c :
  parse_cookies env hs = inr (cs ++ [c]) ->
  startsWith (name c) (_cookieBase self +:+ ".") = true ->
  value c <> "" ->
  (endsWith (name c) ".idToken" = true ->
   exists tokens,
     _getTokensFromCookie env self (Some hs) = ([], inr tokens)
     /\ idToken tokens = Some (value c))
  /\ (endsWith (name c) ".refreshToken" = true ->
      exists tokens,
        _getTokensFromCookie env self (Some hs) = ([], inr tokens)
        /\ refreshToken tokens = Some (value c)).
Proof.
  intros Hparse Hmine Hvalue. apply String.eqb_neq in Hvalue.
  unfold _getTokensFromCookie. rewrite Hparse, bind_pure, fold_left_app.
  cbn [fold_left]. rewrite Hmine. cbn [andb]. split; intros Hkind.
  - rewrite Hkind. destruct (endsWith (name c) ".refreshToken");
      cbn [idToken truthy]; rewrite Hvalue; cbn [negb andb]; by eexists.
  - rewrite Hkind. destruct (endsWith (name c) ".idToken");
      cbn [idToken refreshToken truthy]; rewrite Hvalue;
      rewrite ?andb_false_r; cbn [negb andb]; by eexists.
Qed.

Lemma _getTokensFromCookie_last_wins_witness :
  let env := Demo.env Demo.idp_up in
  let self := Demo.authenticator false false "" ∅ in
  exists tokens,
    _getTokensFromCookie env self
      (Some ["CognitoIdentityServiceProvider.app1.alice.idToken=jwt.alice; CognitoIdentityServiceProvider.app1.bob.idToken=jwt.bob"])
    = ([], inr tokens)
    /\ idToken tokens = Some "jwt.bob".
Proof.
  intros env self.
  apply (_getTokensFromCookie_last_wins env self _
           [ {| name := "CognitoIdentityServiceProvider.app1.alice.idToken";
                value := "jwt.alice" |} ]
           {| name := "CognitoIdentityServiceProvider.app1.bob.idToken";
              value := "jwt.bob" |}); by vm_compute.
Defined.

(** ** The CSRF state *)

Lemma csrf_tokens_none_under_base self (cs : list Cookie)
    (init : gmap string string) :
  List.filter (fun c => startsWith (name c) (_cookieBase self)) cs = [] ->
  fold_left (csrf_tokens_step self) cs init = init.
Proof.
  revert init. induction cs as [|c cs IH]; intros init; [done|].
  cbn [List.filter fold_left]. unfold csrf_tokens_step at 2.
  destruct (startsWith (name c) (_cookieBase self)); [done|]. apply IH.
Qed.

(** X12. The order in which [_validateCSRFCookies] gives up. Without CSRF
    protection it refuses to run. With it, Cookie headers the parser throws
    on fail first, with the error of the parser and whatever the [state]
    is; then a [state] that does not decode fails with the error of the
    decoding; then a request without any Cookie header fails because the
    cookies are missing; then a [state] that decodes to [null] fails with
    the [TypeError] of reading its nonce; then a request with no cookie
    under the cookie base fails because the nonce cookie is missing; and a
    request with a nonce cookie and a [state] without nonce fails with the
    nonce mismatch. *)
Theorem _validateCSRFCookies_error_precedence env self request :
  let state := querystring_parse env (querystring request) !! "state" in
  (_csrfProtection self = None ->
   _validateCSRFCookies env self request = ([], inl CsrfDisabled))
  /\ (forall csrf e,
        _csrfProtection self = Some csrf ->
        request_cookies env request = inl e ->
        _validateCSRFCookies env self request = ([], inl e))
  /\ (forall csrf cookies e,
        _csrfProtection self = Some csrf ->
        request_cookies env request = inr cookies ->
        decodeState env state = inl e ->
        _validateCSRFCookies env self request = ([], inl e))
  /\ (forall csrf parsedState,
        _csrfProtection self = Some csrf ->
        cookie request = None ->
        decodeState env state = inr parsedState ->
        _validateCSRFCookies env self request = ([], inl CookiesNotPresent))
  /\ (forall csrf hs cookies,
        _csrfProtection self = Some csrf ->
        cookie request = Some hs ->
        parse_cookies env hs = inr cookies ->
        decodeState env state = inr None ->
        _validateCSRFCookies env self request
        = ([], inl (Thrown "TypeError: Cannot read properties of null (reading 'nonce')")))
  /\ (forall csrf parsedState hs cookies,
        _csrfProtection self = Some csrf ->
        cookie request = Some hs ->
        parse_cookies env hs = inr cookies ->
        decodeState env state = inr (Some parsedState) ->
        List.filter (fun c => startsWith (name c) (_cookieBase self)) cookies
        = [] ->
        _validateCSRFCookies env self request = ([], inl MissingNonceCookie))
  /\ (forall csrf parsedState csrfTokens,
        _csrfProtection self = Some csrf ->
        decodeState env state = inr (Some parsedState) ->
        _getCSRFTokensFromCookie env self (cookie request)
        = ([], inr csrfTokens) ->
        truthy (csrfTokens !! "nonce") = true ->
        truthy (ps_nonce parsedState) = false ->
        _validateCSRFCookies env self request = ([], inl NonceMismatch)).
Proof.
  cbn zeta. repeat apply conj.
  - unfold _validateCSRFCookies. by intros ->.
  - unfold _validateCSRFCookies. intros csrf e -> Hcookies.
    by rewrite Hcookies.
  - unfold _validateCSRFCookies. intros csrf cookies e -> Hcookies Hstate.
    by rewrite Hcookies, bind_pure, Hstate.
  - unfold _validateCSRFCookies, request_cookies.
    intros csrf parsedState -> Hcookie Hstate.
    by rewrite Hcookie, bind_pure, Hstate, bind_pure.
  - unfold _validateCSRFCookies, request_cookies, _getCSRFTokensFromCookie.
    intros csrf hs cookies -> Hcookie Hparse Hstate.
    by rewrite Hcookie, Hparse, bind_pure, Hstate, !bind_pure.
  - intros csrf parsedState hs cookies Hcsrf Hcookie Hparse Hstate Hnone.
    rewrite (_validateCSRFCookies_eq env self request csrf parsedState ∅
               Hcsrf Hstate).
    + rewrite lookup_empty. cbn [truthy negb]. by rewrite orb_true_r.
    + rewrite Hcookie. unfold _getCSRFTokensFromCookie.
      rewrite Hparse, bind_pure.
      by rewrite (csrf_tokens_none_under_base self _ ∅ Hnone).
  - intros csrf parsedState csrfTokens Hcsrf Hstate Hcookies Hnonce
      Hstate_nonce.
    rewrite (_validateCSRFCookies_eq env self request csrf parsedState
               csrfTokens Hcsrf Hstate Hcookies).
    by rewrite Hnonce, Hstate_nonce.
Qed.

Lemma _validateCSRFCookies_error_precedence_witness :
  _validateCSRFCookies (Demo.env Demo.idp_up)
    (Demo.authenticator true false "callback" ∅)
    (Demo.get "/callback" "code=abc&state=null"
       (Some Demo.csrf_cookie_header))
  = ([], inl (Thrown "TypeError: Cannot read properties of null (reading 'nonce')")).
Proof.
  pose proof (_validateCSRFCookies_error_precedence (Demo.env Demo.idp_up)
                (Demo.authenticator true false "callback" ∅)
                (Demo.get "/callback" "code=abc&state=null"
                   (Some Demo.csrf_cookie_header))) as H.
  cbn zeta in H. destruct H as (_ & _ & _ & _ & H & _).
  apply (H {| nonceSigningSecret := "s3cret" |} Demo.csrf_cookie_header
           (sent_back
              (csrf_cookies (Demo.env Demo.idp_up)
                 (Demo.authenticator true false "callback" ∅)
                 (generateCSRFTokens (Demo.env Demo.idp_up)
                    "https://d1.example.com" "s3cret"))));
    by vm_compute.
Defined.

(** X13. A sign-in from end to end, with CSRF protection on and a callback
    path. [handleSignIn] answers a user who is not signed in with the
    authorize redirect: its Location carries the state generated for the
    destination of the sign-in, and it sets the three CSRF cookies. When the
    browser comes back with that state and those cookies, the codec decodes
    what it encoded, the code is exchanged and the new ID token verifies,
    [handleParseAuth] validates, exchanges, verifies, and redirects to the
    destination the sign-in started with. *)
Theorem sign_in_round_trip env self csrf request1 request2 e hs fetched
    decoded :
  let redirectURI :=
    js_or_else (querystring_parse env (querystring request1) !! "redirect_uri")
      ("https://" +:+ host request1) in
  let generated :=
    generateCSRFTokens env redirectURI (nonceSigningSecret csrf) in
  let requestParams := querystring_parse env (querystring request2) in
  let exchange :=
    code_grant_request env self
      ("https://" +:+ host request2 +:+ "/" +:+ _parseAuthPath self)
      (render (requestParams !! "code")) in
  _csrfProtection self = Some csrf ->
  _parseAuthPath self <> "" ->
  _getTokensFromCookie env self (cookie request1) = ([], inl e) ->
  decodeState env (Some (csrf_state generated))
  = inr (Some {| ps_nonce := Some (csrf_nonce generated);
                 ps_redirect_uri := Some redirectURI |}) ->
  generateNonce env <> "" ->
  generatePkceVerifier env <> "" ->
  truthy (requestParams !! "code") = true ->
  requestParams !! "state" = Some (csrf_state generated) ->
  cookie request2 = Some hs ->
  parse_cookies env hs = inr (sent_back (csrf_cookies env self generated)) ->
  axios_request env exchange = inr fetched ->
  jwtVerifier_verify env (id_token fetched) = inr decoded ->
  (exists r1,
     handleSignIn env self request1 = ([], inr (Respond r1))
     /\ headers r1 !! "location"
        = Some [ {| key := "Location";
                    hvalue :=
                      Some ("https://" +:+ _userPoolDomain self
                            +:+ "/authorize?redirect_uri="
                            +:+ ("https://" +:+ host request1 +:+ "/"
                                   +:+ _parseAuthPath self)
                            +:+ "&response_type=code&client_id="
                            +:+ _userPoolAppId self +:+ "&state="
                            +:+ csrf_state generated) |} ]
     /\ headers r1 !! "set-cookie"
        = Some (map (fun c =>
                       {| key := "Set-Cookie";
                          hvalue :=
                            Some (Cookies_serialize env (sc_name c)
                                    (sc_value c) (sc_attributes c)) |})
                  (csrf_cookies env self generated)))
  /\ exists r2,
       handleParseAuth env self request2
       = ([EvCsrfValidated; EvFetchTokensFromCode exchange;
           EvVerify (id_token fetched)],
          inr (Respond r2))
       /\ status r2 = "302"
       /\ headers r2 !! "location"
          = Some [ {| key := "Location"; hvalue := Some redirectURI |} ].
Proof.
  intros redirectURI generated requestParams exchange Hcsrf Hpath Htokens
    Hcodec Hnonce Hpkce Hcode Hstate Hcookie Hparse Hfetch Hv.
  apply String.eqb_neq in Hpath. split.
  - rewrite handleSignIn_run, Htokens. cbn zeta. cbn [outcome snd].
    fold redirectURI. eexists. split; [reflexivity|].
    unfold _getRedirectToCognitoUserPoolResponse.
    rewrite Hcsrf, Hpath. fold generated. cbn [negb fmap option_fmap option_map].
    split; by simplify_map_eq.
  - assert (Hvalid : _validateCSRFCookies env self request2
                     = ([EvCsrfValidated], inr tt)).
    { fold requestParams in Hstate. rewrite <- Hstate in Hcodec.
      rewrite (_validateCSRFCookies_sent_back env self csrf request2 hs
                 generated (csrf_nonce generated) (Some redirectURI)
                 Hcsrf Hcodec Hnonce Hcookie Hparse).
      apply String.eqb_neq in Hnonce, Hpkce.
      change (signNonce env (csrf_nonce generated) (nonceSigningSecret csrf))
        with (csrf_nonceHmac generated).
      cbn [csrf_nonce csrf_pkce generated generateCSRFTokens].
      by rewrite Hnonce, Hpkce, !String.eqb_refl. }
    assert (Hlocation : _getRedirectUriFromState env self
                          (requestParams !! "state")
                        = ([], inr (Some redirectURI))).
    { unfold _getRedirectUriFromState. by rewrite Hcsrf, Hstate, Hcodec. }
    rewrite handleParseAuth_run. cbn zeta. fold requestParams. fold exchange.
    rewrite Hpath, Hcode, Hcsrf, Hvalid, Hfetch, Hlocation.
    cbn [outcome snd app]. rewrite Hv.
    eexists. split; [reflexivity|]. split; [reflexivity|].
    unfold signed_in_response. by rewrite redirect_with_cookies_location.
Qed.

Lemma sign_in_round_trip_witness :
  let env := Demo.env Demo.idp_up in
  let self := Demo.authenticator true false "callback" ∅ in
  let request2 :=
    Demo.get "/callback" "code=abc&state=1700000000T7f3a9c~/inbox"
      (Some Demo.csrf_cookie_header) in
  exists r2,
    handleParseAuth env self request2
    = ([EvCsrfValidated;
        EvFetchTokensFromCode
          (code_grant_request env self "https://d1.example.com/callback"
             "abc");
        EvVerify (Some "jwt.alice")],
       inr (Respond r2))
    /\ status r2 = "302"
    /\ headers r2 !! "location"
       = Some [ {| key := "Location"; hvalue := Some "/inbox" |} ].
Proof.
  intros env self request2.
  apply (sign_in_round_trip env self {| nonceSigningSecret := "s3cret" |}
           (Demo.get "/signin" "redirect_uri=/inbox" None) request2
           CookiesNotPresent Demo.csrf_cookie_header
           {| id_token := Some "jwt.alice"; access_token := Some "at.alice";
              refresh_token := Some "rt.alice" |}
           {| cognito_username := "alice" |});
    by vm_compute.
Defined.

(** X14. With CSRF protection on, the authorize redirect does not depend on
    the path or the query string of the request: two requests for the same
    host get the same response, so the page that was asked for is not what
    the state carries. With CSRF protection off the state is the path of the
    request, followed by its encoded query string when there is one, and no
    cookie is set. *)
Theorem authorize_redirect_and_the_requested_page env self redirectURI :
  (forall csrf request1 request2,
     _csrfProtection self = Some csrf ->
     host request1 = host request2 ->
     _getRedirectToCognitoUserPoolResponse env self request1 redirectURI
     = _getRedirectToCognitoUserPoolResponse env self request2 redirectURI)
  /\ (forall request,
        _csrfProtection self = None ->
        let state :=
          if String.eqb (querystring request) "" then uri request
          else uri request
                 +:+ encodeURIComponent env ("?" +:+ querystring request) in
        let oauthRedirectUri :=
          if String.eqb (_parseAuthPath self) "" then redirectURI
          else "https://" +:+ host request +:+ "/" +:+ _parseAuthPath self in
        headers
          (_getRedirectToCognitoUserPoolResponse env self request redirectURI)
          !! "location"
        = Some (LOCATION
                  (Some ("https://" +:+ _userPoolDomain self
                         +:+ "/authorize?redirect_uri=" +:+ oauthRedirectUri
                         +:+ "&response_type=code&client_id="
                         +:+ _userPoolAppId self +:+ "&state=" +:+ state)))
        /\ headers
             (_getRedirectToCognitoUserPoolResponse env self request
                redirectURI) !! "set-cookie" = None).
Proof.
  split.
  - intros csrf request1 request2 Hcsrf Hhost.
    unfold _getRedirectToCognitoUserPoolResponse.
    by rewrite Hcsrf, Hhost.
  - intros request Hcsrf state oauthRedirectUri.
    unfold _getRedirectToCognitoUserPoolResponse. rewrite Hcsrf.
    subst state oauthRedirectUri.
    destruct (String.eqb (querystring request) ""),
      (String.eqb (_parseAuthPath self) ""); cbn [negb fmap option_fmap];
      split; by simplify_map_eq.
Qed.

Lemma authorize_redirect_and_the_requested_page_witness :
  let env := Demo.env Demo.idp_up in
  let self := Demo.authenticator true false "" ∅ in
  _getRedirectToCognitoUserPoolResponse env self
    (Demo.get "/reports/2024" "q=1" None) "https://d1.example.com"
  = _getRedirectToCognitoUserPoolResponse env self
      (Demo.get "/" "" None) "https://d1.example.com".
Proof.
  intros env self.
  by apply (proj1 (authorize_redirect_and_the_requested_page env self
                     "https://d1.example.com")
              {| nonceSigningSecret := "s3cret" |}).
Defined.

(** ** Refreshing on request and the callback *)

(** X15. [handleRefreshToken] asks the token endpoint for new tokens only for
    a session whose ID token verifies. When the new ID token verifies too,
    the result is the 302 to the [redirect_uri] parameter, or to the site
    root without one, that sets the access token, ID token, scopes and
    last-user cookies of the new tokens and no refresh token cookie: the
    refresh token of the browser is left as it is. *)
Theorem handleRefreshToken_refreshes_valid_sessions env self request :
  let redirectURI :=
    js_or_else (querystring_parse env (querystring request) !! "redirect_uri")
      ("https://" +:+ host request) in
  (forall sent,
     In (EvFetchTokensFromRefreshToken sent)
       (trace (handleRefreshToken env self request)) ->
     exists tokens user,
       _getTokensFromCookie env self (cookie request) = ([], inr tokens)
       /\ jwtVerifier_verify env (idToken tokens) = inr user
       /\ sent = refresh_grant_request env self redirectURI
                   (refreshToken tokens))
  /\ (forall tokens user fetched decoded,
        _getTokensFromCookie env self (cookie request) = ([], inr tokens) ->
        jwtVerifier_verify env (idToken tokens) = inr user ->
        axios_request env
          (refresh_grant_request env self redirectURI (refreshToken tokens))
        = inr fetched ->
        jwtVerifier_verify env (id_token fetched) = inr decoded ->
        let fresh :=
          {| idToken := id_token fetched;
             accessToken := access_token fetched;
             refreshToken := None |} in
        let written :=
          redirect_cookies env self fresh (host request)
            (cognito_username decoded) in
        let usernameBase :=
          _cookieBase self +:+ "." +:+ cognito_username decoded in
        handleRefreshToken env self request
        = ([EvVerify (idToken tokens);
            EvFetchTokensFromRefreshToken
              (refresh_grant_request env self redirectURI
                 (refreshToken tokens));
            EvVerify (id_token fetched)],
           inr (Respond (redirect_with_cookies env (Some redirectURI) written)))
        /\ take 4 (map sc_name written)
           = [ usernameBase +:+ ".accessToken"; usernameBase +:+ ".idToken";
               usernameBase +:+ ".tokenScopesString";
               _cookieBase self +:+ ".LastAuthUser" ]
        /\ Forall (is_clearing (Date_now env)) (drop 4 written)).
Proof.
  cbn zeta. split.
  - intros sent. unfold handleRefreshToken.
    destruct_tokens env self request e tokens.
    + rewrite bind_thrown, try_catch_thrown. by run_flow.
    + rewrite bind_pure. unfold verify, call.
      destruct (jwtVerifier_verify env (idToken tokens)) as [e|user] eqn:Hv.
      * run_flow. cbn. by intros [|[]].
      * intros Hin. exists tokens, user. split; [done|]. split; [done|].
        revert Hin. run_flow; cbn; intros Hin;
          repeat (destruct Hin as [Hin|Hin]); try done; congruence.
  - intros tokens user fetched decoded Htokens Hv Hfetch Hv'.
    split; [|split].
    + unfold handleRefreshToken. rewrite Htokens, bind_pure.
      unfold verify, call. rewrite Hv, bind_split.
      cbn [trace outcome fst snd].
      rewrite _fetchTokensFromRefreshToken_eq, Hfetch. run_flow.
      all: cbn [id_token] in *; congruence.
    + reflexivity.
    + unfold redirect_cookies. cbn [truthy refreshToken app drop].
      destruct (_csrfProtection self); repeat constructor.
Qed.

Lemma handleRefreshToken_refreshes_valid_sessions_witness :
  let env := Demo.env Demo.idp_up in
  let self := Demo.authenticator false false "" ∅ in
  let request :=
    Demo.get "/refresh" "redirect_uri=/inbox" (Some Demo.session_cookies) in
  outcome (handleRefreshToken env self request)
  = inr (Respond
           (redirect_with_cookies env (Some "/inbox")
              (redirect_cookies env self
                 {| idToken := Some "jwt.alice";
                    accessToken := Some "at.alice";
                    refreshToken := None |}
                 "d1.example.com" "alice"))).
Proof.
  intros env self request.
  pose proof (handleRefreshToken_refreshes_valid_sessions env self request)
    as H.
  cbn zeta in H. destruct H as (_ & H).
  destruct (H {| idToken := Some "jwt.alice"; accessToken := None;
                 refreshToken := Some "rt1" |}
              {| cognito_username := "alice" |}
              {| id_token := Some "jwt.alice"; access_token := Some "at.alice";
                 refresh_token := Some "rt.alice" |}
              {| cognito_username := "alice" |}
              ltac:(by vm_compute) ltac:(by vm_compute) ltac:(by vm_compute)
              ltac:(by vm_compute)) as (Hrun & _).
  by rewrite Hrun.
Defined.

(** X16. A callback that succeeds. In [handleParseAuth], with CSRF protection
    on, the validation, the code exchange and the verification of the new ID
    token happen in that order; the code is exchanged for the redirect URI
    [https://<host>/<parseAuthPath>], the same one the authorize redirect
    announces when a callback path is configured; and the result is the 302
    to the [redirect_uri] of the decoded state that sets the cookies of the
    new tokens. *)
Theorem handleParseAuth_signs_in env self request csrf parsedState fetched
    decoded :
  let requestParams := querystring_parse env (querystring request) in
  let callbackURI :=
    "https://" +:+ host request +:+ "/" +:+ _parseAuthPath self in
  let exchange :=
    code_grant_request env self callbackURI (render (requestParams !! "code")) in
  _parseAuthPath self <> "" ->
  truthy (requestParams !! "code") = true ->
  _csrfProtection self = Some csrf ->
  _validateCSRFCookies env self request = ([EvCsrfValidated], inr tt) ->
  axios_request env exchange = inr fetched ->
  decodeState env (requestParams !! "state") = inr (Some parsedState) ->
  jwtVerifier_verify env (id_token fetched) = inr decoded ->
  handleParseAuth env self request
  = ([EvCsrfValidated; EvFetchTokensFromCode exchange;
      EvVerify (id_token fetched)],
     inr (Respond
            (redirect_with_cookies env (ps_redirect_uri parsedState)
               (redirect_cookies env self
                  {| idToken := id_token fetched;
                     accessToken := access_token fetched;
                     refreshToken := refresh_token fetched |}
                  (host request) (cognito_username decoded)))))
  /\ forall anyRequest redirectURI,
       host anyRequest = host request ->
       exists state,
         headers (_getRedirectToCognitoUserPoolResponse env self anyRequest
                    redirectURI) !! "location"
         = Some (LOCATION
                   (Some ("https://" +:+ _userPoolDomain self
                          +:+ "/authorize?redirect_uri=" +:+ callbackURI
                          +:+ "&response_type=code&client_id="
                          +:+ _userPoolAppId self +:+ "&state=" +:+ state))).
Proof.
  intros requestParams callbackURI exchange Hpath Hcode Hcsrf Hvalid Hfetch
    Hstate Hv.
  apply String.eqb_neq in Hpath. split.
  - assert (Hlocation : _getRedirectUriFromState env self
                          (requestParams !! "state")
                        = ([], inr (ps_redirect_uri parsedState))).
    { unfold _getRedirectUriFromState. by rewrite Hcsrf, Hstate. }
    rewrite handleParseAuth_run. cbn zeta.
    fold requestParams. fold callbackURI. fold exchange.
    rewrite Hpath, Hcode, Hcsrf, Hvalid, Hfetch, Hlocation.
    cbn [outcome snd app]. by rewrite Hv.
  - intros anyRequest redirectURI Hhost.
    unfold _getRedirectToCognitoUserPoolResponse.
    rewrite Hpath, Hhost. cbn [negb]. fold callbackURI.
    eexists. by simplify_map_eq.
Qed.

Lemma handleParseAuth_signs_in_witness :
  let env := Demo.env Demo.idp_up in
  let self := Demo.authenticator true false "callback" ∅ in
  let request :=
    Demo.get "/callback"
      "code=abc&state=1700000000T7f3a9c~https://d1.example.com"
      (Some Demo.csrf_cookie_header) in
  trace (handleParseAuth env self request)
  = [EvCsrfValidated;
     EvFetchTokensFromCode
       (code_grant_request env self "https://d1.example.com/callback" "abc");
     EvVerify (Some "jwt.alice")].
Proof.
  intros env self request.
  destruct (handleParseAuth_signs_in env self request
              {| nonceSigningSecret := "s3cret" |}
              {| ps_nonce := Some "1700000000T7f3a9c";
                 ps_redirect_uri := Some "https://d1.example.com" |}
              {| id_token := Some "jwt.alice"; access_token := Some "at.alice";
                 refresh_token := Some "rt.alice" |}
              {| cognito_username := "alice" |}
              ltac:(done) ltac:(by vm_compute) eq_refl ltac:(by vm_compute)
              ltac:(by vm_compute) ltac:(by vm_compute) ltac:(by vm_compute))
    as (Hrun & _).
  by rewrite Hrun.
Defined.

(** ** Overrides and credentials *)

(** X17. Resolving the override of a cookie type again, at a later reading of
    the clock, gives what resolving it once at that reading gives: the fields
    an override defines are replaced by values that do not depend on what
    they replace, and the others are handed on. At one reading of the clock
    the resolution is idempotent. *)
Theorem _getOverridenCookieAttributes_last_resolution env self base cookieType
    now1 now2 :
  _getOverridenCookieAttributes (at_instant env now2) self
    (_getOverridenCookieAttributes (at_instant env now1) self base cookieType)
    cookieType
  = _getOverridenCookieAttributes (at_instant env now2) self base cookieType
  /\ _getOverridenCookieAttributes env self
       (_getOverridenCookieAttributes env self base cookieType) cookieType
     = _getOverridenCookieAttributes env self base cookieType.
Proof.
  rewrite !_getOverridenCookieAttributes_fields.
  destruct (_cookieSettingsOverrides self !! cookieType) as [o|]; [|done].
  by destruct (ov_httpOnly o), (ov_sameSite o), (ov_path o),
    (ov_expirationDays o).
Qed.

Lemma authorization_header_basic env self :
  authorization_header env self = basic_authorization env self.
Proof.
  unfold authorization_header, _getAuthorization, basic_authorization.
  destruct (_userPoolAppSecret self) as [secret|]; [|done].
  cbn [truthy render default from_option]. unfold id.
  destruct (String.eqb secret "") eqn:Hsecret; cbn [negb truthy from_option].
  - by rewrite Hsecret.
  - by destruct (String.eqb (base64 env _) "").
Qed.

Lemma code_grant_request_call env self redirectURI code :
  is_identity_provider_call env self
    (EvFetchTokensFromCode (code_grant_request env self redirectURI code)).
Proof.
  repeat split; [apply authorization_header_basic | by eexists].
Qed.

Lemma refresh_grant_request_call env self redirectURI refreshToken :
  is_identity_provider_call env self
    (EvFetchTokensFromRefreshToken
       (refresh_grant_request env self redirectURI refreshToken)).
Proof.
  repeat split; [apply authorization_header_basic | by eexists].
Qed.

Lemma revoke_request_call env self tokens :
  is_identity_provider_call env self
    (EvRevokeTokens (revoke_request env self tokens)).
Proof.
  repeat split; [apply authorization_header_basic | by eexists].
Qed.

(** A trace made of verifications, validations and requests built by the
    three request builders. *)
Ltac identity_provider_calls :=
  repeat first
    [ apply List.Forall_nil
    | apply Forall_app_2
    | apply List.Forall_cons;
      [ first [ exact I
              | apply code_grant_request_call
              | apply refresh_grant_request_call
              | apply revoke_request_call ] | ] ].

Lemma handle_catch_calls env self request :
  Forall (is_identity_provider_call env self)
    (trace (handle_catch env self request)).
Proof.
  rewrite handle_catch_run. cbn zeta.
  repeat case_match; cbn [trace fst]; identity_provider_calls.
Qed.

(** X18. Whatever a flow does, every call it makes over the network is a
    POST to the user pool domain, to [/oauth2/token] for an exchange and to
    [/oauth2/revoke] for a revoke, with a form that starts with the
    [client_id] of the application and with one Authorization header: none
    without an application secret or with an empty one, and otherwise
    [Basic] followed by the base64 encoding of [<appId>:<secret>]. *)
Theorem requests_to_the_identity_provider env self request :
  Forall (is_identity_provider_call env self) (trace (handle env self request))
  /\ Forall (is_identity_provider_call env self)
       (trace (handleSignIn env self request))
  /\ Forall (is_identity_provider_call env self)
       (trace (handleParseAuth env self request))
  /\ Forall (is_identity_provider_call env self)
       (trace (handleRefreshToken env self request))
  /\ Forall (is_identity_provider_call env self)
       (trace (handleSignOut env self request)).
Proof.
  pose proof (handle_catch_calls env self request) as Hcatch.
  assert (Hout : Forall (is_identity_provider_call env self)
                   (trace (handleSignOut env self request))).
  { rewrite handleSignOut_run. unfold sign_out_calls.
    repeat case_match; cbn [trace fst]; identity_provider_calls. }
  repeat apply conj; [| | | |done].
  - rewrite handle_run. cbn zeta.
    repeat case_match; cbn [trace fst]; try done; identity_provider_calls;
      done.
  - rewrite handleSignIn_run. cbn zeta.
    repeat case_match; cbn [trace fst]; identity_provider_calls.
  - rewrite handleParseAuth_run. cbn zeta.
    destruct (_validateCSRFCookies_cases env self request) as [[e ->] | ->].
    all: repeat case_match; simplify_eq; cbn [trace fst];
      identity_provider_calls.
  - rewrite handleRefreshToken_run. cbn zeta.
    repeat case_match; cbn [trace fst]; identity_provider_calls.
Qed.

(** ** Construction *)

Lemma matches_slash_word_iff (s : string) :
  matches_slash_word s = true
  <-> exists before c after,
        s = before +:+ String "/" (String c after) /\ is_word_char c = true.
Proof.
  split.
  - induction s as [|a s IH]; [done|]. cbn [matches_slash_word].
    intros [[Ha Hs]%andb_true_iff | Hrest]%orb_true_iff.
    + apply Ascii.eqb_eq in Ha as ->. destruct s as [|d s]; [done|].
      by exists "", d, s.
    + destruct (IH Hrest) as (before & c & after & -> & Hc).
      by exists (String a before), c, after.
  - intros (before & c & after & -> & Hc).
    induction before as [|a before IH].
    + change ("" +:+ ?x) with x. cbn [matches_slash_word].
      by rewrite Ascii.eqb_refl, Hc.
    + change (String a before +:+ ?x) with (String a (before +:+ x)).
      cbn [matches_slash_word]. rewrite IH. apply orb_true_r.
Qed.

Lemma matches_slash_word_length (s : string) :
  matches_slash_word s = true -> (2 <= String.length s)%nat.
Proof.
  induction s as [|a s IH]; [done|]. cbn [matches_slash_word String.length].
  intros [[_ Hs]%andb_true_iff | Hrest]%orb_true_iff.
  - destruct s; [done | cbn; lia].
  - specialize (IH Hrest). lia.
Qed.

Lemma startsWith_length (s p : string) :
  startsWith s p = true -> (String.length p <= String.length s)%nat.
Proof.
  unfold startsWith. revert s. induction p as [|a p IH]; intros s H.
  - cbn. lia.
  - destruct s as [|b s]; [done|]. cbn [String.prefix] in H.
    destruct (ascii_dec a b); [|done]. specialize (IH s H). cbn. lia.
Qed.

(** What [_verifyParams] checks, as propositions. *)
Lemma _verifyParams_cases params :
  let valid_sameSite :=
    forall v, p_sameSite params = Some v -> v ∈ SAME_SITE_VALUES in
  let valid_logoutUri :=
    forall lc,
      p_logoutConfiguration params = Some lc ->
      exists before c after,
        logoutUri lc = before +:+ String "/" (String c after)
        /\ is_word_char c = true in
  (_verifyParams params = Some InvalidSameSite /\ ~ valid_sameSite)
  \/ (_verifyParams params = Some InvalidLogoutUri
      /\ valid_sameSite /\ ~ valid_logoutUri)
  \/ (_verifyParams params = None /\ valid_sameSite /\ valid_logoutUri).
Proof.
  cbn zeta. unfold _verifyParams.
  assert (Hlogout :
    ((match p_logoutConfiguration params with
      | Some lc => negb (matches_slash_word (logoutUri lc))
      | None => false
      end) = true
     /\ ~ forall lc,
           p_logoutConfiguration params = Some lc ->
           exists before c after,
             logoutUri lc = before +:+ String "/" (String c after)
             /\ is_word_char c = true)
    \/ ((match p_logoutConfiguration params with
         | Some lc => negb (matches_slash_word (logoutUri lc))
         | None => false
         end) = false
        /\ forall lc,
             p_logoutConfiguration params = Some lc ->
             exists before c after,
               logoutUri lc = before +:+ String "/" (String c after)
               /\ is_word_char c = true)).
  { destruct (p_logoutConfiguration params) as [lc|]; [|by right].
    destruct (matches_slash_word (logoutUri lc)) eqn:Hlc; cbn [negb].
    - right. split; [done|]. intros lc' [= <-].
      by apply matches_slash_word_iff.
    - left. split; [done|]. intros H. specialize (H lc eq_refl).
      apply matches_slash_word_iff in H. congruence. }
  destruct (p_sameSite params) as [v|].
  - destruct (decide (v ∈ SAME_SITE_VALUES)) as [Hin|Hout].
    + rewrite (bool_decide_eq_true_2 _ Hin). cbn [negb].
      assert (Hsame : forall v', Some v = Some v' -> v' ∈ SAME_SITE_VALUES)
        by (by intros ? [= <-]).
      destruct Hlogout as [[-> Hno] | [-> Hyes]]; [right; left | right; right];
        done.
    + rewrite (bool_decide_eq_false_2 _ Hout). cbn [negb].
      left. split; [done|]. intros H. by specialize (H v eq_refl).
  - destruct Hlogout as [[-> Hno] | [-> Hyes]]; [right; left | right; right];
      done.
Qed.

(** X19. What the constructor accepts, for parameters of the declared types.
    In this order it rejects a [sameSite] other than Strict, Lax and None; a
    logout configuration whose [logoutUri] has nowhere a slash followed by a
    letter, a digit or an underscore; a log level the logger refuses; and a
    user pool and application the verifier factory refuses. It accepts
    everything else. The slash may be anywhere: the URI is not required to
    start with it. *)
Theorem constructor_accepts env params :
  let valid_sameSite :=
    forall v, p_sameSite params = Some v -> v ∈ SAME_SITE_VALUES in
  let valid_logoutUri :=
    forall lc,
      p_logoutConfiguration params = Some lc ->
      exists before c after,
        logoutUri lc = before +:+ String "/" (String c after)
        /\ is_word_char c = true in
  let logger := pino env (js_or_else (p_logLevel params) "silent") in
  let verifier :=
    CognitoJwtVerifier_create env (p_userPoolId params)
      (p_userPoolAppId params) in
  (constructor env params = inl InvalidSameSite <-> ~ valid_sameSite)
  /\ (constructor env params = inl InvalidLogoutUri
      <-> valid_sameSite /\ ~ valid_logoutUri)
  /\ (forall e,
        constructor env params = inl (LoggerError e)
        <-> valid_sameSite /\ valid_logoutUri /\ logger = inl e)
  /\ (forall e,
        constructor env params = inl (VerifierError e)
        <-> valid_sameSite /\ valid_logoutUri
            /\ (exists u, logger = inr u) /\ verifier = inl e)
  /\ ((exists self, constructor env params = inr self)
      <-> valid_sameSite /\ valid_logoutUri
          /\ (exists u, logger = inr u) /\ exists u, verifier = inr u).
Proof.
  cbn zeta. unfold constructor.
  destruct (_verifyParams_cases params)
    as [(-> & Hsame) | [(-> & Hsame & Hlogout) | (-> & Hsame & Hlogout)]].
  3: destruct (pino env _) as [e|u];
       [|destruct (CognitoJwtVerifier_create env _ _) as [e|u']].
  all: repeat (apply conj || intro).
  all: try done.
  all: repeat match goal with
         | H : _ /\ _ |- _ => destruct H
         | H : exists _, _ |- _ => destruct H
         end.
  all: simplify_eq; try done; try tauto; try (by eexists); eauto.
Qed.

Lemma constructor_fields env params self :
  constructor env params = inr self ->
  self = instance_fields params
  /\ (forall lc, p_logoutConfiguration params = Some lc ->
                 matches_slash_word (logoutUri lc) = true).
Proof.
  unfold constructor.
  destruct (_verifyParams_cases params)
    as [(-> & _) | [(-> & _) | (-> & _ & Hlogout)]]; [done..|].
  destruct (pino env _); [done|].
  destruct (CognitoJwtVerifier_create env _ _); [done|].
  intros [= <-]. split; [done|].
  intros lc Hlc. apply matches_slash_word_iff. by apply Hlogout.
Qed.

(** X20. An authenticator that was constructed never has a cookie lifetime of
    zero days: a [cookieExpirationDays] that is left out or zero becomes 365,
    any other number of days is kept. So among the cookies of the set-cookie
    redirect, one that expires at the very instant it is written is either
    one of the CSRF cookies being cleared, or a token cookie whose type has
    an override with a lifetime of zero days. *)
Theorem constructor_cookie_lifetime env0 params self :
  constructor env0 params = inr self ->
  _cookieExpirationDays self <> 0
  /\ (p_cookieExpirationDays params = None
      \/ p_cookieExpirationDays params = Some 0 ->
      _cookieExpirationDays self = 365)
  /\ (forall days,
        p_cookieExpirationDays params = Some days -> days <> 0 ->
        _cookieExpirationDays self = days)
  /\ forall env tokens cfDomain username c,
       In c (redirect_cookies env self tokens cfDomain username) ->
       expires (sc_attributes c) = Some (Date_now env) ->
       (sc_value c = Some ""
        /\ domain (sc_attributes c) = None
        /\ exists csrf, _csrfProtection self = Some csrf)
       \/ exists kind o,
            In kind ["accessToken"; "idToken"; "refreshToken"]
            /\ sc_name c
               = (_cookieBase self +:+ "." +:+ username) +:+ "." +:+ kind
            /\ _cookieSettingsOverrides self !! kind = Some o
            /\ ov_expirationDays o = Some 0.
Proof.
  intros (Hself & _)%constructor_fields.
  assert (Hdays : _cookieExpirationDays self
                  = match p_cookieExpirationDays params with
                    | Some days => if days =? 0 then 365 else days
                    | None => 365
                    end) by by subst self.
  clear Hself.
  assert (Hnonzero : _cookieExpirationDays self <> 0).
  { rewrite Hdays. destruct (p_cookieExpirationDays params) as [days|];
      [|done]. destruct (Z.eqb_spec days 0); [done | lia]. }
  split; [done|]. split; [|split].
  - intros [Hp | Hp]; by rewrite Hdays, Hp.
  - intros days Hp Hd. rewrite Hdays, Hp.
    by destruct (Z.eqb_spec days 0).
  - intros env tokens cfDomain username c Hin Hexpires.
    assert (Hbase : forall kind,
      expires (_getOverridenCookieAttributes env self
                 (base_attributes env self cfDomain
                    (Date_now env + _cookieExpirationDays self * 86400000))
                 kind) = Some (Date_now env) ->
      exists o, _cookieSettingsOverrides self !! kind = Some o
                /\ ov_expirationDays o = Some 0).
    { intros kind. rewrite _getOverridenCookieAttributes_fields.
      destruct (_cookieSettingsOverrides self !! kind) as [o|].
      - cbn [expires]. destruct (ov_expirationDays o) as [d|] eqn:Hd.
        + intros [= H]. exists o. split; [done|]. rewrite Hd. f_equal. lia.
        + cbn. intros [= H]. lia.
      - cbn. intros [= H]. lia. }
    unfold redirect_cookies in Hin.
    apply in_app_or in Hin as [Hin | Hin];
      [|apply in_app_or in Hin as [Hin | Hin];
        [|apply in_app_or in Hin as [Hin | Hin]]].
    + destruct Hin as [<- | [<- | []]]; cbn [sc_attributes] in Hexpires;
        destruct (Hbase _ Hexpires) as (o & Ho & Hzero); right;
        [exists "accessToken", o | exists "idToken", o];
        (split; [cbn; tauto|]); by split.
    + destruct (truthy (refreshToken tokens)); [|done].
      destruct Hin as [<- | []]. cbn [sc_attributes] in Hexpires.
      destruct (Hbase _ Hexpires) as (o & Ho & Hzero). right.
      exists "refreshToken", o. (split; [cbn; tauto|]). by split.
    + destruct Hin as [<- | [<- | []]]; cbn in Hexpires;
        injection Hexpires as H; lia.
    + destruct (_csrfProtection self) as [csrf|] eqn:Hcsrf; [|done].
      left. destruct Hin as [<- | [<- | [<- | []]]]; eauto.
Qed.

Lemma constructor_cookie_lifetime_witness :
  exists self,
    constructor (Demo.env Demo.idp_up) (demo_params "/logout" "/callback" 0)
    = inr self
    /\ _cookieExpirationDays self = 365.
Proof.
  eexists. split; [reflexivity|].
  destruct (constructor_cookie_lifetime (Demo.env Demo.idp_up)
              (demo_params "/logout" "/callback" 0) _ eq_refl)
    as (_ & Hdefault & _).
  apply Hdefault. by right.
Defined.

(** X21. The callback path is kept without its leading slash, so [/callback]
    and [callback] configure the same path. A path that is left out, empty
    or just [/] leaves the authenticator without callback path, and
    [handleParseAuth] then answers every request with the 400 response that
    says so, without calling anybody. *)
Theorem constructor_parseAuthPath env0 params self :
  constructor env0 params = inr self ->
  (forall path,
     path <> "" ->
     p_parseAuthPath params = Some ("/" +:+ path)
     \/ (p_parseAuthPath params = Some path
         /\ String.prefix "/" path = false) ->
     _parseAuthPath self = path)
  /\ (p_parseAuthPath params = None \/ p_parseAuthPath params = Some ""
      \/ p_parseAuthPath params = Some "/" ->
      _parseAuthPath self = ""
      /\ forall env request,
           handleParseAuth env self request
           = ([], inr (Respond (bad_request ParseAuthPathNotSet)))).
Proof.
  intros (Hself & _)%constructor_fields.
  assert (Hpath : _parseAuthPath self
                  = strip_leading_slash
                      (if truthy (p_parseAuthPath params)
                       then render (p_parseAuthPath params) else ""))
    by by subst self.
  clear Hself. split.
  - intros path Hne [Hp | [Hp Hslash]]; rewrite Hpath, Hp.
    + reflexivity.
    + destruct path as [|c path]; [done|].
      cbn [truthy String.eqb negb render default from_option id
             strip_leading_slash].
      destruct (Ascii.eqb_spec c "/") as [->|]; [|done].
      vm_compute in Hslash. by destruct path.
  - intros Hp.
    assert (Hempty : _parseAuthPath self = "").
    { rewrite Hpath. by destruct Hp as [-> | [-> | ->]]. }
    split; [done|]. intros env request.
    unfold handleParseAuth. by rewrite Hempty.
Qed.

Lemma constructor_parseAuthPath_witness :
  exists self,
    constructor (Demo.env Demo.idp_up) (demo_params "/logout" "/" 30)
    = inr self
    /\ forall env request,
         handleParseAuth env self request
         = ([], inr (Respond (bad_request ParseAuthPathNotSet))).
Proof.
  eexists. split; [reflexivity|].
  destruct (constructor_parseAuthPath (Demo.env Demo.idp_up)
              (demo_params "/logout" "/" 30) _ eq_refl)
    as (_ & Hunset).
  apply Hunset. by right; right.
Defined.

(** X22. For an authenticator that was constructed, a request for the site
    root [/], or for any URI shorter than two characters, is never a logout
    request: the [logoutUri] the constructor accepted has at least two
    characters, and the logout test asks the URI to start with it. *)
Theorem constructor_site_root_is_not_logout env0 params self request :
  constructor env0 params = inr self ->
  (String.length (uri request) < 2)%nat ->
  is_logout_request self request = false.
Proof.
  intros (-> & Hvalid)%constructor_fields Hshort.
  unfold is_logout_request. cbn [_logoutConfiguration instance_fields].
  destruct (p_logoutConfiguration params) as [lc|]; [|done].
  destruct (startsWith (uri request) (logoutUri lc)) eqn:Hstarts; [|done].
  apply startsWith_length in Hstarts.
  pose proof (matches_slash_word_length _ (Hvalid lc eq_refl)). lia.
Qed.

Lemma constructor_site_root_is_not_logout_witness :
  exists self,
    constructor (Demo.env Demo.idp_up) (demo_params "/logout" "/callback" 30)
    = inr self
    /\ is_logout_request self (Demo.get "/" "" None) = false.
Proof.
  eexists. split; [reflexivity|].
  apply (constructor_site_root_is_not_logout (Demo.env Demo.idp_up)
           (demo_params "/logout" "/callback" 30) _ _ eq_refl).
  cbn. lia.
Defined.

(** ** The callback in the default flow *)

(** X23. [handle] as callback, with CSRF protection off: for a request
    without usable token cookies, outside the logout path and with a code,
    when the exchange succeeds and the new ID token verifies, the only calls
    are the exchange, for the redirect URI [https://<host>], and the
    verification, and the result is the 302 that sets the cookies of the new
    tokens and whose Location is the [state] parameter as it was received.
    The refresh token cookie is among them when the exchange returned a
    refresh token that is not empty. *)
Theorem handle_signs_in_on_callback env self request e fetched decoded :
  let requestParams := querystring_parse env (querystring request) in
  let exchange :=
    code_grant_request env self ("https://" +:+ host request)
      (render (requestParams !! "code")) in
  let tokens :=
    {| idToken := id_token fetched;
       accessToken := access_token fetched;
       refreshToken := refresh_token fetched |} in
  let written :=
    redirect_cookies env self tokens (host request)
      (cognito_username decoded) in
  _getTokensFromCookie env self (cookie request) = ([], inl e) ->
  is_logout_request self request = false ->
  truthy (requestParams !! "code") = true ->
  _csrfProtection self = None ->
  axios_request env exchange = inr fetched ->
  jwtVerifier_verify env (id_token fetched) = inr decoded ->
  handle env self request
  = ([EvFetchTokensFromCode exchange; EvVerify (id_token fetched)],
     inr (Respond (redirect_with_cookies env (requestParams !! "state") written)))
  /\ length written
     = (if truthy (refresh_token fetched) then 5 else 4)%nat
  /\ (truthy (refresh_token fetched) = true ->
      written !! 2%nat
      = Some {| sc_name :=
                  (_cookieBase self +:+ "." +:+ cognito_username decoded)
                    +:+ ".refreshToken";
                sc_value := refresh_token fetched;
                sc_attributes :=
                  _getOverridenCookieAttributes env self
                    (base_attributes env self (host request)
                       (Date_now env + _cookieExpirationDays self * 86400000))
                    "refreshToken" |}).
Proof.
  intros requestParams exchange tokens written Htokens Hlogout Hcode Hcsrf
    Hfetch Hv.
  split; [|split].
  - unfold handle. rewrite Htokens, bind_thrown, try_catch_thrown.
    unfold handle_catch. fold requestParams. rewrite Hlogout, Hcode.
    rewrite _fetchTokensFromCode_eq. fold exchange. rewrite Hfetch.
    unfold _getRedirectUriFromState. rewrite Hcsrf. subst written tokens.
    run_flow; cbn [id_token] in *; congruence.
  - subst written. unfold redirect_cookies. rewrite Hcsrf.
    cbn [refreshToken tokens]. by destruct (truthy (refresh_token fetched)).
  - intros Hrefresh. subst written. unfold redirect_cookies.
    cbn [refreshToken tokens]. by rewrite Hrefresh.
Qed.

Lemma handle_signs_in_on_callback_witness :
  let env := Demo.env Demo.idp_up in
  let self := Demo.authenticator false false "" ∅ in
  let request := Demo.get "/" "code=abc&state=/reports" None in
  handle env self request
  = ([EvFetchTokensFromCode
        (code_grant_request env self "https://d1.example.com" "abc");
      EvVerify (Some "jwt.alice")],
     inr (Respond
            (redirect_with_cookies env (Some "/reports")
               (redirect_cookies env self
                  {| idToken := Some "jwt.alice";
                     accessToken := Some "at.alice";
                     refreshToken := Some "rt.alice" |}
                  "d1.example.com" "alice")))).
Proof.
  intros env self request.
  by apply (handle_signs_in_on_callback env self request CookiesNotPresent
              {| id_token := Some "jwt.alice"; access_token := Some "at.alice";
                 refresh_token := Some "rt.alice" |}
              {| cognito_username := "alice" |}).
Defined.
